(** * Kimera-VIO pipeline orchestrator ([src/pipeline/Pipeline.cpp])

    A shallow embedding of [VIO::Pipeline]: the per-frame procedure
    [spinOnce], keyframe dispatch [processKeyframe], the bootstrap in [spin],
    and the thread life cycle ([launchThreads], [stopThreads], [joinThreads],
    [shutdown]).

    The orchestrator is sequential code that talks to collaborators living in
    other translation units (the stereo front-end, the VIO back-end, the
    thread-safe queues and the three worker threads).  Its own state -- the
    members of [Pipeline] and the function-local statics of [spin] and
    [spinOnce] -- is threaded explicitly through a small state/halt monad,
    and every call that leaves the orchestrator is appended to a trace.  The
    collaborators are interfaces: the front-end is a type class over its own
    state, and whatever the concurrently running workers answer is given by
    an environment that may depend on the whole history of calls. *)

From Stdlib Require Import ZArith List Bool Lia Sorted.
Import ListNotations.
Local Open Scope Z_scope.

Set Implicit Arguments.

(** ** Types owned by other libraries (gtsam, OpenCV, Eigen columns) *)

Class ExternalTypes : Type := {
  Pose3 : Type;                  (* gtsam::Pose3 *)
  Rot3 : Type;                   (* gtsam::Rot3 *)
  Cal3_S2 : Type;                (* gtsam::Cal3_S2 *)
  Scalar : Type;                 (* double *)
  ImuAccGyr : Type;              (* one 6x1 column of an ImuAccGyrS matrix *)
  Image : Type;                  (* cv::Mat *)
  Vec6f : Type;                  (* cv::Vec6f, one 2D triangle *)
  Point3 : Type;                 (* gtsam::Point3 *)
  StereoPoint2 : Type;           (* gtsam::StereoPoint2 *)
  TrackerStatusSummary : Type;
  TrackingStatus : Type;         (* Tracker::TrackingStatus *)
  LmkType : Type;
  Mesh2DT : Type;                (* Mesher::Mesh2D *)
  Mesh3DT : Type;                (* Mesher::Mesh3D *)
  Mesh3DColors : Type;
  PlaneT : Type;
  Matrix : Type;                 (* gtsam::Matrix, the state covariance *)
  FactorGraph : Type;
  Values : Type;
  VioBackEndParams : Type;
  VioBackEndOutputPayload : Type;
  (* values of default-constructed objects and of fresh Eigen columns *)
  empty_Mesh2D : Mesh2DT;
  empty_Mesh3D : Mesh3DT;
  default_Mesh3DColors : Mesh3DColors;
  fresh_ImuAccGyr : ImuAccGyr;
  (* gtsam::Pose3 operations the orchestrator itself applies *)
  pose_compose : Pose3 -> Pose3 -> Pose3;
  pose_between : Pose3 -> Pose3 -> Pose3;
  (* UtilsOpenCV::NsecToSec: nanoseconds to seconds, a double *)
  NsecToSec : Z -> Scalar
}.

Abbreviation Timestamp := Z (only parsing).
Abbreviation FrameId := Z (only parsing).
Abbreviation LandmarkId := Z (only parsing).

Section DataModel.
Context {T : ExternalTypes}.

(** [ImuStampS] is a 1 x n matrix and [ImuAccGyrS] a 6 x n matrix; both are
    kept as the list of their columns. *)
Definition ImuStampS := list Timestamp.
Definition ImuAccGyrS := list ImuAccGyr.

Record Frame : Type := {
  img_ : Image;
  createMesh2D : list Vec6f
}.

Record StereoFrame : Type := {
  getFrameId : FrameId;
  getTimestamp : Timestamp;
  getLeftFrame : Frame;
  isKeyframe : bool;
  getBPoseCamLRect : Pose3;
  getLeftUndistRectCamMat : Cal3_S2;
  getBaseline : Scalar;
  createMesh2dStereo : list Vec6f
}.

Record StereoImuSyncPacket : Type := {
  getStereoFrame : StereoFrame;
  getImuStamps : ImuStampS;
  getImuAccGyr : ImuAccGyrS
}.

Definition SmartStereoMeasurements := list (LandmarkId * StereoPoint2).
Definition StatusSmartStereoMeasurements : Type :=
  (TrackerStatusSummary * SmartStereoMeasurements)%type.

Definition PointsWithIdMap := list (LandmarkId * Point3).
Definition LmkIdToLmkTypeMap := list (LandmarkId * LmkType).
Definition PlaneS := list PlaneT.
(** [StampedPose]: a pose and its time in seconds. *)
Definition StampedPose : Type := (Pose3 * Scalar)%type.

(** [VisualizationType], in the order of the values of [FLAGS_viz_type]. *)
Inductive VisualizationType : Type :=
| POINTCLOUD
| POINTCLOUD_REPEATEDPOINTS
| MESH2D
| MESH2DTo3D
| MESH2Dsparse
| MESH2DTo3Dsparse
| MESH3D
| NONE
| UNLISTED (v : Z).

(** [static_cast<VisualizationType>(FLAGS_viz_type)]. *)
Definition VisualizationType_of_flag (v : Z) : VisualizationType :=
  match v with
  | 0 => POINTCLOUD
  | 1 => POINTCLOUD_REPEATEDPOINTS
  | 2 => MESH2D
  | 3 => MESH2DTo3D
  | 4 => MESH2Dsparse
  | 5 => MESH2DTo3Dsparse
  | 6 => MESH3D
  | 7 => NONE
  | _ => UNLISTED v
  end.

Definition is_NONE (v : VisualizationType) : bool :=
  match v with NONE => true | _ => false end.

Record VioBackEndInputPayload : Type := {
  bi_timestamp_kf_nsec_ : Timestamp;
  bi_status_smart_stereo_measurements_kf_ : StatusSmartStereoMeasurements;
  bi_stereo_tracking_status_ : TrackingStatus;
  bi_imu_stamps_ : ImuStampS;
  bi_imu_accgyr_ : ImuAccGyrS;
  bi_planes_ : PlaneS;            (* the pointee of [&planes_] at push time *)
  bi_stereo_ransac_body_pose_ : Pose3
}.

Record MesherInputPayload : Type := {
  mi_points_with_id_vio_ : PointsWithIdMap;
  mi_stereo_frame_ : StereoFrame;
  mi_left_camera_pose_ : Pose3
}.

Record MesherOutputPayload : Type := {
  mesh_2d_ : Mesh2DT;
  mesh_3d_ : Mesh3DT
}.

(** [MesherOutputPayload mesher_output_payload;] *)
Definition default_MesherOutputPayload : MesherOutputPayload :=
  {| mesh_2d_ := empty_Mesh2D; mesh_3d_ := empty_Mesh3D |}.

Record VisualizerInputPayload : Type := {
  vi_visualization_type_ : VisualizationType;
  vi_backend_type_ : Z;
  vi_pose_ : Pose3;
  vi_mesh_2d_ : list Vec6f;
  vi_colors_ : Mesh3DColors;
  vi_left_stereo_keyframe_ : Frame;
  vi_mesher_output_payload_ : MesherOutputPayload;
  vi_points_with_id_VIO_ : PointsWithIdMap;
  vi_lmk_id_to_lmk_type_map_ : LmkIdToLmkTypeMap;
  vi_planes_ : PlaneS;
  vi_graph_ : FactorGraph;
  vi_values_ : Values;
  vi_points_3d_ : list Point3;
  vi_timestamp_k_ : Timestamp
}.

Record VisualizerOutputPayload : Type := {
  visualization_type_ : VisualizationType;
  images_to_display_ : list (Z * Image)     (* ImageToDisplay: name_, image_ *)
}.

(** ** The fixed pipeline graph: six queues, three workers *)

Inductive Queue : Type :=
| backend_input_queue_ | backend_output_queue_
| mesher_input_queue_ | mesher_output_queue_
| visualizer_input_queue_ | visualizer_output_queue_.

Inductive Worker : Type := backend_thread_ | mesher_thread_ | visualizer_thread_.

Definition Queue_eqb (a b : Queue) : bool :=
  match a, b with
  | backend_input_queue_, backend_input_queue_
  | backend_output_queue_, backend_output_queue_
  | mesher_input_queue_, mesher_input_queue_
  | mesher_output_queue_, mesher_output_queue_
  | visualizer_input_queue_, visualizer_input_queue_
  | visualizer_output_queue_, visualizer_output_queue_ => true
  | _, _ => false
  end.

Definition Worker_eqb (a b : Worker) : bool :=
  match a, b with
  | backend_thread_, backend_thread_
  | mesher_thread_, mesher_thread_
  | visualizer_thread_, visualizer_thread_ => true
  | _, _ => false
  end.

(** A [std::thread] member: default-constructed, running a worker loop, or
    already joined.  Only a running thread is joinable. *)
Inductive ThreadState : Type := NotStarted | Running | Joined.

Definition joinable (t : ThreadState) : bool :=
  match t with Running => true | _ => false end.

Inductive WarningMsg : Type :=
| Mesher_output_queue_did_not_pop_a_payload
| Visualizer_is_lagging_behind_pipeline_processing.

Inductive LoggerCall : Type :=
| openLogFiles
| displayInitialStateVioInfo
| logFrontendResults
| logBackendResults
| closeLogFiles.

(** The constructor of the back-end chosen by [initBackend]. *)
Inductive BackendVariant : Type :=
| NormalVio
| RegularVio (modality : Z).

Record VioBackEnd : Type := {
  be_variant : BackendVariant;
  be_B_Pose_camLrect : Pose3;
  be_left_undist_rect_cam_mat : Cal3_S2;
  be_baseline : Scalar;
  be_initial_state_gt : option Pose3;
  be_timestamp_k : Timestamp;
  be_imu_accgyr : ImuAccGyrS;
  be_vio_params : VioBackEndParams;
  be_log_output : bool
}.

(** ** Trace of the calls that leave the orchestrator *)

Inductive Event : Type :=
| EvProcessFirstStereoFrame (f : StereoFrame)
| EvConstructBackend (b : VioBackEnd)
| EvLaunchThread (w : Worker)
| EvPreintegrateGyro (stamps : ImuStampS) (accgyr : ImuAccGyrS)
| EvProcessStereoFrame (f : StereoFrame) (R : Rot3)
| EvProcessKeyframe (k : FrameId) (ssm : StatusSmartStereoMeasurements)
    (timestamp_k timestamp_lkf : Timestamp)
    (stamps : ImuStampS) (accgyr : ImuAccGyrS)
| EvFeatureSelect (ssm : StatusSmartStereoMeasurements)
    (poses : list StampedPose)
| EvBackendPush (p : VioBackEndInputPayload)
| EvMesherPush (p : MesherInputPayload)
| EvVisualizerPush (p : VisualizerInputPayload)
| EvPopBlocking (q : Queue)
| EvGetMapLmkIdsTo3dPointsInTimeHorizon (with_lmk_types : bool)
    (min_age : option Z)
| EvGet3DPoints
| EvCreateMesh2D (f : StereoFrame)
| EvCreateMesh2dStereo (f : StereoFrame)
| EvSemanticMeshSegmentation (m : MesherOutputPayload)
| EvWindowSpinOnce
| EvImshow (name : Z)
| EvWaitKey
| EvWarning (w : WarningMsg)
| EvLogger (what : LoggerCall)
| EvQueueShutdown (q : Queue)
| EvWorkerShutdown (w : Worker)
| EvJoin (w : Worker).


(** ** Collaborators *)

(** The stereo front-end ([StereoVisionFrontEnd]), as the orchestrator uses
    it: two processing entry points and the members it reads afterwards. *)
Class StereoVisionFrontEnd (FE : Type) : Type := {
  processFirstStereoFrame : StereoFrame -> FE -> FE;
  processStereoFrame :
    StereoFrame -> Rot3 -> FE -> StatusSmartStereoMeasurements * FE;
  stereoFrame_km1_ : FE -> StereoFrame;
  stereoFrame_lkf_ : FE -> StereoFrame;
  kfTrackingStatus_stereo_ : FE -> TrackingStatus;
  getRelativePoseBodyStereo : FE -> Pose3
}.

(** What the queries of [vio_backend_] answer at some instant.  The back-end
    object is updated by its own thread, so the answers are read from the
    environment at every call. *)
Record BackendView : Type := {
  preintegrateGyroMeasurements : ImuStampS -> ImuAccGyrS -> Rot3;
  getWPoseBLkf : Pose3;
  getBPoseLeftCam : Pose3;
  getCurrKfId : Z;
  getCurrentStateCovariance : Matrix;
  getMapLmkIdsTo3dPointsInTimeHorizon :
    bool -> option Z -> PointsWithIdMap * LmkIdToLmkTypeMap;
  get3DPoints : list Point3;
  getFactorsUnsafe : FactorGraph;
  getState : Values
}.

(** Modelled from the spec: [ThreadsafeQueue::popBlocking] is declared in
    utils/ThreadsafeQueue.h, which is not part of the sources.  The spec
    (4.3) has it suspend the caller until a value is available or the channel
    is shut down, in which case it returns an empty/failure indicator.  The
    caller therefore sees a value, a failure, or never returns. *)
Inductive PopOutcome (A : Type) : Type :=
| Popped (a : A)
| PopFailed
| PopNever.

(** Everything outside the orchestrator's own thread.  The answers may depend
    on the history of calls made so far. *)
Class Environment : Type := {
  backend_view : list Event -> BackendView;
  backend_output_pop : list Event -> PopOutcome VioBackEndOutputPayload;
  mesher_output_pop : list Event -> PopOutcome MesherOutputPayload;
  visualizer_output_pop : list Event -> PopOutcome VisualizerOutputPayload;
  (* ETHDatasetParser::getGroundTruthState(t).pose_ *)
  getGroundTruthState : Timestamp -> Pose3;
  (* round(featureSelectionHorizon_ / intra_keyframe_time_) *)
  nrKfInHorizon : nat;
  (* UtilsOpenCV::SecToNsec(kk * intra_keyframe_time_) *)
  SecToNsec_intra_keyframe_time : nat -> Z;
  (* FeatureSelector::splitTrackedAndNewFeatures_Select_Display *)
  splitTrackedAndNewFeatures_Select_Display :
    StereoFrame -> SmartStereoMeasurements -> Z -> Z -> list StampedPose ->
    Matrix -> Frame -> SmartStereoMeasurements
}.

(** ** Configuration *)

Record Flags : Type := {
  FLAGS_log_output : bool;
  FLAGS_parallel_run : bool;
  FLAGS_regular_vio_backend_modality : Z;
  FLAGS_visualize : bool;
  FLAGS_visualize_lmk_type : bool;
  FLAGS_viz_type : Z;
  FLAGS_use_feature_selection : bool;
  FLAGS_min_num_obs_for_mesher_points : Z
}.

(** The values defined by the [DEFINE_*] lines. *)
Definition default_Flags : Flags :=
  {| FLAGS_log_output := false;
     FLAGS_parallel_run := true;
     FLAGS_regular_vio_backend_modality := 4;
     FLAGS_visualize := true;
     FLAGS_visualize_lmk_type := false;
     FLAGS_viz_type := 0;
     FLAGS_use_feature_selection := false;
     FLAGS_min_num_obs_for_mesher_points := 4 |}.

Record ETHDatasetParser : Type := {
  getBackendType : Z;
  isGroundTruthAvailable : bool;
  timestamp_first_lkf_ : Timestamp;
  getBackendParams : VioBackEndParams
}.

(** ** State of one orchestrator *)

Record Pipeline (FE : Type) : Type := {
  flags : Flags;
  dataset_ : ETHDatasetParser;
  (* members *)
  stereo_vision_frontend_ : FE;
  vio_backend_ : option VioBackEnd;          (* std::unique_ptr *)
  planes_ : PlaneS;
  shutdown_ : bool;
  queue_shutdown : Queue -> bool;
  thread : Worker -> ThreadState;
  semantic_mesh_segmentation_callback_ :
    option (Image -> Mesh2DT -> Mesh3DT -> Mesh3DColors);
  (* function-local statics *)
  is_initialized : bool;                              (* spin *)
  imu_stamps_lkf_to_curr_f : ImuStampS;               (* spinOnce *)
  imu_accgyr_lkf_to_curr_f : ImuAccGyrS;              (* spinOnce *)
  timestamp_lkf : option Timestamp;    (* spinOnce; [None]: not yet initialised *)
  (* the automatic variable [statusSmartStereoMeasurements] of spinOnce, which
     the pointer argument of processKeyframe addresses; [None]: no such
     object, the pointer is null *)
  statusSmartStereoMeasurements : option StatusSmartStereoMeasurements;
  (* calls made so far, oldest first *)
  trace : list Event
}.

Inductive FatalCause : Type :=
| Do_not_use_feature_selection_in_parallel_mode
| Requested_backend_type_is_not_supported (requested : Z)
| Spin_sequential_is_not_yet_available
| CHECK_GE_imu_accgyr_cols
| CHECK_GT_imu_stamps_cols
| CHECK_GT_imu_stamps_lkf_to_curr_f_cols
| CHECK_GT_imu_accgyr_cols
| CHECK_GT_imu_accgyr_lkf_to_curr_f_cols
| CHECK_NOTNULL_statusSmartStereoMeasurements
| CHECK_NOTNULL_initialStateGT
| CHECK_mesher_input_queue_push.

Inductive HaltCause : Type :=
| LogFatal (c : FatalCause)        (* LOG(FATAL) or a failed CHECK *)
| BlockedForever (q : Queue)       (* popBlocking never returns *)
| StdSystemError (w : Worker)      (* std::thread::join on a thread that is not joinable *)
| StdTerminate (w : Worker)        (* assignment to a joinable std::thread *)
| JoinBlocked (w : Worker)         (* std::thread::join on a worker whose loop never ends *)
| NullBackend.                     (* vio_backend_ dereferenced while null *)

Inductive Outcome (S A : Type) : Type :=
| Ret (a : A) (s : S)
| Halt (h : HaltCause) (s : S).
Arguments Halt {S A}.

Definition final {S A} (o : Outcome S A) : S :=
  match o with Ret _ s => s | Halt _ s => s end.

End DataModel.

Arguments PopFailed {A}.
Arguments PopNever {A}.
Arguments Ret {S A} a s.
Arguments Halt {S A} h s.

(** ** Eigen column operations used on the accumulation buffers *)

(** [m.conservativeResize(Eigen::NoChange, cols)]: the leading columns are
    kept, columns beyond the old width are fresh (their contents are not
    specified by Eigen; [fresh] stands for them). *)
Definition conservativeResize {A} (fresh : A) (m : list A) (cols : nat)
    : list A :=
  firstn cols m ++ repeat fresh (cols - length m).

(** [m.rightCols(blk.cols()) << blk]: the trailing columns are overwritten. *)
Definition assign_rightCols {A} (m blk : list A) : list A :=
  firstn (length m - length blk) m ++ blk.

(** ** The orchestrator *)

Section Orchestrator.
Context {T : ExternalTypes} {FE : Type} {F : StereoVisionFrontEnd FE}
        {E : Environment}.

Local Abbreviation PipelineState := (Pipeline FE).

(** Field updates. *)
Definition upd (s : PipelineState)
    (fe : FE) (be : option VioBackEnd) (sd : bool) (qs : Queue -> bool)
    (th : Worker -> ThreadState) (ini : bool) (st : ImuStampS)
    (ag : ImuAccGyrS) (lkf : option Timestamp)
    (ssm : option StatusSmartStereoMeasurements) (tr : list Event)
    : PipelineState :=
  {| flags := flags s; dataset_ := dataset_ s;
     stereo_vision_frontend_ := fe; vio_backend_ := be;
     planes_ := planes_ s; shutdown_ := sd; queue_shutdown := qs;
     thread := th;
     semantic_mesh_segmentation_callback_ :=
       semantic_mesh_segmentation_callback_ s;
     is_initialized := ini; imu_stamps_lkf_to_curr_f := st;
     imu_accgyr_lkf_to_curr_f := ag; timestamp_lkf := lkf;
     statusSmartStereoMeasurements := ssm; trace := tr |}.

Definition set_frontend (fe : FE) (s : PipelineState) :=
  upd s fe (vio_backend_ s) (shutdown_ s) (queue_shutdown s) (thread s)
    (is_initialized s) (imu_stamps_lkf_to_curr_f s)
    (imu_accgyr_lkf_to_curr_f s) (timestamp_lkf s)
    (statusSmartStereoMeasurements s) (trace s).
Definition set_backend (be : option VioBackEnd) (s : PipelineState) :=
  upd s (stereo_vision_frontend_ s) be (shutdown_ s) (queue_shutdown s)
    (thread s) (is_initialized s) (imu_stamps_lkf_to_curr_f s)
    (imu_accgyr_lkf_to_curr_f s) (timestamp_lkf s)
    (statusSmartStereoMeasurements s) (trace s).
Definition set_shutdown (sd : bool) (s : PipelineState) :=
  upd s (stereo_vision_frontend_ s) (vio_backend_ s) sd (queue_shutdown s)
    (thread s) (is_initialized s) (imu_stamps_lkf_to_curr_f s)
    (imu_accgyr_lkf_to_curr_f s) (timestamp_lkf s)
    (statusSmartStereoMeasurements s) (trace s).
Definition set_queue_shutdown (qs : Queue -> bool) (s : PipelineState) :=
  upd s (stereo_vision_frontend_ s) (vio_backend_ s) (shutdown_ s) qs
    (thread s) (is_initialized s) (imu_stamps_lkf_to_curr_f s)
    (imu_accgyr_lkf_to_curr_f s) (timestamp_lkf s)
    (statusSmartStereoMeasurements s) (trace s).
Definition set_thread (th : Worker -> ThreadState) (s : PipelineState) :=
  upd s (stereo_vision_frontend_ s) (vio_backend_ s) (shutdown_ s)
    (queue_shutdown s) th (is_initialized s) (imu_stamps_lkf_to_curr_f s)
    (imu_accgyr_lkf_to_curr_f s) (timestamp_lkf s)
    (statusSmartStereoMeasurements s) (trace s).
Definition set_is_initialized (ini : bool) (s : PipelineState) :=
  upd s (stereo_vision_frontend_ s) (vio_backend_ s) (shutdown_ s)
    (queue_shutdown s) (thread s) ini (imu_stamps_lkf_to_curr_f s)
    (imu_accgyr_lkf_to_curr_f s) (timestamp_lkf s)
    (statusSmartStereoMeasurements s) (trace s).
Definition set_imu_stamps (st : ImuStampS) (s : PipelineState) :=
  upd s (stereo_vision_frontend_ s) (vio_backend_ s) (shutdown_ s)
    (queue_shutdown s) (thread s) (is_initialized s) st
    (imu_accgyr_lkf_to_curr_f s) (timestamp_lkf s)
    (statusSmartStereoMeasurements s) (trace s).
Definition set_imu_accgyr (ag : ImuAccGyrS) (s : PipelineState) :=
  upd s (stereo_vision_frontend_ s) (vio_backend_ s) (shutdown_ s)
    (queue_shutdown s) (thread s) (is_initialized s)
    (imu_stamps_lkf_to_curr_f s) ag (timestamp_lkf s)
    (statusSmartStereoMeasurements s) (trace s).
Definition set_timestamp_lkf (lkf : option Timestamp) (s : PipelineState) :=
  upd s (stereo_vision_frontend_ s) (vio_backend_ s) (shutdown_ s)
    (queue_shutdown s) (thread s) (is_initialized s)
    (imu_stamps_lkf_to_curr_f s) (imu_accgyr_lkf_to_curr_f s) lkf
    (statusSmartStereoMeasurements s) (trace s).
Definition set_ssm (ssm : option StatusSmartStereoMeasurements)
    (s : PipelineState) :=
  upd s (stereo_vision_frontend_ s) (vio_backend_ s) (shutdown_ s)
    (queue_shutdown s) (thread s) (is_initialized s)
    (imu_stamps_lkf_to_curr_f s) (imu_accgyr_lkf_to_curr_f s)
    (timestamp_lkf s) ssm (trace s).
Definition set_trace (tr : list Event) (s : PipelineState) :=
  upd s (stereo_vision_frontend_ s) (vio_backend_ s) (shutdown_ s)
    (queue_shutdown s) (thread s) (is_initialized s)
    (imu_stamps_lkf_to_curr_f s) (imu_accgyr_lkf_to_curr_f s)
    (timestamp_lkf s) (statusSmartStereoMeasurements s) tr.

(** *** The state/halt monad *)

Definition M (A : Type) : Type := PipelineState -> Outcome PipelineState A.

Definition ret {A} (a : A) : M A := fun s => Ret a s.
Definition bind {A B} (m : M A) (k : A -> M B) : M B :=
  fun s => match m s with
           | Ret a s' => k a s'
           | Halt h s' => Halt h s'
           end.
Definition halt {A} (h : HaltCause) : M A := fun s => Halt h s.
Definition gets {A} (f : PipelineState -> A) : M A := fun s => Ret (f s) s.
Definition modify (f : PipelineState -> PipelineState) : M unit :=
  fun s => Ret tt (f s).
Definition emit (e : Event) : M unit :=
  modify (fun s => set_trace (trace s ++ [e]) s).
Definition when (b : bool) (m : M unit) : M unit := if b then m else ret tt.

(** glog's [CHECK(cond)]: the process dies when the condition is false. *)
Definition CHECK (cond : bool) (c : FatalCause) : M unit :=
  if cond then ret tt else halt (LogFatal c).


Notation "x <- m ;; k" := (bind m (fun x => k))
  (at level 61, m at next level, right associativity).
Notation "m ;;; k" := (bind m (fun _ => k))
  (at level 61, right associativity).

(** *** Queues and threads *)

(** Modelled from the spec: [ThreadsafeQueue::push] (utils/ThreadsafeQueue.h
    is not part of the sources).  The spec (4.3) has push always succeed
    while the channel is open, without bound and without suspending the
    caller; the [bool] it returns is what [CHECK(queue.push(..))] tests. *)
Definition push (q : Queue) (e : Event) : M bool :=
  emit e ;;;
  closed <- gets (fun s => queue_shutdown s q) ;;
  ret (negb closed).

(** Modelled from the spec: [ThreadsafeQueue::popBlocking] on a channel that
    is already shut down returns the failure indicator; otherwise the
    environment decides (see [PopOutcome]).  On failure the caller's object
    is left as it was. *)
Definition popBlocking {A} (q : Queue)
    (answer : list Event -> PopOutcome A) : M (option A) :=
  emit (EvPopBlocking q) ;;;
  closed <- gets (fun s => queue_shutdown s q) ;;
  if closed then ret None
  else
    tr <- gets (fun s => trace s) ;;
    match answer tr with
    | Popped a => ret (Some a)
    | PopFailed => ret None
    | PopNever => halt (BlockedForever q)
    end.

(** [queue.shutdown()] *)
Definition shutdown_queue (q : Queue) : M unit :=
  modify (fun s =>
    set_queue_shutdown
      (fun q' => if Queue_eqb q q' then true else queue_shutdown s q') s) ;;;
  emit (EvQueueShutdown q).

(** [*vio_backend_] and [vio_backend_->...] *)
Definition deref_vio_backend : M VioBackEnd :=
  b <- gets (fun s => vio_backend_ s) ;;
  match b with
  | Some b => ret b
  | None => halt NullBackend
  end.

Definition view_vio_backend : M BackendView :=
  deref_vio_backend ;;;
  gets (fun s => backend_view (trace s)).

(** [thread_member = std::thread(...)]: the temporary [std::thread] is
    constructed first, which starts the worker loop; the move assignment
    that follows calls std::terminate when the member is still joinable. *)
Definition start_thread (w : Worker) : M unit :=
  emit (EvLaunchThread w) ;;;
  t <- gets (fun s => thread s w) ;;
  if joinable t then halt (StdTerminate w)
  else
    modify (fun s =>
      set_thread
        (fun w' => if Worker_eqb w w' then Running else thread s w') s).

(** The input queue launchThreads binds to each worker loop. *)
Definition worker_input_queue (w : Worker) : Queue :=
  match w with
  | backend_thread_ => backend_input_queue_
  | mesher_thread_ => mesher_input_queue_
  | visualizer_thread_ => visualizer_input_queue_
  end.

(** Modelled from the spec: the worker loops [thread_member.join()] waits
    for ([VioBackEnd::spin], [Mesher::run], [Visualizer3D::spin]; none of
    them is part of the sources).  The spec (5) has each worker loop repeat
    until its input channel is shut down: the join of a running worker
    returns once that channel has been shut down, and does not return while
    it is open.  On a thread that is not joinable, [join] throws
    std::system_error. *)
Definition join (w : Worker) : M unit :=
  emit (EvJoin w) ;;;
  t <- gets (fun s => thread s w) ;;
  if joinable t then
    closed <- gets (fun s => queue_shutdown s (worker_input_queue w)) ;;
    if closed then
      modify (fun s =>
        set_thread
          (fun w' => if Worker_eqb w w' then Joined else thread s w') s)
    else halt (JoinBlocked w)
  else halt (StdSystemError w).

Definition launchThreads : M unit :=
  deref_vio_backend ;;;
  start_thread backend_thread_ ;;;
  start_thread mesher_thread_ ;;;
  start_thread visualizer_thread_.

Definition stopThreads : M unit :=
  shutdown_queue backend_input_queue_ ;;;
  shutdown_queue backend_output_queue_ ;;;
  deref_vio_backend ;;;
  emit (EvWorkerShutdown backend_thread_) ;;;
  shutdown_queue mesher_input_queue_ ;;;
  shutdown_queue mesher_output_queue_ ;;;
  emit (EvWorkerShutdown mesher_thread_) ;;;
  shutdown_queue visualizer_input_queue_ ;;;
  shutdown_queue visualizer_output_queue_ ;;;
  emit (EvWorkerShutdown visualizer_thread_).

Definition joinThreads : M unit :=
  join backend_thread_ ;;;
  join mesher_thread_ ;;;
  join visualizer_thread_.

Definition shutdown : M unit :=
  modify (set_shutdown true) ;;;
  stopThreads ;;;
  joinThreads ;;;
  log <- gets (fun s => FLAGS_log_output (flags s)) ;;
  when log (emit (EvLogger closeLogFiles)).

Definition spinSequential : M bool :=
  halt (LogFatal Spin_sequential_is_not_yet_available).

(** *** Initialisation *)

Definition initBackend (B_Pose_camLrect : Pose3)
    (left_undist_rect_cam_mat : Cal3_S2) (baseline : Scalar)
    (vio_params : VioBackEndParams) (initial_state_gt : option Pose3)
    (timestamp_k : Timestamp) (imu_accgyr : ImuAccGyrS) : M bool :=
  ds <- gets (fun s => dataset_ s) ;;
  fl <- gets (fun s => flags s) ;;
  let construct (v : BackendVariant) : M unit :=
    let b := {| be_variant := v;
                be_B_Pose_camLrect := B_Pose_camLrect;
                be_left_undist_rect_cam_mat := left_undist_rect_cam_mat;
                be_baseline := baseline;
                be_initial_state_gt := initial_state_gt;
                be_timestamp_k := timestamp_k;
                be_imu_accgyr := imu_accgyr;
                be_vio_params := vio_params;
                be_log_output := FLAGS_log_output fl |} in
    emit (EvConstructBackend b) ;;;
    modify (set_backend (Some b)) in
  match getBackendType ds with
  | 0 => construct NormalVio
  | 1 => construct (RegularVio (FLAGS_regular_vio_backend_modality fl))
  | t => halt (LogFatal (Requested_backend_type_is_not_supported t))
  end ;;;
  ret true.

(** Modelled from the spec: what the Backend constructors do with the
    address of [initialStateGT] they are handed (VioBackEnd.cpp is not part
    of the sources).  The spec (4.1, 6) has the ground-truth seed as an
    optional input of the construction: the pointer holds after the
    construction what it held before it, which is what
    [CHECK_NOTNULL(initialStateGT.get())] then tests. *)
Definition initialize (stereo_imu_sync_packet : StereoImuSyncPacket)
    : M bool :=
  let frame := getStereoFrame stereo_imu_sync_packet in
  emit (EvProcessFirstStereoFrame frame) ;;;
  modify (fun s =>
    set_frontend (processFirstStereoFrame frame (stereo_vision_frontend_ s))
      s) ;;;
  ds <- gets (fun s => dataset_ s) ;;
  let initialStateGT :=
    if isGroundTruthAvailable ds
    then Some (getGroundTruthState (getTimestamp frame))
    else None in
  fe <- gets (fun s => stereo_vision_frontend_ s) ;;
  initBackend (getBPoseCamLRect (stereoFrame_km1_ fe))
              (getLeftUndistRectCamMat (stereoFrame_km1_ fe))
              (getBaseline (stereoFrame_km1_ fe))
              (getBackendParams ds)
              initialStateGT
              (getTimestamp frame)
              (getImuAccGyr stereo_imu_sync_packet) ;;;
  log <- gets (fun s => FLAGS_log_output (flags s)) ;;
  when log
    (CHECK (match initialStateGT with Some _ => true | None => false end)
           CHECK_NOTNULL_initialStateGT ;;;
     emit (EvLogger displayInitialStateVioInfo)) ;;;
  ret true.

(** *** Accumulation of IMU data from the last keyframe to the current frame *)

Definition accumulate_imu (stereo_imu_sync_packet : StereoImuSyncPacket)
    : M unit :=
  let imu_stamps := getImuStamps stereo_imu_sync_packet in
  let imu_accgyr := getImuAccGyr stereo_imu_sync_packet in
  cols <- gets (fun s => length (imu_stamps_lkf_to_curr_f s)) ;;
  if (cols =? 0)%nat then
    CHECK (0 <=? length imu_accgyr)%nat CHECK_GE_imu_accgyr_cols ;;;
    modify (set_imu_stamps imu_stamps) ;;;
    modify (set_imu_accgyr imu_accgyr)
  else
    CHECK (0 <? length imu_stamps)%nat CHECK_GT_imu_stamps_cols ;;;
    CHECK (0 <? cols)%nat CHECK_GT_imu_stamps_lkf_to_curr_f_cols ;;;
    modify (fun s =>
      let buf := imu_stamps_lkf_to_curr_f s in
      set_imu_stamps
        (assign_rightCols
           (conservativeResize 0 buf (length buf - 1 + length imu_stamps))
           imu_stamps) s) ;;;
    acc_cols <- gets (fun s => length (imu_accgyr_lkf_to_curr_f s)) ;;
    CHECK (0 <? length imu_accgyr)%nat CHECK_GT_imu_accgyr_cols ;;;
    CHECK (0 <? acc_cols)%nat CHECK_GT_imu_accgyr_lkf_to_curr_f_cols ;;;
    modify (fun s =>
      let buf := imu_accgyr_lkf_to_curr_f s in
      set_imu_accgyr
        (assign_rightCols
           (conservativeResize fresh_ImuAccGyr buf
              (length buf - 1 + length imu_accgyr))
           imu_accgyr) s).

(** *** Feature selection *)

Definition featureSelect (dataset : ETHDatasetParser)
    (timestamp_k timestamp_lkf : Timestamp) (W_Pose_Blkf : Pose3)
    (stereoFrame_km1 : StereoFrame)
    (status_smart_stereo_meas : StatusSmartStereoMeasurements)
    (cur_kf_id save_image_selector : Z) (curr_state_cov : Matrix)
    (left_frame : Frame)
    : StatusSmartStereoMeasurements * list StampedPose :=
  let posesAtFutureKeyframes : list StampedPose :=
    if isGroundTruthAvailable dataset then
      let W_Pose_Bkf_gt := getGroundTruthState timestamp_lkf in
      map (fun kk =>
             let timestamp_kk :=
               timestamp_k + SecToNsec_intra_keyframe_time kk in
             let poseGT_km1_kk :=
               pose_between W_Pose_Bkf_gt (getGroundTruthState timestamp_kk) in
             (pose_compose W_Pose_Blkf poseGT_km1_kk,
              NsecToSec timestamp_kk))
          (seq 0 (nrKfInHorizon + 1))
    else [] in
  let trackedAndSelectedSmartStereoMeasurements :=
    splitTrackedAndNewFeatures_Select_Display
      stereoFrame_km1 (snd status_smart_stereo_meas) cur_kf_id
      save_image_selector posesAtFutureKeyframes curr_state_cov left_frame in
  (* Same status as before. *)
  let status := fst status_smart_stereo_meas in
  ((status, trackedAndSelectedSmartStereoMeasurements),
   posesAtFutureKeyframes).

(** *** Display *)

(** [for (const ImageToDisplay& img : images) cv::imshow(img.name_, img.image_);] *)
Fixpoint imshow_all (images : list (Z * Image)) : M unit :=
  match images with
  | [] => ret tt
  | img :: rest => emit (EvImshow (fst img)) ;;; imshow_all rest
  end.

Definition spinDisplayOnce
    (visualizer_output_payload : option VisualizerOutputPayload) : M unit :=
  match visualizer_output_payload with
  | Some out =>
      when (negb (is_NONE (visualization_type_ out))) (emit EvWindowSpinOnce) ;;;
      imshow_all (images_to_display_ out) ;;;
      emit EvWaitKey
  | None =>
      emit (EvWarning Visualizer_is_lagging_behind_pipeline_processing)
  end.

(** *** Keyframe dispatch *)

(** The locals declared under "CREATE AND VISUALIZE MESH". *)
Record MeshLocals : Type := {
  mesh_2d : list Vec6f;
  points_with_id_VIO : PointsWithIdMap;
  lmk_id_to_lmk_type_map : LmkIdToLmkTypeMap;
  mesher_output_payload : MesherOutputPayload;
  points_3d : list Point3
}.

Definition fresh_MeshLocals : MeshLocals :=
  {| mesh_2d := []; points_with_id_VIO := []; lmk_id_to_lmk_type_map := [];
     mesher_output_payload := default_MesherOutputPayload; points_3d := [] |}.

(** [*statusSmartStereoMeasurements]; [CHECK_NOTNULL] guards the pointer. *)
Definition deref_statusSmartStereoMeasurements
    : M StatusSmartStereoMeasurements :=
  ptr <- gets (fun s => statusSmartStereoMeasurements s) ;;
  match ptr with
  | Some ssm => ret ssm
  | None => halt (LogFatal CHECK_NOTNULL_statusSmartStereoMeasurements)
  end.

(** The [FLAGS_use_feature_selection] block. *)
Definition feature_selector_block
    (timestamp_k timestamp_lkf : Timestamp) : M unit :=
  fl <- gets (fun s => flags s) ;;
  if FLAGS_use_feature_selection fl then
    let saveImagesSelector := 1 in
    v <- view_vio_backend ;;
    fe <- gets (fun s => stereo_vision_frontend_ s) ;;
    ds <- gets (fun s => dataset_ s) ;;
    ssm <- deref_statusSmartStereoMeasurements ;;
    let r := featureSelect ds timestamp_k timestamp_lkf (getWPoseBLkf v)
               (stereoFrame_km1_ fe) ssm (getCurrKfId v)
               (if FLAGS_visualize fl then saveImagesSelector else 0)
               (getCurrentStateCovariance v)
               (getLeftFrame (stereoFrame_lkf_ fe)) in
    emit (EvFeatureSelect ssm (snd r)) ;;;
    (* *statusSmartStereoMeasurements = featureSelect(...) *)
    modify (set_ssm (Some (fst r))) ;;;
    halt (LogFatal Do_not_use_feature_selection_in_parallel_mode)
  else ret tt.

(** The [switch (visualization_type)] block. *)
Definition mesh_block (visualization_type : VisualizationType)
    : M MeshLocals :=
  let l := fresh_MeshLocals in
  fl <- gets (fun s => flags s) ;;
  fe <- gets (fun s => stereo_vision_frontend_ s) ;;
  match visualization_type with
  | MESH2D =>
      emit (EvCreateMesh2D (stereoFrame_lkf_ fe)) ;;;
      ret {| mesh_2d := createMesh2D (getLeftFrame (stereoFrame_lkf_ fe));
             points_with_id_VIO := points_with_id_VIO l;
             lmk_id_to_lmk_type_map := lmk_id_to_lmk_type_map l;
             mesher_output_payload := mesher_output_payload l;
             points_3d := points_3d l |}
  | MESH2Dsparse =>
      emit (EvCreateMesh2dStereo (stereoFrame_lkf_ fe)) ;;;
      ret {| mesh_2d := createMesh2dStereo (stereoFrame_lkf_ fe);
             points_with_id_VIO := points_with_id_VIO l;
             lmk_id_to_lmk_type_map := lmk_id_to_lmk_type_map l;
             mesher_output_payload := mesher_output_payload l;
             points_3d := points_3d l |}
  | MESH2DTo3Dsparse =>
      v <- view_vio_backend ;;
      let with_types := FLAGS_visualize_lmk_type fl in
      let min_age := FLAGS_min_num_obs_for_mesher_points fl in
      emit (EvGetMapLmkIdsTo3dPointsInTimeHorizon with_types (Some min_age)) ;;;
      let r := getMapLmkIdsTo3dPointsInTimeHorizon v with_types (Some min_age) in
      let pts := fst r in
      let types := if with_types then snd r else lmk_id_to_lmk_type_map l in
      (* Get camera pose. *)
      v' <- view_vio_backend ;;
      let W_Pose_camlkf_vio :=
        pose_compose (getWPoseBLkf v') (getBPoseLeftCam v') in
      pushed <- push mesher_input_queue_
                  (EvMesherPush
                     {| mi_points_with_id_vio_ := pts;
                        mi_stereo_frame_ := stereoFrame_lkf_ fe;
                        mi_left_camera_pose_ := W_Pose_camlkf_vio |}) ;;
      CHECK pushed CHECK_mesher_input_queue_push ;;;
      popped <- popBlocking mesher_output_queue_ mesher_output_pop ;;
      out <- match popped with
             | Some m => ret m
             | None =>
                 emit (EvWarning Mesher_output_queue_did_not_pop_a_payload) ;;;
                 ret (mesher_output_payload l)
             end ;;
      ret {| mesh_2d := mesh_2d l;
             points_with_id_VIO := pts;
             lmk_id_to_lmk_type_map := types;
             mesher_output_payload := out;
             points_3d := points_3d l |}
  | POINTCLOUD_REPEATEDPOINTS =>
      v <- view_vio_backend ;;
      emit EvGet3DPoints ;;;
      ret {| mesh_2d := mesh_2d l;
             points_with_id_VIO := points_with_id_VIO l;
             lmk_id_to_lmk_type_map := lmk_id_to_lmk_type_map l;
             mesher_output_payload := mesher_output_payload l;
             points_3d := get3DPoints v |}
  | POINTCLOUD =>
      v <- view_vio_backend ;;
      emit (EvGetMapLmkIdsTo3dPointsInTimeHorizon false None) ;;;
      ret {| mesh_2d := mesh_2d l;
             points_with_id_VIO :=
               fst (getMapLmkIdsTo3dPointsInTimeHorizon v false None);
             lmk_id_to_lmk_type_map := lmk_id_to_lmk_type_map l;
             mesher_output_payload := mesher_output_payload l;
             points_3d := points_3d l |}
  | NONE => ret l
  | _ => ret l                      (* no case label: nothing is executed *)
  end.

(** The [if (FLAGS_visualize)] block. *)
Definition visualize_block (visualization_type : VisualizationType)
    (left_frame_for_semantic_segmentation : Frame) (timestamp_k : Timestamp)
    (l : MeshLocals) : M unit :=
  fl <- gets (fun s => flags s) ;;
  if FLAGS_visualize fl then
    ds <- gets (fun s => dataset_ s) ;;
    fe <- gets (fun s => stereo_vision_frontend_ s) ;;
    v <- view_vio_backend ;;
    cb <- gets (fun s => semantic_mesh_segmentation_callback_ s) ;;
    colors <- match cb with
              | Some callback =>
                  emit (EvSemanticMeshSegmentation (mesher_output_payload l)) ;;;
                  ret (callback (img_ left_frame_for_semantic_segmentation)
                                (mesh_2d_ (mesher_output_payload l))
                                (mesh_3d_ (mesher_output_payload l)))
              | None => ret default_Mesh3DColors
              end ;;
    planes <- gets (fun s => planes_ s) ;;
    push visualizer_input_queue_
      (EvVisualizerPush
         {| vi_visualization_type_ := visualization_type;
            vi_backend_type_ := getBackendType ds;
            vi_pose_ := pose_compose (getWPoseBLkf v)
                          (getBPoseCamLRect (stereoFrame_km1_ fe));
            vi_mesh_2d_ := mesh_2d l;
            vi_colors_ := colors;
            vi_left_stereo_keyframe_ := getLeftFrame (stereoFrame_lkf_ fe);
            vi_mesher_output_payload_ := mesher_output_payload l;
            vi_points_with_id_VIO_ := points_with_id_VIO l;
            vi_lmk_id_to_lmk_type_map_ := lmk_id_to_lmk_type_map l;
            vi_planes_ := planes;
            vi_graph_ := getFactorsUnsafe v;
            vi_values_ := getState v;
            vi_points_3d_ := points_3d l;
            vi_timestamp_k_ := timestamp_k |}) ;;;
    out <- popBlocking visualizer_output_queue_ visualizer_output_pop ;;
    spinDisplayOnce out
  else ret tt.

(** The "DEBUG INFO FOR FRONT-END" and "BACK-END" blocks: push the payload
    to the back-end queue, then pull its output. *)
Definition backend_block (timestamp_k : Timestamp)
    (imu_stamps : ImuStampS) (imu_accgyr : ImuAccGyrS) : M unit :=
  fl <- gets (fun s => flags s) ;;
  when (FLAGS_log_output fl) (emit (EvLogger logFrontendResults)) ;;;
  (* Push to backend input. *)
  ssm <- deref_statusSmartStereoMeasurements ;;
  fe <- gets (fun s => stereo_vision_frontend_ s) ;;
  planes <- gets (fun s => planes_ s) ;;
  push backend_input_queue_
    (EvBackendPush
       {| bi_timestamp_kf_nsec_ := timestamp_k;
          bi_status_smart_stereo_measurements_kf_ := ssm;
          bi_stereo_tracking_status_ := kfTrackingStatus_stereo_ fe;
          bi_imu_stamps_ := imu_stamps;
          bi_imu_accgyr_ := imu_accgyr;
          bi_planes_ := planes;
          bi_stereo_ransac_body_pose_ := getRelativePoseBodyStereo fe |}) ;;;
  (* Pull from backend. *)
  popBlocking backend_output_queue_ backend_output_pop ;;;
  when (FLAGS_log_output fl)
    (emit (EvLogger logBackendResults) ;;; deref_vio_backend ;;; ret tt).

Definition processKeyframe (k : FrameId)
    (left_frame_for_semantic_segmentation : Frame)
    (timestamp_k timestamp_lkf : Timestamp)
    (imu_stamps : ImuStampS) (imu_accgyr : ImuAccGyrS) : M unit :=
  ssm0 <- deref_statusSmartStereoMeasurements ;;
  emit (EvProcessKeyframe k ssm0 timestamp_k timestamp_lkf
                          imu_stamps imu_accgyr) ;;;
  feature_selector_block timestamp_k timestamp_lkf ;;;
  backend_block timestamp_k imu_stamps imu_accgyr ;;;
  fl <- gets (fun s => flags s) ;;
  let visualization_type := VisualizationType_of_flag (FLAGS_viz_type fl) in
  l <- mesh_block visualization_type ;;
  visualize_block visualization_type left_frame_for_semantic_segmentation
                  timestamp_k l.

(** *** The per-frame procedure *)

(** The static [timestamp_lkf], whose initialiser
    [dataset_->timestamp_first_lkf_] is evaluated the first time execution
    passes its declaration. *)
Definition timestamp_lkf_value (s : PipelineState) : Timestamp :=
  match timestamp_lkf s with
  | Some t => t
  | None => timestamp_first_lkf_ (dataset_ s)
  end.

(** [static Timestamp timestamp_lkf = dataset_->timestamp_first_lkf_;] *)
Definition init_static_timestamp_lkf (s : PipelineState) : PipelineState :=
  set_timestamp_lkf (Some (timestamp_lkf_value s)) s.

Definition spinOnce (stereo_imu_sync_packet : StereoImuSyncPacket) : M unit :=
  let stereoFrame_k := getStereoFrame stereo_imu_sync_packet in
  let k := getFrameId stereoFrame_k in
  accumulate_imu stereo_imu_sync_packet ;;;
  modify init_static_timestamp_lkf ;;;
  stamps <- gets (fun s => imu_stamps_lkf_to_curr_f s) ;;
  accgyr <- gets (fun s => imu_accgyr_lkf_to_curr_f s) ;;
  v <- view_vio_backend ;;
  emit (EvPreintegrateGyro stamps accgyr) ;;;
  let calLrectLkf_R_camLrectKf_imu :=
    preintegrateGyroMeasurements v stamps accgyr in
  (* Main function for tracking. *)
  fe <- gets (fun s => stereo_vision_frontend_ s) ;;
  emit (EvProcessStereoFrame stereoFrame_k calLrectLkf_R_camLrectKf_imu) ;;;
  let tracked := processStereoFrame stereoFrame_k
                   calLrectLkf_R_camLrectKf_imu fe in
  modify (set_frontend (snd tracked)) ;;;
  modify (set_ssm (Some (fst tracked))) ;;;
  (* Pass info to VIO if it's keyframe. *)
  (if isKeyframe (stereoFrame_km1_ (snd tracked)) then
     lkf <- gets timestamp_lkf_value ;;
     processKeyframe k (getLeftFrame stereoFrame_k)
                     (getTimestamp stereoFrame_k) lkf stamps accgyr ;;;
     (* Reset accumulated imu data from keyframe to keyframe. *)
     modify (set_imu_stamps []) ;;;
     modify (set_imu_accgyr []) ;;;
     (* Reset timestamp for preintegration. *)
     modify (set_timestamp_lkf (Some (getTimestamp stereoFrame_k)))
   else ret tt) ;;;
  (* the automatic variable goes out of scope *)
  modify (set_ssm None).

Definition spin (stereo_imu_sync_packet : StereoImuSyncPacket) : M bool :=
  ini <- gets (fun s => is_initialized s) ;;
  if negb ini then
    initialize stereo_imu_sync_packet ;;;
    launchThreads ;;;
    modify (set_is_initialized true) ;;;
    ret true
  else
    spinOnce stereo_imu_sync_packet ;;;
    ret true.

(** Successive calls of [spin], one per packet delivered. *)
Fixpoint spin_all (packets : list StereoImuSyncPacket) : M unit :=
  match packets with
  | [] => ret tt
  | p :: rest => spin p ;;; spin_all rest
  end.

Fixpoint spinOnce_all (packets : list StereoImuSyncPacket) : M unit :=
  match packets with
  | [] => ret tt
  | p :: rest => spinOnce p ;;; spinOnce_all rest
  end.

(** [Pipeline::Pipeline], for the first object of a process: the
    function-local statics of [spin] and [spinOnce], which the constructor
    does not touch and every object shares, are as they are before any
    call. *)
Definition Pipeline_new (fl : Flags) (dataset : ETHDatasetParser) (fe : FE)
    : PipelineState :=
  {| flags := fl; dataset_ := dataset;
     stereo_vision_frontend_ := fe; vio_backend_ := None;
     planes_ := []; shutdown_ := false;
     queue_shutdown := fun _ => false;
     thread := fun _ => NotStarted;
     semantic_mesh_segmentation_callback_ := None;
     is_initialized := false;
     imu_stamps_lkf_to_curr_f := [];
     imu_accgyr_lkf_to_curr_f := [];
     timestamp_lkf := None;
     statusSmartStereoMeasurements := None;
     trace := if FLAGS_log_output fl then [EvLogger openLogFiles] else [] |}.
End Orchestrator.

Arguments M {T} FE A.

(** ** A stubbed set of collaborators, for running the orchestrator *)

Module Stub.

(** Opaque payload types carry no information in the stub. *)
#[export] Instance types : ExternalTypes :=
  {| Pose3 := unit; Rot3 := unit; Cal3_S2 := unit; Scalar := unit;
     ImuAccGyr := unit; Image := unit; Vec6f := unit; Point3 := unit;
     StereoPoint2 := unit; TrackerStatusSummary := unit;
     TrackingStatus := unit; LmkType := unit; Mesh2DT := unit;
     Mesh3DT := unit; Mesh3DColors := unit; PlaneT := unit; Matrix := unit;
     FactorGraph := unit; Values := unit; VioBackEndParams := unit;
     VioBackEndOutputPayload := unit;
     empty_Mesh2D := tt; empty_Mesh3D := tt; default_Mesh3DColors := tt;
     fresh_ImuAccGyr := tt;
     pose_compose := fun _ _ => tt; pose_between := fun _ _ => tt;
     NsecToSec := fun _ => tt |}.

(** Frame [k], stamped [10 * k]. *)
Definition frame (k : FrameId) (keyframe : bool) : StereoFrame :=
  {| getFrameId := k; getTimestamp := 10 * k;
     getLeftFrame := {| img_ := tt; createMesh2D := [] |};
     isKeyframe := keyframe;
     getBPoseCamLRect := tt; getLeftUndistRectCamMat := tt;
     getBaseline := tt; createMesh2dStereo := [] |}.

(** Packet [k]: three inertial samples, the last one at the frame's stamp. *)
Definition packet (k : FrameId) : StereoImuSyncPacket :=
  {| getStereoFrame := frame k false;
     getImuStamps := [10 * k - 7; 10 * k - 4; 10 * k];
     getImuAccGyr := [tt; tt; tt] |}.

(** The TrackingResult the stub returns for frame [k]: one measurement,
    of landmark [k]. *)
Definition result_for (k : FrameId) : StatusSmartStereoMeasurements :=
  (tt, [(k, tt)]).

Record FE : Type := {
  marks : FrameId -> bool;        (* the frames this stub declares keyframes *)
  fe_k : StereoFrame;             (* the frame processed last *)
  fe_km1 : StereoFrame;
  fe_lkf : StereoFrame
}.

Definition FE_new (marks : FrameId -> bool) : FE :=
  {| marks := marks; fe_k := frame 0 false; fe_km1 := frame 0 false;
     fe_lkf := frame 0 false |}.

Definition stamp_keyframe (fe : FE) (f : StereoFrame) : StereoFrame :=
  frame (getFrameId f) (marks fe (getFrameId f)).

(** Modelled from the spec: the Frontend (StereoVisionFrontEnd.cpp is not
    part of the sources).  The spec (4.1, 6) has it report a keyframe flag per
    processed frame and expose the last two processed frames; after frame k
    has been processed, [stereoFrame_km1_] is the frame processed before it,
    so that the keyframe status of frame k-1 is what the orchestrator reads
    while it handles frame k. *)
#[export] Instance lagging : StereoVisionFrontEnd FE :=
  {| processFirstStereoFrame := fun f fe =>
       let fk := stamp_keyframe fe f in
       {| marks := marks fe; fe_k := fk; fe_km1 := fk; fe_lkf := fk |};
     processStereoFrame := fun f _ fe =>
       let fk := stamp_keyframe fe f in
       (result_for (getFrameId f),
        {| marks := marks fe; fe_k := fk; fe_km1 := fe_k fe;
           fe_lkf := if isKeyframe fk then fk else fe_lkf fe |});
     stereoFrame_km1_ := fe_km1;
     stereoFrame_lkf_ := fe_lkf;
     kfTrackingStatus_stereo_ := fun _ => tt;
     getRelativePoseBodyStereo := fun _ => tt |}.

Definition view : BackendView :=
  {| preintegrateGyroMeasurements := fun _ _ => tt;
     getWPoseBLkf := tt; getBPoseLeftCam := tt; getCurrKfId := 0;
     getCurrentStateCovariance := tt;
     getMapLmkIdsTo3dPointsInTimeHorizon := fun _ _ => ([], []);
     get3DPoints := []; getFactorsUnsafe := tt; getState := tt |}.

(** What the visualizer hands back when it has rendered. *)
Definition displayed : VisualizerOutputPayload :=
  {| visualization_type_ := POINTCLOUD; images_to_display_ := [] |}.

(** The workers: the back-end answers every pop; the mesher and the
    visualizer answer every pop in the given way. *)
Definition workers (mesher : PopOutcome MesherOutputPayload)
    (visualizer : PopOutcome VisualizerOutputPayload) : Environment :=
  {| backend_view := fun _ => view;
     backend_output_pop := fun _ => Popped tt;
     mesher_output_pop := fun _ => mesher;
     visualizer_output_pop := fun _ => visualizer;
     getGroundTruthState := fun _ => tt;
     nrKfInHorizon := 1;
     SecToNsec_intra_keyframe_time := fun kk => 200 * Z.of_nat kk;
     splitTrackedAndNewFeatures_Select_Display :=
       fun _ m _ _ _ _ _ => firstn 0 m |}.

(** Every worker delivers. *)
Definition responsive : Environment :=
  workers (Popped default_MesherOutputPayload) (Popped displayed).

(** The back-end [initialize] constructs from packet 1. *)
Definition backend : VioBackEnd :=
  {| be_variant := NormalVio; be_B_Pose_camLrect := tt;
     be_left_undist_rect_cam_mat := tt; be_baseline := tt;
     be_initial_state_gt := None; be_timestamp_k := 10;
     be_imu_accgyr := [tt; tt; tt]; be_vio_params := tt;
     be_log_output := false |}.

Definition dataset : ETHDatasetParser :=
  {| getBackendType := 0; isGroundTruthAvailable := false;
     timestamp_first_lkf_ := 10; getBackendParams := tt |}.

Definition with_viz_type (v : Z) (visualize : bool) : Flags :=
  {| FLAGS_log_output := false; FLAGS_parallel_run := true;
     FLAGS_regular_vio_backend_modality := 4;
     FLAGS_visualize := visualize; FLAGS_visualize_lmk_type := false;
     FLAGS_viz_type := v; FLAGS_use_feature_selection := false;
     FLAGS_min_num_obs_for_mesher_points := 4 |}.

Definition with_feature_selection : Flags :=
  {| FLAGS_log_output := false; FLAGS_parallel_run := true;
     FLAGS_regular_vio_backend_modality := 4;
     FLAGS_visualize := true; FLAGS_visualize_lmk_type := false;
     FLAGS_viz_type := 0; FLAGS_use_feature_selection := true;
     FLAGS_min_num_obs_for_mesher_points := 4 |}.

(** A pipeline over the stub front-end declaring [kfs] keyframes. *)
Definition pipeline (fl : Flags) (kfs : list FrameId) : Pipeline FE :=
  Pipeline_new fl dataset
    (FE_new (fun k => existsb (Z.eqb k) kfs)).

End Stub.

Unset Implicit Arguments.

(** * Specification vocabulary

    ** Observations on traces *)

Section Observations.
Context {T : ExternalTypes}.

Definition count (c : Event -> bool) (d : list Event) : nat :=
  length (filter c d).

Definition is_dispatch (e : Event) : bool :=
  match e with EvProcessKeyframe _ _ _ _ _ _ => true | _ => false end.
Definition is_tracking (e : Event) : bool :=
  match e with EvProcessStereoFrame _ _ => true | _ => false end.
Definition is_backend_push (e : Event) : bool :=
  match e with EvBackendPush _ => true | _ => false end.
Definition is_backend_pop (e : Event) : bool :=
  match e with EvPopBlocking backend_output_queue_ => true | _ => false end.
Definition is_visualizer_push (e : Event) : bool :=
  match e with EvVisualizerPush _ => true | _ => false end.
Definition is_render (e : Event) : bool :=
  match e with EvWaitKey => true | _ => false end.
Definition is_landmark_map_query (e : Event) : bool :=
  match e with EvGetMapLmkIdsTo3dPointsInTimeHorizon _ _ => true | _ => false end.
Definition is_feature_select (e : Event) : bool :=
  match e with EvFeatureSelect _ _ => true | _ => false end.
Definition is_warning (e : Event) : bool :=
  match e with EvWarning _ => true | _ => false end.

End Observations.

(** The accumulation rule on one buffer: a fresh window is stored as it is;
    otherwise the buffer loses its last column and the window is appended. *)
Definition imu_append {A} (buf pkt : list A) : list A :=
  match buf with
  | [] => pkt
  | _ => removelast buf ++ pkt
  end.

(** Consecutive windows: each one starts no earlier than the boundary sample
    that closes the one before. *)
Fixpoint chained_from (prev : Z) (ws : list (list Z)) : Prop :=
  match ws with
  | [] => True
  | w :: rest => prev <= hd 0 w /\ chained_from (last w 0) rest
  end.

Section Specification.
Context {T : ExternalTypes} {FE : Type} {F : StereoVisionFrontEnd FE}
        {E : Environment}.

Local Abbreviation PipelineState := (Pipeline FE).

(** What a call appended to the trace. *)
Definition new_events {A} (s : PipelineState)
    (o : Outcome PipelineState A) : list Event :=
  skipn (length (trace s)) (trace (final o)).

(** The parts of the state no call of [spin] changes. *)
Definition same_config (s s' : PipelineState) : Prop :=
  flags s' = flags s /\ dataset_ s' = dataset_ s /\
  queue_shutdown s' = queue_shutdown s /\
  semantic_mesh_segmentation_callback_ s' =
    semantic_mesh_segmentation_callback_ s /\
  planes_ s' = planes_ s.

(** Running [m] from [s] only extends the trace, with no event of class [c],
    and leaves the configuration alone -- whether [m] returns or halts. *)
Definition avoids {A} (c : Event -> bool) (m : M FE A) (s : PipelineState)
    : Prop :=
  same_config s (final (m s)) /\
  exists d, trace (final (m s)) = trace s ++ d /\ count c d = 0%nat.

(** Running [m] from [s] leaves the observation [f] of the state as it was. *)
Definition keeps {A X} (f : PipelineState -> X) (m : M FE A)
    (s : PipelineState) : Prop :=
  f (final (m s)) = f s.

(** If [m] halts from [s], it is for a cause in [ok]. *)
Definition halts_within {A} (ok : HaltCause -> bool) (m : M FE A)
    (s : PipelineState) : Prop :=
  match m s with
  | Ret _ _ => True
  | Halt h _ => ok h = true
  end.

Definition is_blocked_on (q : Queue) (h : HaltCause) : bool :=
  match h with BlockedForever q' => Queue_eqb q q' | _ => false end.

Definition is_feature_selection_fatal (h : HaltCause) : bool :=
  match h with
  | LogFatal Do_not_use_feature_selection_in_parallel_mode => true
  | _ => false
  end.

(** A packet whose inertial window passes the [CHECK_GT]s of spinOnce. *)
Definition packet_nonempty (p : StereoImuSyncPacket) : Prop :=
  getImuStamps p <> [] /\ getImuAccGyr p <> [].

(** The two accumulation buffers are empty together. *)
Definition buffers_coherent (s : PipelineState) : Prop :=
  imu_stamps_lkf_to_curr_f s = [] <-> imu_accgyr_lkf_to_curr_f s = [].

(** The state after the "ACCUMULATE IMU DATA" block of spinOnce.  Which
    branch runs is decided by the stamps buffer alone. *)
Definition accumulated (p : StereoImuSyncPacket) (s : PipelineState)
    : PipelineState :=
  set_imu_accgyr
    (match imu_stamps_lkf_to_curr_f s with
     | [] => getImuAccGyr p
     | _ => removelast (imu_accgyr_lkf_to_curr_f s) ++ getImuAccGyr p
     end)
    (set_imu_stamps
       (imu_append (imu_stamps_lkf_to_curr_f s) (getImuStamps p)) s).

Definition window_stamps (p : StereoImuSyncPacket) (s : PipelineState) :=
  imu_stamps_lkf_to_curr_f (accumulated p s).

Definition window_accgyr (p : StereoImuSyncPacket) (s : PipelineState) :=
  imu_accgyr_lkf_to_curr_f (accumulated p s).

(** The rotation handed to the tracker for packet [p], and what the tracker
    returns for it. *)
Definition tracking_prior (p : StereoImuSyncPacket) (s : PipelineState)
    : Rot3 :=
  preintegrateGyroMeasurements (backend_view (trace s))
    (window_stamps p s) (window_accgyr p s).

Definition tracked (p : StereoImuSyncPacket) (s : PipelineState)
    : StatusSmartStereoMeasurements * FE :=
  processStereoFrame (getStereoFrame p) (tracking_prior p s)
    (stereo_vision_frontend_ s).

(** The state in which spinOnce tests [stereoFrame_km1_->isKeyframe()]. *)
Definition after_tracking (p : StereoImuSyncPacket) (s : PipelineState)
    : PipelineState :=
  set_ssm (Some (fst (tracked p s)))
    (set_frontend (snd (tracked p s))
       (set_trace
          (trace s ++
             [EvPreintegrateGyro (window_stamps p s) (window_accgyr p s);
              EvProcessStereoFrame (getStereoFrame p) (tracking_prior p s)])
          (init_static_timestamp_lkf (accumulated p s)))).

(** The body of [if (stereoFrame_km1_->isKeyframe())] in spinOnce. *)
Definition dispatch_and_reset (p : StereoImuSyncPacket) (s : PipelineState)
    : M FE unit :=
  bind (gets timestamp_lkf_value) (fun lkf =>
  bind (processKeyframe (getFrameId (getStereoFrame p))
          (getLeftFrame (getStereoFrame p))
          (getTimestamp (getStereoFrame p)) lkf
          (window_stamps p s) (window_accgyr p s)) (fun _ =>
  bind (modify (set_imu_stamps [])) (fun _ =>
  bind (modify (set_imu_accgyr [])) (fun _ =>
  modify (set_timestamp_lkf (Some (getTimestamp (getStereoFrame p)))))))).

(** processKeyframe past its entry check and the record of the call. *)
Definition dispatch_body (left_frame : Frame)
    (timestamp_k timestamp_lkf : Z)
    (imu_stamps : ImuStampS) (imu_accgyr : ImuAccGyrS) : M FE unit :=
  bind (feature_selector_block timestamp_k timestamp_lkf) (fun _ =>
  bind (backend_block timestamp_k imu_stamps imu_accgyr) (fun _ =>
  bind (gets (fun s => flags s)) (fun fl =>
  bind (mesh_block (VisualizationType_of_flag (FLAGS_viz_type fl))) (fun l =>
  visualize_block (VisualizationType_of_flag (FLAGS_viz_type fl))
    left_frame timestamp_k l)))).

(** The payload processKeyframe builds for the back-end. *)
Definition backend_payload (timestamp_k : Z) (imu_stamps : ImuStampS)
    (imu_accgyr : ImuAccGyrS) (ssm : StatusSmartStereoMeasurements)
    (s : PipelineState) : VioBackEndInputPayload :=
  {| bi_timestamp_kf_nsec_ := timestamp_k;
     bi_status_smart_stereo_measurements_kf_ := ssm;
     bi_stereo_tracking_status_ :=
       kfTrackingStatus_stereo_ (stereo_vision_frontend_ s);
     bi_imu_stamps_ := imu_stamps;
     bi_imu_accgyr_ := imu_accgyr;
     bi_planes_ := planes_ s;
     bi_stereo_ransac_body_pose_ :=
       getRelativePoseBodyStereo (stereo_vision_frontend_ s) |}.

Definition append_events (d : list Event) (s : PipelineState) : PipelineState :=
  set_trace (trace s ++ d) s.

Definition only_logger (d : list Event) : Prop :=
  forall e, In e d -> exists w, e = EvLogger w.

Definition visualize_pre (l : MeshLocals) (s : PipelineState) : list Event :=
  match semantic_mesh_segmentation_callback_ s with
  | Some _ => [EvSemanticMeshSegmentation (mesher_output_payload l)]
  | None => []
  end.

Definition visualizer_payload (vt : VisualizationType) (lf : Frame) (tk : Z)
    (l : MeshLocals) (s : PipelineState) : VisualizerInputPayload :=
  let v := backend_view (trace s) in
  let fe := stereo_vision_frontend_ s in
  {| vi_visualization_type_ := vt;
     vi_backend_type_ := getBackendType (dataset_ s);
     vi_pose_ := pose_compose (getWPoseBLkf v)
                   (getBPoseCamLRect (stereoFrame_km1_ fe));
     vi_mesh_2d_ := mesh_2d l;
     vi_colors_ :=
       match semantic_mesh_segmentation_callback_ s with
       | Some callback =>
           callback (img_ lf) (mesh_2d_ (mesher_output_payload l))
                    (mesh_3d_ (mesher_output_payload l))
       | None => default_Mesh3DColors
       end;
     vi_left_stereo_keyframe_ := getLeftFrame (stereoFrame_lkf_ fe);
     vi_mesher_output_payload_ := mesher_output_payload l;
     vi_points_with_id_VIO_ := points_with_id_VIO l;
     vi_lmk_id_to_lmk_type_map_ := lmk_id_to_lmk_type_map l;
     vi_planes_ := planes_ s;
     vi_graph_ := getFactorsUnsafe v;
     vi_values_ := getState v;
     vi_points_3d_ := points_3d l;
     vi_timestamp_k_ := tk |}.

Definition display_events (out : VisualizerOutputPayload) : list Event :=
  (if is_NONE (visualization_type_ out) then [] else [EvWindowSpinOnce]) ++
  map (fun i => EvImshow (fst i)) (images_to_display_ out) ++ [EvWaitKey].

(** Events that belong to the per-frame procedure and to the back-end edge. *)
Definition is_frame_traffic (e : Event) : bool :=
  is_dispatch e || is_tracking e || is_backend_push e || is_backend_pop e.

(** Events that belong to the visualizer edge. *)
Definition is_display_traffic (e : Event) : bool :=
  is_visualizer_push e || is_render e.

(** The visualizer answers every pop with a payload. *)
Definition visualizer_responsive (s : PipelineState) : Prop :=
  queue_shutdown s visualizer_output_queue_ = false /\
  forall tr, exists out, visualizer_output_pop tr = Popped out.

(** The record of the dispatch call spinOnce makes for packet [p]. *)
Definition dispatch_event (p : StereoImuSyncPacket) (s : PipelineState)
    : Event :=
  EvProcessKeyframe (getFrameId (getStereoFrame p)) (fst (tracked p s))
    (getTimestamp (getStereoFrame p)) (timestamp_lkf_value s)
    (window_stamps p s) (window_accgyr p s).

Definition reset_after_dispatch (p : StereoImuSyncPacket) : M FE unit :=
  bind (modify (set_imu_stamps [])) (fun _ =>
  bind (modify (set_imu_accgyr [])) (fun _ =>
  modify (set_timestamp_lkf (Some (getTimestamp (getStereoFrame p)))))).

(** What one call of the per-frame procedure, or of [spin], appended, when
    it returned: the back-end saw one push and one pop per dispatch, the
    visualizer one push per dispatch when visualization is on. *)
Definition balanced (s : PipelineState) (d : list Event) : Prop :=
  count is_backend_push d = count is_dispatch d /\
  count is_backend_pop d = count is_dispatch d /\
  count is_visualizer_push d
    = (if FLAGS_visualize (flags s) then count is_dispatch d else 0)%nat /\
  (count is_render d <= count is_visualizer_push d)%nat /\
  (visualizer_responsive s ->
   count is_render d = count is_visualizer_push d).

Definition is_preintegration (e : Event) : bool :=
  match e with EvPreintegrateGyro _ _ => true | _ => false end.

(** Everything the per-frame procedure and a dispatch can emit. *)
Definition is_per_frame (e : Event) : bool :=
  is_preintegration e || is_frame_traffic e || is_display_traffic e ||
  is_landmark_map_query e.

(** The first branch of [spin]. *)
Definition bootstrap (p : StereoImuSyncPacket) : M FE bool :=
  bind (initialize p) (fun _ =>
  bind launchThreads (fun _ =>
  bind (modify (set_is_initialized true)) (fun _ => ret true))).

(** The trace of a bootstrap that goes through. *)
Definition bootstrap_events (p : StereoImuSyncPacket) (s : PipelineState)
    (variant : BackendVariant) : list Event :=
  let frame := getStereoFrame p in
  let fe := processFirstStereoFrame frame (stereo_vision_frontend_ s) in
  [EvProcessFirstStereoFrame frame;
   EvConstructBackend
     {| be_variant := variant;
        be_B_Pose_camLrect := getBPoseCamLRect (stereoFrame_km1_ fe);
        be_left_undist_rect_cam_mat :=
          getLeftUndistRectCamMat (stereoFrame_km1_ fe);
        be_baseline := getBaseline (stereoFrame_km1_ fe);
        be_initial_state_gt :=
          if isGroundTruthAvailable (dataset_ s)
          then Some (getGroundTruthState (getTimestamp frame)) else None;
        be_timestamp_k := getTimestamp frame;
        be_imu_accgyr := getImuAccGyr p;
        be_vio_params := getBackendParams (dataset_ s);
        be_log_output := FLAGS_log_output (flags s) |}] ++
  (if FLAGS_log_output (flags s)
   then [EvLogger displayInitialStateVioInfo] else []) ++
  [EvLaunchThread backend_thread_; EvLaunchThread mesher_thread_;
   EvLaunchThread visualizer_thread_].

Definition backend_variant_of (s : PipelineState) : option BackendVariant :=
  match getBackendType (dataset_ s) with
  | 0 => Some NormalVio
  | 1 => Some (RegularVio (FLAGS_regular_vio_backend_modality (flags s)))
  | _ => None
  end.

(** The modes whose case of the switch calls
    [getMapLmkIdsTo3dPointsInTimeHorizon]. *)
Definition queries_landmark_map (v : VisualizationType) : bool :=
  match v with
  | POINTCLOUD | MESH2DTo3Dsparse => true
  | _ => false
  end.

Definition configured_mode (s : PipelineState) : VisualizationType :=
  VisualizationType_of_flag (FLAGS_viz_type (flags s)).

Definition stop_events : list Event :=
  [EvQueueShutdown backend_input_queue_;
   EvQueueShutdown backend_output_queue_;
   EvWorkerShutdown backend_thread_;
   EvQueueShutdown mesher_input_queue_;
   EvQueueShutdown mesher_output_queue_;
   EvWorkerShutdown mesher_thread_;
   EvQueueShutdown visualizer_input_queue_;
   EvQueueShutdown visualizer_output_queue_;
   EvWorkerShutdown visualizer_thread_].

Definition join_events : list Event :=
  [EvJoin backend_thread_; EvJoin mesher_thread_; EvJoin visualizer_thread_].

(** The mesher's answer was not forthcoming. *)
Definition mesher_unavailable (s : PipelineState) : Prop :=
  queue_shutdown s mesher_output_queue_ = true \/
  forall tr, mesher_output_pop tr = PopFailed.

(** The visualizer's answer was not forthcoming. *)
Definition visualizer_unavailable (s : PipelineState) : Prop :=
  queue_shutdown s visualizer_output_queue_ = true \/
  forall tr, visualizer_output_pop tr = PopFailed.

(** The computations the switch on the visualization mode can run before
    the visualizer payload is built. *)
Inductive MeshComputation : Type :=
| LandmarkMapQuery (with_lmk_types : bool) (min_age : option Z)
| All3DPoints
| Mesh2DOf (f : StereoFrame)
| Mesh2dStereoOf (f : StereoFrame)
| MesherRequest.

Definition mesh_computation (e : Event) : option MeshComputation :=
  match e with
  | EvGetMapLmkIdsTo3dPointsInTimeHorizon a b => Some (LandmarkMapQuery a b)
  | EvGet3DPoints => Some All3DPoints
  | EvCreateMesh2D f => Some (Mesh2DOf f)
  | EvCreateMesh2dStereo f => Some (Mesh2dStereoOf f)
  | EvMesherPush _ => Some MesherRequest
  | _ => None
  end.

Definition is_mesh_computation (e : Event) : bool :=
  match mesh_computation e with Some _ => true | None => false end.

Definition mesh_computations (d : list Event) : list MeshComputation :=
  flat_map (fun e => match mesh_computation e with
                     | Some c => [c]
                     | None => []
                     end) d.

(** What each mode runs, read off the case labels of the switch. *)
Definition computations_of_mode (vt : VisualizationType) (fl : Flags)
    (lkf : StereoFrame) : list MeshComputation :=
  match vt with
  | MESH2D => [Mesh2DOf lkf]
  | MESH2Dsparse => [Mesh2dStereoOf lkf]
  | MESH2DTo3Dsparse =>
      [LandmarkMapQuery (FLAGS_visualize_lmk_type fl)
         (Some (FLAGS_min_num_obs_for_mesher_points fl));
       MesherRequest]
  | POINTCLOUD_REPEATEDPOINTS => [All3DPoints]
  | POINTCLOUD => [LandmarkMapQuery false None]
  | NONE | MESH2DTo3D | MESH3D | UNLISTED _ => []
  end.

(** A packet as the data model has it: a non-empty window, one sample per
    stamp, stamps strictly increasing. *)
Definition packet_wellformed (p : StereoImuSyncPacket) : Prop :=
  getImuStamps p <> [] /\
  length (getImuAccGyr p) = length (getImuStamps p) /\
  StronglySorted Z.lt (getImuStamps p).

(** Each window starts no earlier than the boundary sample closing the
    window before it. *)
Definition windows_chained (ws : list (list Z)) : Prop :=
  match ws with
  | [] => True
  | w :: rest => chained_from (last w 0) rest
  end.

(** The workers a dispatch waits for, other than the visualizer, do not
    leave it waiting for ever: the pop of the Backend output returns --
    the channel is shut down, or the Backend answers -- and, in the one
    mode that uses the mesher, the mesher takes the request and the pop of
    its output returns. *)
Definition backend_and_mesher_answer (s : PipelineState) : Prop :=
  vio_backend_ s <> None /\
  (queue_shutdown s backend_output_queue_ = true \/
   forall tr, backend_output_pop tr <> PopNever) /\
  (configured_mode s = MESH2DTo3Dsparse ->
   queue_shutdown s mesher_input_queue_ = false /\
   (queue_shutdown s mesher_output_queue_ = true \/
    forall tr, mesher_output_pop tr <> PopNever)).

End Specification.

(** ** Vocabulary for the remaining functions of the orchestrator *)

Section LifecycleVocabulary.
Context {T : ExternalTypes} {FE : Type} {F : StereoVisionFrontEnd FE}
        {E : Environment}.

Local Abbreviation PipelineState := (Pipeline FE).

(** The worker threads, in the order launchThreads starts them and joinThreads
    joins them. *)
Definition workers_in_order : list Worker :=
  [backend_thread_; mesher_thread_; visualizer_thread_].

Definition is_launch (e : Event) : bool :=
  match e with EvLaunchThread _ => true | _ => false end.

Definition is_join (e : Event) : bool :=
  match e with EvJoin _ => true | _ => false end.

Definition is_backend_construction (e : Event) : bool :=
  match e with EvConstructBackend _ => true | _ => false end.

(** The frames handed to [processStereoFrame], and those handed to
    [processFirstStereoFrame], in call order. *)
Definition tracked_frames (d : list Event) : list StereoFrame :=
  flat_map (fun e => match e with
                     | EvProcessStereoFrame f _ => [f]
                     | _ => []
                     end) d.

Definition first_frames (d : list Event) : list StereoFrame :=
  flat_map (fun e => match e with
                     | EvProcessFirstStereoFrame f => [f]
                     | _ => []
                     end) d.

Definition is_first_frame (e : Event) : bool :=
  match e with EvProcessFirstStereoFrame _ => true | _ => false end.

(** The threads, queues, back-end object and flags of a pipeline: what the
    life-cycle functions manage. *)
Definition lifecycle (s : PipelineState) :=
  (vio_backend_ s, thread s, queue_shutdown s, shutdown_ s, is_initialized s,
   flags s, dataset_ s).

Definition is_segmentation (e : Event) : bool :=
  match e with EvSemanticMeshSegmentation _ => true | _ => false end.

(** Everything a dispatch does for the visualizer: the segmentation callback,
    the push, the pop of the visualizer's answer and the display calls. *)
Definition is_visualizer_side (e : Event) : bool :=
  match e with
  | EvSemanticMeshSegmentation _ | EvVisualizerPush _
  | EvPopBlocking visualizer_output_queue_
  | EvWindowSpinOnce | EvImshow _ | EvWaitKey
  | EvWarning Visualizer_is_lagging_behind_pipeline_processing => true
  | _ => false
  end.

(** The future poses [featureSelect] hands to the selector: at the current
    keyframe and at the keyframes of the horizon, when ground truth is
    available. *)
Definition horizon_stamps (ds : ETHDatasetParser) (timestamp_k : Z)
    : list Z :=
  if isGroundTruthAvailable ds
  then map (fun kk => timestamp_k + SecToNsec_intra_keyframe_time kk)
           (seq 0 (nrKfInHorizon + 1))
  else [].

Definition is_mesher_pop (e : Event) : bool :=
  match e with EvPopBlocking mesher_output_queue_ => true | _ => false end.

(** An outcome, with the shutdown flag of its state set to [x]. *)
Definition with_shutdown_flag {A} (x : bool) (o : Outcome PipelineState A)
    : Outcome PipelineState A :=
  match o with
  | Ret a s => Ret a (set_shutdown x s)
  | Halt h s => Halt h (set_shutdown x s)
  end.

(** [m] never reads the shutdown flag. *)
Definition ignores_shutdown_flag {A} (m : M FE A) : Prop :=
  forall x s, m (set_shutdown x s) = with_shutdown_flag x (m s).

(** The dispatches of a trace, each as the pair of the keyframe timestamp
    and the last-keyframe timestamp it was given. *)
Definition dispatch_stamps (d : list Event) : list (Z * Z) :=
  flat_map (fun e => match e with
                     | EvProcessKeyframe _ _ tk tlkf _ _ => [(tk, tlkf)]
                     | _ => []
                     end) d.

(** Each dispatch is given the timestamp of the dispatch before it, the
    first one [t0]. *)
Fixpoint lkf_chained (t0 : Z) (ds : list (Z * Z)) : Prop :=
  match ds with
  | [] => True
  | (tk, tlkf) :: rest => tlkf = t0 /\ lkf_chained tk rest
  end.

End LifecycleVocabulary.

(** ** Scenarios over the stubbed collaborators *)

Module Scenario.
Import Stub.

#[local] Existing Instance lagging.

(** A pipeline over the stub collaborators, its first packet delivered. *)
Definition booted (E : Environment) (fl : Flags) (kfs : list Z)
    : Pipeline FE :=
  final (spin (packet 1) (pipeline fl kfs)).

(** A state in which [processKeyframe] may be called for frame 4: the
    pointer argument addresses the TrackingResult of frame 4. *)
Definition at_dispatch (E : Environment) (fl : Flags) : Pipeline FE :=
  set_ssm (Some (result_for 4)) (booted E fl [3]).

Abbreviation dispatch4 E :=
  (processKeyframe (F := lagging) (E := E) 4 (getLeftFrame (frame 4 false))
     40 10 [13; 16; 20] [tt; tt; tt]).

(** The same, once [shutdown] has run: every channel is shut down. *)
Definition at_dispatch_after_shutdown (E : Environment) (fl : Flags)
    : Pipeline FE :=
  set_ssm (Some (result_for 4)) (final (shutdown (booted E fl [3]))).

Definition mesher_down : Environment :=
  workers PopFailed (Popped displayed).

Definition visualizer_down : Environment :=
  workers (Popped default_MesherOutputPayload) PopFailed.

End Scenario.

(** ** Further cases over the stubbed collaborators *)

Module Cases.
Import Stub Scenario.

#[local] Existing Instance lagging.

(** A dataset asking for a back-end type that does not exist. *)
Definition unsupported_dataset : ETHDatasetParser :=
  {| getBackendType := 2; isGroundTruthAvailable := false;
     timestamp_first_lkf_ := 10; getBackendParams := tt |}.

(** A dataset that comes with ground truth. *)
Definition dataset_with_ground_truth : ETHDatasetParser :=
  {| getBackendType := 0; isGroundTruthAvailable := true;
     timestamp_first_lkf_ := 10; getBackendParams := tt |}.

(** A state in which [processKeyframe] may be called for frame 4, with
    feature selection on and ground truth at hand. *)
Definition at_selection (E : Environment) : Pipeline FE :=
  set_ssm (Some (result_for 4))
    (final (spin (packet 1)
              (Pipeline_new with_feature_selection dataset_with_ground_truth
                 (FE_new (fun k => existsb (Z.eqb k) [3]))))).

(** A packet that carries a frame and no inertial sample. *)
Definition empty_packet (k : Z) : StereoImuSyncPacket :=
  {| getStereoFrame := frame k false; getImuStamps := [];
     getImuAccGyr := [] |}.

(** A pipeline on which a segmentation callback has been registered. *)
Definition with_callback
    (callback : Image -> Mesh2DT -> Mesh3DT -> Mesh3DColors)
    (s : Pipeline FE) : Pipeline FE :=
  {| flags := flags s; dataset_ := dataset_ s;
     stereo_vision_frontend_ := stereo_vision_frontend_ s;
     vio_backend_ := vio_backend_ s; planes_ := planes_ s;
     shutdown_ := shutdown_ s; queue_shutdown := queue_shutdown s;
     thread := thread s;
     semantic_mesh_segmentation_callback_ := Some callback;
     is_initialized := is_initialized s;
     imu_stamps_lkf_to_curr_f := imu_stamps_lkf_to_curr_f s;
     imu_accgyr_lkf_to_curr_f := imu_accgyr_lkf_to_curr_f s;
     timestamp_lkf := timestamp_lkf s;
     statusSmartStereoMeasurements := statusSmartStereoMeasurements s;
     trace := trace s |}.

Definition coloring : Image -> Mesh2DT -> Mesh3DT -> Mesh3DColors :=
  fun _ _ _ => tt.

End Cases.

Section Properties.
Context {T : ExternalTypes} {FE : Type} {F : StereoVisionFrontEnd FE}
        {E : Environment}.

Local Abbreviation PipelineState := (Pipeline FE).

(** ** Generic facts *)

Lemma count_app c (a b : list Event) :
  count c (a ++ b) = (count c a + count c b)%nat.
Proof. unfold count. rewrite filter_app, length_app. reflexivity. Qed.

Lemma count_zero_filter c (d : list Event) :
  count c d = 0%nat -> filter c d = [].
Proof. unfold count. apply length_zero_iff_nil. Qed.

Lemma count_zero_not_In c (d : list Event) e :
  count c d = 0%nat -> c e = true -> ~ In e d.
Proof.
  intros Hn He Hin. apply count_zero_filter in Hn.
  assert (Hf : In e (filter c d)) by (apply filter_In; auto).
  rewrite Hn in Hf. inversion Hf.
Qed.

Lemma new_events_app {A} (s : PipelineState) (o : Outcome PipelineState A) d :
  trace (final o) = trace s ++ d -> new_events s o = d.
Proof.
  intros H. unfold new_events. rewrite H.
  rewrite skipn_app, skipn_all, Nat.sub_diag. reflexivity.
Qed.

Lemma same_config_refl (s : PipelineState) : same_config s s.
Proof. repeat split. Qed.

Lemma same_config_trans (s1 s2 s3 : PipelineState) :
  same_config s1 s2 -> same_config s2 s3 -> same_config s1 s3.
Proof.
  unfold same_config. intros (a1 & a2 & a3 & a4 & a5) (b1 & b2 & b3 & b4 & b5).
  repeat split; congruence.
Qed.

Lemma bind_Ret {A B} (m : M FE A) (k : A -> M FE B) s b s' :
  bind m k s = Ret b s' ->
  exists a s1, m s = Ret a s1 /\ k a s1 = Ret b s'.
Proof.
  unfold bind. destruct (m s) as [a s1 | h s1]; [ eauto | discriminate ].
Qed.

Lemma bind_step {A B} (m : M FE A) (k : A -> M FE B) s a s1 :
  m s = Ret a s1 -> bind m k s = k a s1.
Proof. unfold bind. intros ->. reflexivity. Qed.

Lemma bind_halt {A B} (m : M FE A) (k : A -> M FE B) s h s1 :
  m s = Halt h s1 -> bind m k s = Halt h s1.
Proof. unfold bind. intros ->. reflexivity. Qed.

(** *** Rules for [avoids] *)

Lemma avoids_bind {A B} c (m : M FE A) (k : A -> M FE B) s :
  avoids c m s ->
  (forall a s1, m s = Ret a s1 -> same_config s s1 -> avoids c (k a) s1) ->
  avoids c (bind m k) s.
Proof.
  intros [Hc (d & Hd & Hn)] Hk. unfold avoids, bind in *.
  destruct (m s) as [a s1 | h s1] eqn:Hm; simpl in *.
  - destruct (Hk a s1 eq_refl Hc) as [Hc2 (d2 & Hd2 & Hn2)].
    split. { eapply same_config_trans; eauto. }
    exists (d ++ d2). rewrite Hd2, Hd, app_assoc, count_app, Hn, Hn2. auto.
  - split; auto. exists d. auto.
Qed.

Lemma avoids_ret {A} c (a : A) (s : PipelineState) : avoids c (ret a) s.
Proof.
  split; [ apply same_config_refl | exists []; simpl; rewrite app_nil_r; auto ].
Qed.

Lemma avoids_halt {A} c h (s : PipelineState) : avoids c (halt (A:=A) h) s.
Proof.
  split; [ apply same_config_refl | exists []; simpl; rewrite app_nil_r; auto ].
Qed.

Lemma avoids_gets {A} c (f : PipelineState -> A) s : avoids c (gets f) s.
Proof.
  split; [ apply same_config_refl | exists []; simpl; rewrite app_nil_r; auto ].
Qed.

Lemma avoids_modify c (g : PipelineState -> PipelineState) s :
  same_config s (g s) -> trace (g s) = trace s -> avoids c (modify g) s.
Proof.
  intros Hc Ht. split; [ exact Hc | exists []; simpl; rewrite app_nil_r; auto ].
Qed.

Lemma avoids_emit c e (s : PipelineState) : c e = false -> avoids c (emit e) s.
Proof.
  intros He. split; [ repeat split | ].
  exists [e]. split; [ reflexivity | unfold count; simpl; rewrite He; auto ].
Qed.

Lemma avoids_imshow_all c imgs (s : PipelineState) :
  (forall n, c (EvImshow n) = false) -> avoids c (imshow_all imgs) s.
Proof.
  intros Hc. revert s. induction imgs as [| i rest IH]; intros s; simpl.
  - apply avoids_ret.
  - apply avoids_bind; [ apply avoids_emit, Hc | intros; apply IH ].
Qed.

Lemma avoids_events {A} c (m : M FE A) s :
  avoids c m s ->
  trace (final (m s)) = trace s ++ new_events s (m s) /\
  count c (new_events s (m s)) = 0%nat.
Proof.
  intros [_ (d & Hd & Hn)]. rewrite (new_events_app s (m s) d Hd). auto.
Qed.

(** *** Rules for [keeps] *)

Lemma keeps_bind {A B X} (f : PipelineState -> X) (m : M FE A)
    (k : A -> M FE B) s :
  keeps f m s ->
  (forall a s1, m s = Ret a s1 -> keeps f (k a) s1) ->
  keeps f (bind m k) s.
Proof.
  unfold keeps, bind. intros Hm Hk.
  destruct (m s) as [a s1 | h s1] eqn:E1; simpl in *.
  - rewrite (Hk a s1 eq_refl). exact Hm.
  - exact Hm.
Qed.

Lemma keeps_imshow_all {X} (f : PipelineState -> X) imgs s :
  (forall tr s0, f (set_trace tr s0) = f s0) -> keeps f (imshow_all imgs) s.
Proof.
  intros Hf. revert s. induction imgs as [| i rest IH]; intros s; simpl.
  - reflexivity.
  - apply keeps_bind; [ unfold keeps; simpl; apply Hf | intros; apply IH ].
Qed.

(** *** Rules for [halts_within] *)

Lemma halts_within_bind {A B} ok (m : M FE A) (k : A -> M FE B) s :
  halts_within ok m s ->
  (forall a s1, m s = Ret a s1 -> halts_within ok (k a) s1) ->
  halts_within ok (bind m k) s.
Proof.
  unfold halts_within, bind. intros Hm Hk.
  destruct (m s) as [a s1 | h s1] eqn:E1; [ apply (Hk a s1 eq_refl) | exact Hm ].
Qed.

Lemma halts_within_imshow_all ok imgs (s : PipelineState) :
  halts_within ok (imshow_all imgs) s.
Proof.
  revert s. induction imgs as [| i rest IH]; intros s; simpl.
  - exact I.
  - apply halts_within_bind; [ exact I | intros; apply IH ].
Qed.

End Properties.

(** Decomposition of a monadic block along its binds; leaves are closed by
    computation. *)
Ltac unfold_primitives :=
  progress cbv beta delta
    [when CHECK push popBlocking deref_vio_backend view_vio_backend
     deref_statusSmartStereoMeasurements shutdown_queue start_thread join
     spinDisplayOnce].

Ltac avoid_step :=
  first
    [ apply avoids_ret
    | apply avoids_gets
    | apply avoids_halt
    | apply avoids_emit; reflexivity
    | apply avoids_modify; [ repeat split | reflexivity ]
    | apply avoids_imshow_all; reflexivity
    | apply avoids_bind; [ | intros ? ? _ _ ]
    | match goal with
      | |- avoids _ (match ?x with _ => _ end) _ => destruct x
      | |- avoids _ (let _ := _ in _) _ => cbv zeta
      end
    | unfold_primitives ].

Ltac avoid := repeat avoid_step.

Ltac keep_step :=
  first
    [ reflexivity
    | apply keeps_imshow_all; reflexivity
    | apply keeps_bind; [ | intros ? ? _ ]
    | match goal with
      | |- keeps _ (match ?x with _ => _ end) _ => destruct x
      | |- keeps _ (let _ := _ in _) _ => cbv zeta
      end
    | unfold_primitives ].

Ltac keep := repeat keep_step.

Ltac halt_step :=
  first
    [ exact I
    | reflexivity
    | apply halts_within_imshow_all
    | apply halts_within_bind; [ | intros ? ? _ ]
    | match goal with
      | |- halts_within _ (match ?x with _ => _ end) _ => destruct x
      | |- halts_within _ (let _ := _ in _) _ => cbv zeta
      end
    | unfold_primitives ].

Ltac halts := repeat halt_step.

Ltac crunch_with tac :=
  repeat (simpl; tac;
    match goal with
    | |- context [match ?x with _ => _ end] =>
        lazymatch x with
        | context [match _ with _ => _ end] => fail
        | _ => destruct x eqn:?
        end
    end);
  simpl; tac; simpl.

Ltac crunch := crunch_with idtac.

(** ** The accumulation rule *)

Lemma firstn_removelast {A} (m : list A) :
  firstn (length m - 1) m = removelast m.
Proof.
  induction m as [| a m IH]; simpl; auto.
  destruct m as [| b m']; simpl in *; auto.
  rewrite Nat.sub_0_r in IH. rewrite IH. reflexivity.
Qed.

Lemma resize_then_assign {A} (fresh : A) (m blk : list A) :
  m <> [] -> blk <> [] ->
  assign_rightCols
    (conservativeResize fresh m (length m - 1 + length blk)) blk
  = removelast m ++ blk.
Proof.
  intros Hm Hb.
  assert (0 < length m)%nat by (destruct m; simpl; [ congruence | lia ]).
  assert (0 < length blk)%nat by (destruct blk; simpl; [ congruence | lia ]).
  unfold assign_rightCols, conservativeResize.
  rewrite (@firstn_all2 A (length m - 1 + length blk)%nat m) by lia.
  rewrite length_app, repeat_length.
  replace (length m + (length m - 1 + length blk - length m)
           - length blk)%nat with (length m - 1)%nat by lia.
  rewrite firstn_app.
  replace (length m - 1 - length m)%nat with 0%nat by lia.
  simpl. rewrite app_nil_r, firstn_removelast. reflexivity.
Qed.

Lemma length_pos_ltb {A} (l : list A) : l <> [] -> (0 <? length l)%nat = true.
Proof. destruct l; [ congruence | reflexivity ]. Qed.

Lemma length_pos_eqb {A} (l : list A) : l <> [] -> (length l =? 0)%nat = false.
Proof. destruct l; [ congruence | reflexivity ]. Qed.

Lemma imu_append_nonempty {A} (buf pkt : list A) :
  buf <> [] -> imu_append buf pkt = removelast buf ++ pkt.
Proof. destruct buf; [ congruence | reflexivity ]. Qed.

Lemma imu_append_not_nil {A} (buf pkt : list A) :
  pkt <> [] -> imu_append buf pkt <> [].
Proof.
  intros Hp. destruct buf as [| a buf]; simpl; auto.
  intros H. apply app_eq_nil in H. destruct H. contradiction.
Qed.

Lemma length_removelast_pos {A} (l : list A) :
  l <> [] -> (length (removelast l) + 1 = length l)%nat.
Proof.
  intros H. destruct (exists_last H) as (l0 & z & ->).
  rewrite removelast_last, length_app. reflexivity.
Qed.

Lemma imu_append_length {A} (buf pkt : list A) :
  buf <> [] ->
  (length (imu_append buf pkt) + 1 = length buf + length pkt)%nat.
Proof.
  intros H. rewrite (imu_append_nonempty _ _ H), length_app.
  pose proof (length_removelast_pos _ H). lia.
Qed.

(** Folding the rule over the windows of [N] packets, from a non-empty
    buffer: every packet but the buffer's own contributes all its samples
    but one. *)
Lemma fold_imu_append_length {A} (ws : list (list A)) : forall buf,
  buf <> [] -> Forall (fun w => w <> []) ws ->
  fold_left imu_append ws buf <> [] /\
  (length (fold_left imu_append ws buf) + length ws
   = length buf + length (concat ws))%nat.
Proof.
  induction ws as [| w ws IH]; intros buf Hb Hw; simpl.
  - split; [ exact Hb | lia ].
  - inversion Hw as [| ? ? Hw1 Hw2]; subst.
    destruct (IH (imu_append buf w) (imu_append_not_nil _ _ Hw1) Hw2)
      as [Hne Hlen].
    split; [ exact Hne | ].
    pose proof (imu_append_length buf w Hb). rewrite length_app. lia.
Qed.

Lemma StronglySorted_app (a b : list Z) :
  StronglySorted Z.lt a -> StronglySorted Z.lt b ->
  (forall x y, In x a -> In y b -> x < y) ->
  StronglySorted Z.lt (a ++ b).
Proof.
  induction a as [| x a IH]; intros Ha Hb Hab; simpl; auto.
  inversion Ha as [| ? ? Ha1 Ha2]; subst. constructor.
  - apply IH; auto. intros; apply Hab; simpl; auto.
  - apply Forall_app. split; auto.
    apply Forall_forall. intros y Hy. apply Hab; simpl; auto.
Qed.

Lemma In_removelast_In {A} (l : list A) x : In x (removelast l) -> In x l.
Proof.
  induction l as [| a l IH]; simpl; auto.
  destruct l as [| b l']; [ intros [] | ].
  intros [<- | H]; [ left; reflexivity | right; apply IH, H ].
Qed.

Lemma StronglySorted_removelast (l : list Z) :
  StronglySorted Z.lt l ->
  StronglySorted Z.lt (removelast l) /\
  (forall x, In x (removelast l) -> x < last l 0).
Proof.
  induction l as [| a l IH]; intros Hs; simpl.
  - split; [ constructor | intros x [] ].
  - inversion Hs as [| ? ? Hs1 Hs2]; subst.
    destruct l as [| b l'].
    + split; [ constructor | intros x [] ].
    + destruct (IH Hs1) as [IH1 IH2]. split.
      * constructor; auto.
        apply Forall_forall. intros x Hx.
        rewrite Forall_forall in Hs2. apply Hs2.
        apply (In_removelast_In _ _ Hx).
      * intros x [<- | Hx].
        -- rewrite Forall_forall in Hs2. apply Hs2.
           change (In (last (b :: l') 0) (b :: l')).
           destruct (exists_last (l := b :: l')) as (l0 & z & Hz);
             [ discriminate | ].
           rewrite Hz, last_last. apply in_or_app. right. simpl. auto.
        -- apply IH2, Hx.
Qed.

Lemma StronglySorted_hd_le (l : list Z) y :
  StronglySorted Z.lt l -> In y l -> hd 0 l <= y.
Proof.
  intros Hs Hy. destruct l as [| a l]; [ inversion Hy | ].
  inversion Hs as [| ? ? _ Hall]; subst. simpl.
  destruct Hy as [<- | Hy]; [ lia | ].
  rewrite Forall_forall in Hall. specialize (Hall y Hy). lia.
Qed.

Lemma imu_append_sorted (buf w : list Z) :
  buf <> [] -> w <> [] ->
  StronglySorted Z.lt buf -> StronglySorted Z.lt w ->
  last buf 0 <= hd 0 w ->
  StronglySorted Z.lt (imu_append buf w) /\
  last (imu_append buf w) 0 = last w 0.
Proof.
  intros Hb Hw Sb Sw Hle. rewrite (imu_append_nonempty _ _ Hb).
  destruct (StronglySorted_removelast buf Sb) as [S1 S2]. split.
  - apply StronglySorted_app; auto.
    intros x y Hx Hy. specialize (S2 x Hx).
    pose proof (StronglySorted_hd_le w y Sw Hy). lia.
  - destruct (exists_last Hw) as (l0 & z & ->).
    rewrite app_assoc, !last_last. reflexivity.
Qed.

Lemma fold_imu_append_sorted (ws : list (list Z)) : forall buf,
  buf <> [] -> StronglySorted Z.lt buf ->
  Forall (fun w => w <> [] /\ StronglySorted Z.lt w) ws ->
  chained_from (last buf 0) ws ->
  StronglySorted Z.lt (fold_left imu_append ws buf).
Proof.
  induction ws as [| w ws IH]; intros buf Hb Sb Hw Hc; simpl; auto.
  inversion Hw as [| ? ? [Hw1 Hw1'] Hw2]; subst.
  destruct Hc as [Hc1 Hc2].
  destruct (imu_append_sorted buf w Hb Hw1 Sb Hw1' Hc1) as [S L].
  apply IH; auto.
  - apply imu_append_not_nil, Hw1.
  - rewrite L. exact Hc2.
Qed.

Section PerFrame.
Context {T : ExternalTypes} {FE : Type} {F : StereoVisionFrontEnd FE}
        {E : Environment}.

Local Abbreviation PipelineState := (Pipeline FE).

(** ** The accumulation block of spinOnce *)

Lemma accumulate_imu_Ret p (s : PipelineState) :
  packet_nonempty p -> buffers_coherent s ->
  accumulate_imu p s = Ret tt (accumulated p s).
Proof.
  intros [Hs Ha] Hc.
  cbv beta zeta delta [accumulate_imu accumulated bind gets modify CHECK ret].
  destruct (imu_stamps_lkf_to_curr_f s) as [| t0 buf] eqn:Eb.
  - simpl. reflexivity.
  - assert (Hb : imu_stamps_lkf_to_curr_f s <> []) by congruence.
    assert (Hab : imu_accgyr_lkf_to_curr_f s <> []).
    { intro Hx. apply Hc in Hx. congruence. }
    rewrite <- Eb.
    rewrite (length_pos_eqb _ Hb), (length_pos_ltb _ Hs), (length_pos_ltb _ Hb).
    cbv iota beta.
    cbn [imu_accgyr_lkf_to_curr_f set_imu_stamps upd].
    rewrite (length_pos_ltb _ Ha), (length_pos_ltb _ Hab).
    cbv iota beta.
    rewrite (resize_then_assign 0 _ _ Hb Hs).
    cbn [imu_accgyr_lkf_to_curr_f set_imu_stamps upd].
    rewrite (resize_then_assign fresh_ImuAccGyr _ _ Hab Ha).
    rewrite (imu_append_nonempty _ _ Hb).
    reflexivity.
Qed.

Lemma accumulated_coherent p (s : PipelineState) :
  packet_nonempty p -> buffers_coherent (accumulated p s).
Proof.
  intros [Hs Ha]. unfold buffers_coherent, accumulated. simpl. split; intros H.
  - exfalso. revert H. apply imu_append_not_nil, Hs.
  - exfalso. destruct (imu_stamps_lkf_to_curr_f s); [ contradiction | ].
    apply app_eq_nil in H. destruct H. contradiction.
Qed.

Lemma view_vio_backend_Ret (s : PipelineState) b :
  vio_backend_ s = Some b ->
  view_vio_backend s = Ret (backend_view (trace s)) s.
Proof.
  intros H. unfold view_vio_backend, deref_vio_backend, bind, gets, ret.
  rewrite H. reflexivity.
Qed.

(** ** Keyframe dispatch *)

Lemma processKeyframe_shape k lf tk tlkf st ag (s : PipelineState) ssm :
  statusSmartStereoMeasurements s = Some ssm ->
  processKeyframe k lf tk tlkf st ag s =
  dispatch_body lf tk tlkf st ag
    (set_trace (trace s ++ [EvProcessKeyframe k ssm tk tlkf st ag]) s).
Proof.
  intros H. unfold processKeyframe, deref_statusSmartStereoMeasurements.
  unfold bind at 1. unfold bind at 1, gets at 1. rewrite H.
  unfold ret at 1. unfold bind at 1, emit at 1, modify at 1.
  reflexivity.
Qed.

Lemma processKeyframe_null k lf tk tlkf st ag (s : PipelineState) :
  statusSmartStereoMeasurements s = None ->
  processKeyframe k lf tk tlkf st ag s =
  Halt (LogFatal CHECK_NOTNULL_statusSmartStereoMeasurements) s.
Proof.
  intros H. unfold processKeyframe, deref_statusSmartStereoMeasurements.
  unfold bind at 1. unfold bind at 1, gets at 1. rewrite H. reflexivity.
Qed.

Lemma feature_selector_block_off tk tlkf (s : PipelineState) :
  FLAGS_use_feature_selection (flags s) = false ->
  feature_selector_block tk tlkf s = Ret tt s.
Proof.
  intros H. unfold feature_selector_block, bind, gets. rewrite H. reflexivity.
Qed.

Lemma dispatch_body_avoids_dispatch lf tk tlkf st ag (s : PipelineState) :
  avoids is_dispatch (dispatch_body lf tk tlkf st ag) s.
Proof.
  unfold dispatch_body, feature_selector_block, backend_block, mesh_block,
    visualize_block.
  avoid.
Qed.

End PerFrame.

Section Dispatch.
Context {T : ExternalTypes} {FE : Type} {F : StereoVisionFrontEnd FE}
        {E : Environment}.

Local Abbreviation PipelineState := (Pipeline FE).

Lemma count_cons c e (d : list Event) :
  count c (e :: d) = ((if c e then 1 else 0) + count c d)%nat.
Proof. unfold count. simpl. destruct (c e); reflexivity. Qed.

Lemma count_only_logger c d :
  only_logger d -> (forall w, c (EvLogger w) = false) -> count c d = 0%nat.
Proof.
  intros Hd Hc. induction d as [| e d IH]; [ reflexivity | ].
  rewrite count_cons, IH.
  - destruct (Hd e (or_introl eq_refl)) as [w ->]. rewrite Hc. reflexivity.
  - intros e' He'. apply Hd. right. exact He'.
Qed.

Lemma count_imshow c (imgs : list (Z * Image)) :
  (forall n, c (EvImshow n) = false) ->
  count c (map (fun i => EvImshow (fst i)) imgs) = 0%nat.
Proof.
  intros Hc. induction imgs as [| i r IH]; [ reflexivity | ].
  simpl. rewrite count_cons, Hc, IH. reflexivity.
Qed.

Lemma imshow_all_Ret imgs (s : PipelineState) :
  imshow_all imgs s =
  Ret tt (append_events (map (fun i => EvImshow (fst i)) imgs) s).
Proof.
  revert s. induction imgs as [| i r IH]; intros s; simpl.
  - unfold ret, append_events. simpl. rewrite app_nil_r. destruct s; reflexivity.
  - unfold bind, emit, modify. rewrite IH. unfold append_events. simpl.
    rewrite <- app_assoc. reflexivity.
Qed.

(** *** The back-end block *)

Lemma backend_block_events tk st ag (s : PipelineState) ssm :
  statusSmartStereoMeasurements s = Some ssm ->
  exists d1 d2,
    trace (final (backend_block tk st ag s)) =
      trace s ++ d1 ++ EvBackendPush (backend_payload tk st ag ssm s)
                    :: EvPopBlocking backend_output_queue_ :: d2 /\
    only_logger d1 /\ only_logger d2.
Proof.
  intros H.
  assert (L0 : only_logger []) by (intros e []).
  assert (L1 : forall w, only_logger [EvLogger w]).
  { intros w e [<- | []]. eauto. }
  unfold backend_block.
  cbv beta delta [bind ret gets modify emit halt when push popBlocking
                  deref_vio_backend deref_statusSmartStereoMeasurements].
  crunch_with ltac:(rewrite ?H);
    unfold backend_payload; rewrite <- ?app_assoc; simpl;
    first
      [ exists [], []; split; [ reflexivity | auto ]
      | exists [EvLogger logFrontendResults], [];
          split; [ reflexivity | auto ]
      | exists [EvLogger logFrontendResults], [EvLogger logBackendResults];
          split; [ reflexivity | auto ] ].
Qed.

Lemma backend_block_avoids c tk st ag (s : PipelineState) :
  (forall p, c (EvBackendPush p) = false) ->
  c (EvPopBlocking backend_output_queue_) = false ->
  (forall w, c (EvLogger w) = false) ->
  avoids c (backend_block tk st ag) s.
Proof.
  intros H1 H2 H3. unfold backend_block.
  repeat first [ apply avoids_emit; solve [ auto ] | avoid_step ].
Qed.

(** *** The visualizer block *)

Lemma visualize_block_off vt lf tk l (s : PipelineState) :
  FLAGS_visualize (flags s) = false ->
  visualize_block vt lf tk l s = Ret tt s.
Proof.
  intros H. unfold visualize_block, bind, gets. rewrite H. reflexivity.
Qed.

Lemma visualize_block_shape vt lf tk l (s : PipelineState) b :
  FLAGS_visualize (flags s) = true -> vio_backend_ s = Some b ->
  visualize_block vt lf tk l s =
  bind (popBlocking visualizer_output_queue_ visualizer_output_pop)
       spinDisplayOnce
       (append_events
          (visualize_pre l s ++
           [EvVisualizerPush (visualizer_payload vt lf tk l s)]) s).
Proof.
  intros Hv Hb. unfold visualize_block, visualize_pre, visualizer_payload,
    append_events.
  unfold bind at 1, gets at 1. rewrite Hv.
  unfold bind at 1, gets at 1. unfold bind at 1, gets at 1.
  rewrite (bind_step _ _ _ _ _ (view_vio_backend_Ret s b Hb)).
  unfold bind at 1, gets at 1.
  destruct (semantic_mesh_segmentation_callback_ s) as [cb |] eqn:Ec.
  - unfold bind at 1. unfold bind at 1, emit at 1, modify at 1, ret at 1.
    unfold bind at 1, gets at 1. unfold bind at 1.
    unfold push, bind at 1, emit at 1, modify at 1.
    unfold bind at 1, gets at 1, ret at 1.
    simpl. rewrite <- !app_assoc. reflexivity.
  - unfold bind at 1, ret at 1.
    unfold bind at 1, gets at 1. unfold bind at 1.
    unfold push, bind at 1, emit at 1, modify at 1.
    unfold bind at 1, gets at 1, ret at 1.
    simpl. reflexivity.
Qed.

Lemma display_popped (s : PipelineState) out :
  queue_shutdown s visualizer_output_queue_ = false ->
  visualizer_output_pop (trace s ++ [EvPopBlocking visualizer_output_queue_])
    = Popped out ->
  bind (popBlocking visualizer_output_queue_ visualizer_output_pop)
       spinDisplayOnce s =
  Ret tt (append_events
            (EvPopBlocking visualizer_output_queue_ :: display_events out) s).
Proof.
  intros Hq Ho.
  cbv beta delta [bind popBlocking emit modify gets ret spinDisplayOnce when].
  simpl. rewrite Hq. simpl. rewrite Ho. simpl.
  unfold display_events, append_events.
  destruct (is_NONE (visualization_type_ out)); simpl;
    rewrite imshow_all_Ret; unfold append_events; simpl;
    rewrite <- ?app_assoc; simpl; reflexivity.
Qed.

Lemma display_failed (s : PipelineState) :
  queue_shutdown s visualizer_output_queue_ = true \/
  visualizer_output_pop (trace s ++ [EvPopBlocking visualizer_output_queue_])
    = PopFailed ->
  bind (popBlocking visualizer_output_queue_ visualizer_output_pop)
       spinDisplayOnce s =
  Ret tt (append_events
            [EvPopBlocking visualizer_output_queue_;
             EvWarning Visualizer_is_lagging_behind_pipeline_processing] s).
Proof.
  intros H.
  cbv beta delta [bind popBlocking emit modify gets ret spinDisplayOnce when].
  simpl. unfold append_events.
  destruct (queue_shutdown s visualizer_output_queue_); simpl.
  - rewrite <- app_assoc. reflexivity.
  - destruct H as [H | H]; [ discriminate | ]. rewrite H. simpl.
    rewrite <- app_assoc. reflexivity.
Qed.

Lemma display_never (s : PipelineState) :
  queue_shutdown s visualizer_output_queue_ = false ->
  visualizer_output_pop (trace s ++ [EvPopBlocking visualizer_output_queue_])
    = PopNever ->
  bind (popBlocking visualizer_output_queue_ visualizer_output_pop)
       spinDisplayOnce s =
  Halt (BlockedForever visualizer_output_queue_)
       (append_events [EvPopBlocking visualizer_output_queue_] s).
Proof.
  intros Hq Ho.
  cbv beta delta [bind popBlocking emit modify gets ret spinDisplayOnce when].
  simpl. rewrite Hq. simpl. rewrite Ho. reflexivity.
Qed.

End Dispatch.

Section DispatchCounts.
Context {T : ExternalTypes} {FE : Type} {F : StereoVisionFrontEnd FE}
        {E : Environment}.

Local Abbreviation PipelineState := (Pipeline FE).

Lemma count_le c c' (d : list Event) :
  (forall e, c' e = true -> c e = true) ->
  count c d = 0%nat -> count c' d = 0%nat.
Proof.
  intros Hcc. induction d as [| e d IH]; [ reflexivity | ].
  rewrite !count_cons. intros H.
  destruct (c e) eqn:Ec; [ discriminate | ].
  destruct (c' e) eqn:Ec'; [ rewrite (Hcc e Ec') in Ec; discriminate | ].
  apply IH. exact H.
Qed.

Lemma avoids_Ret {A} c (m : M FE A) (s : PipelineState) a s' :
  avoids c m s -> m s = Ret a s' ->
  same_config s s' /\
  exists d, trace s' = trace s ++ d /\ count c d = 0%nat.
Proof. intros [Hc Hd] Hm. rewrite Hm in *. simpl in *. auto. Qed.

Lemma delta_unique (tr d d' x : list Event) :
  x = tr ++ d -> x = tr ++ d' -> d = d'.
Proof. intros -> H. apply app_inv_head in H. auto. Qed.

Lemma mesh_block_avoids_traffic vt (s : PipelineState) :
  avoids (fun e => is_frame_traffic e || is_display_traffic e)
         (mesh_block vt) s.
Proof. unfold mesh_block. avoid. Qed.

Lemma visualize_block_avoids_frame_traffic vt lf tk l (s : PipelineState) :
  avoids is_frame_traffic (visualize_block vt lf tk l) s.
Proof. unfold visualize_block. avoid. Qed.

Lemma visualize_block_null vt lf tk l (s : PipelineState) :
  FLAGS_visualize (flags s) = true -> vio_backend_ s = None ->
  visualize_block vt lf tk l s = Halt NullBackend s.
Proof.
  intros Hv Hb. unfold visualize_block.
  unfold bind at 1, gets at 1. rewrite Hv.
  unfold bind at 1, gets at 1. unfold bind at 1, gets at 1.
  unfold bind at 1, view_vio_backend, deref_vio_backend, bind, gets.
  rewrite Hb. reflexivity.
Qed.

Lemma count_visualize_pre c l (s : PipelineState) :
  (forall m, c (EvSemanticMeshSegmentation m) = false) ->
  count c (visualize_pre l s) = 0%nat.
Proof.
  intros H. unfold visualize_pre.
  destruct (semantic_mesh_segmentation_callback_ s); [ | reflexivity ].
  rewrite count_cons, H. reflexivity.
Qed.

Lemma count_display_events_render out :
  count is_render (display_events out) = 1%nat.
Proof.
  unfold display_events. rewrite !count_app, count_imshow by reflexivity.
  destruct (is_NONE (visualization_type_ out)); reflexivity.
Qed.

Lemma count_display_events_push out :
  count is_visualizer_push (display_events out) = 0%nat.
Proof.
  unfold display_events. rewrite !count_app, count_imshow by reflexivity.
  destruct (is_NONE (visualization_type_ out)); reflexivity.
Qed.

(** A visualizer block that returns has pushed one payload when
    visualization is on, none otherwise, and rendered at most once. *)
Lemma visualize_block_Ret vt lf tk l (s s' : PipelineState) :
  visualize_block vt lf tk l s = Ret tt s' ->
  exists d, trace s' = trace s ++ d /\
    count is_visualizer_push d
      = (if FLAGS_visualize (flags s) then 1 else 0)%nat /\
    (count is_render d <= if FLAGS_visualize (flags s) then 1 else 0)%nat /\
    (visualizer_responsive s ->
     count is_render d = (if FLAGS_visualize (flags s) then 1 else 0)%nat).
Proof.
  intros HR. destruct (FLAGS_visualize (flags s)) eqn:Hv.
  2:{ rewrite (visualize_block_off _ _ _ _ _ Hv) in HR. inversion HR; subst.
      exists []. rewrite app_nil_r. repeat split; auto. }
  destruct (vio_backend_ s) as [b |] eqn:Hb.
  2:{ rewrite (visualize_block_null _ _ _ _ _ Hv Hb) in HR. discriminate. }
  rewrite (visualize_block_shape _ _ _ _ _ b Hv Hb) in HR.
  set (pushed := visualize_pre l s ++
                 [EvVisualizerPush (visualizer_payload vt lf tk l s)]) in *.
  assert (Hp : count is_visualizer_push pushed = 1%nat).
  { unfold pushed. rewrite count_app, count_visualize_pre by reflexivity.
    reflexivity. }
  assert (Hr : count is_render pushed = 0%nat).
  { unfold pushed. rewrite count_app, count_visualize_pre by reflexivity.
    reflexivity. }
  set (s1 := append_events pushed s) in *.
  destruct (queue_shutdown s1 visualizer_output_queue_) eqn:Hq.
  - rewrite (display_failed s1 (or_introl Hq)) in HR. inversion HR; subst.
    exists (pushed ++ [EvPopBlocking visualizer_output_queue_;
                       EvWarning Visualizer_is_lagging_behind_pipeline_processing]).
    simpl. rewrite <- app_assoc. split; [ reflexivity | ].
    rewrite !count_app, Hp, Hr. simpl. repeat split; auto.
    intros [Hq' _]. unfold s1 in Hq. simpl in Hq. congruence.
  - destruct (visualizer_output_pop
                (trace s1 ++ [EvPopBlocking visualizer_output_queue_]))
      as [out | |] eqn:Ho.
    + rewrite (display_popped s1 out Hq Ho) in HR. inversion HR; subst.
      exists (pushed ++ EvPopBlocking visualizer_output_queue_
                          :: display_events out).
      simpl. rewrite <- app_assoc. split; [ reflexivity | ].
      rewrite !count_app, !count_cons, Hp, Hr,
        count_display_events_render, count_display_events_push.
      simpl. repeat split; auto.
    + rewrite (display_failed s1 (or_intror Ho)) in HR. inversion HR; subst.
      exists (pushed ++ [EvPopBlocking visualizer_output_queue_;
                         EvWarning Visualizer_is_lagging_behind_pipeline_processing]).
      simpl. rewrite <- app_assoc. split; [ reflexivity | ].
      rewrite !count_app, Hp, Hr. simpl. repeat split; auto.
      intros [_ Hresp]. destruct (Hresp (trace s1 ++ [EvPopBlocking visualizer_output_queue_])) as [o Ho'].
      congruence.
    + rewrite (display_never s1 Hq Ho) in HR. discriminate.
Qed.

(** A dispatch that returns, with feature selection off: one record of the
    call, one back-end push, one back-end pop, one visualizer push when
    visualization is on. *)
Lemma processKeyframe_Ret_counts k lf tk tlkf st ag (s s' : PipelineState) :
  FLAGS_use_feature_selection (flags s) = false ->
  processKeyframe k lf tk tlkf st ag s = Ret tt s' ->
  same_config s s' /\
  exists d, trace s' = trace s ++ d /\
    count is_dispatch d = 1%nat /\
    count is_tracking d = 0%nat /\
    count is_backend_push d = 1%nat /\
    count is_backend_pop d = 1%nat /\
    count is_visualizer_push d
      = (if FLAGS_visualize (flags s) then 1 else 0)%nat /\
    (count is_render d <= if FLAGS_visualize (flags s) then 1 else 0)%nat /\
    (visualizer_responsive s ->
     count is_render d = (if FLAGS_visualize (flags s) then 1 else 0)%nat).
Proof.
  intros Hfs HR.
  destruct (statusSmartStereoMeasurements s) as [ssm |] eqn:Hc.
  2:{ rewrite (processKeyframe_null _ _ _ _ _ _ _ Hc) in HR. discriminate. }
  rewrite (processKeyframe_shape _ _ _ _ _ _ _ _ Hc) in HR.
  set (s0 := set_trace _ s) in *.
  unfold dispatch_body in HR.
  rewrite (bind_step _ _ _ _ _ (feature_selector_block_off tk tlkf s0 Hfs)) in HR.
  apply bind_Ret in HR as (u & s2 & Hb & HR).
  apply bind_Ret in HR as (fl & s2' & Hg & HR).
  unfold gets in Hg. inversion Hg; subst fl s2'. clear Hg.
  apply bind_Ret in HR as (l & s3 & Hm & HR).
  (* back-end block *)
  destruct (backend_block_events tk st ag s0 ssm Hc) as (d1 & d2 & Ht & L1 & L2).
  rewrite Hb in Ht. simpl in Ht.
  destruct (avoids_Ret is_display_traffic _ _ _ _
              (backend_block_avoids is_display_traffic tk st ag s0
                 (fun _ => eq_refl) eq_refl (fun _ => eq_refl)) Hb)
    as [C02 (db & Hdb & Ndb)].
  (* mesh block *)
  destruct (avoids_Ret _ _ _ _ _ (mesh_block_avoids_traffic _ s2) Hm)
    as [C23 (dm & Hdm & Ndm)].
  (* visualizer block *)
  destruct (avoids_Ret _ _ _ _ _
              (visualize_block_avoids_frame_traffic _ lf tk l s3) HR)
    as [C3' (dv & Hdv & Ndv)].
  destruct (visualize_block_Ret _ _ _ _ _ _ HR) as (dv' & Hdv' & Vp & Vr & Vresp).
  assert (dv' = dv) by (eapply delta_unique; eauto). subst dv'.
  assert (C0 : same_config s s0) by (repeat split).
  assert (Cs3 : same_config s s3).
  { eapply same_config_trans; [ exact C0 | ].
    eapply same_config_trans; [ exact C02 | exact C23 ]. }
  assert (Hfl : flags s3 = flags s) by (apply Cs3).
  rewrite Hfl in Vp, Vr, Vresp.
  split. { eapply same_config_trans; [ exact Cs3 | exact C3' ]. }
  assert (db = d1 ++ EvBackendPush (backend_payload tk st ag ssm s0)
                 :: EvPopBlocking backend_output_queue_ :: d2)
    by (eapply delta_unique; eauto).
  subst db.
  exists (EvProcessKeyframe k ssm tk tlkf st ag ::
          (d1 ++ EvBackendPush (backend_payload tk st ag ssm s0)
              :: EvPopBlocking backend_output_queue_ :: d2) ++ dm ++ dv).
  split.
  { rewrite Hdv, Hdm, Ht. unfold s0. simpl. rewrite <- !app_assoc. reflexivity. }
  assert (Z1 : forall c, (forall w, c (EvLogger w) = false) ->
                         count c d1 = 0%nat /\ count c d2 = 0%nat).
  { intros c Hc'. split; apply count_only_logger; auto. }
  assert (Zm : forall c, (forall e, c e = true ->
                  is_frame_traffic e || is_display_traffic e = true) ->
                  count c dm = 0%nat).
  { intros c Hc'. eapply count_le; [ exact Hc' | exact Ndm ]. }
  assert (Zv : forall c, (forall e, c e = true -> is_frame_traffic e = true) ->
                  count c dv = 0%nat).
  { intros c Hc'. eapply count_le; [ exact Hc' | exact Ndv ]. }
  rewrite !count_cons, !count_app, !count_cons. simpl.
  destruct (Z1 is_dispatch (fun _ => eq_refl)) as [-> ->].
  destruct (Z1 is_tracking (fun _ => eq_refl)) as [-> ->].
  destruct (Z1 is_backend_push (fun _ => eq_refl)) as [-> ->].
  destruct (Z1 is_backend_pop (fun _ => eq_refl)) as [-> ->].
  destruct (Z1 is_visualizer_push (fun _ => eq_refl)) as [-> ->].
  destruct (Z1 is_render (fun _ => eq_refl)) as [-> ->].
  rewrite (Zm is_dispatch), (Zm is_tracking), (Zm is_backend_push),
    (Zm is_backend_pop), (Zm is_visualizer_push), (Zm is_render).
  2-7: (intros e He; unfold is_frame_traffic, is_display_traffic;
        rewrite He, ?orb_true_r; reflexivity).
  rewrite (Zv is_dispatch), (Zv is_tracking), (Zv is_backend_push),
    (Zv is_backend_pop).
  2-5: (intros e He; unfold is_frame_traffic;
        rewrite He, ?orb_true_r; reflexivity).
  simpl. repeat split; auto.
  intros Hresp. apply Vresp.
  destruct Hresp as [Hq Ho]. split; auto.
  destruct Cs3 as (_ & _ & Hqs & _). rewrite Hqs. exact Hq.
Qed.

End DispatchCounts.

Section PerFrameCounts.
Context {T : ExternalTypes} {FE : Type} {F : StereoVisionFrontEnd FE}
        {E : Environment}.

Local Abbreviation PipelineState := (Pipeline FE).

(** ** spinOnce, past the tracking step *)

Lemma spinOnce_shape p (s : PipelineState) b :
  vio_backend_ s = Some b -> packet_nonempty p -> buffers_coherent s ->
  spinOnce p s =
  bind (if isKeyframe (stereoFrame_km1_ (snd (tracked p s)))
        then dispatch_and_reset p s else ret tt)
       (fun _ => modify (set_ssm None))
       (after_tracking p s).
Proof.
  intros Hb Hp Hc. unfold spinOnce.
  rewrite (bind_step _ _ _ _ _ (accumulate_imu_Ret p s Hp Hc)).
  unfold bind at 1, modify at 1.
  unfold bind at 1, gets at 1.
  unfold bind at 1, gets at 1.
  rewrite (bind_step view_vio_backend _ _ (backend_view (trace s))
             (init_static_timestamp_lkf (accumulated p s))).
  2:{ erewrite view_vio_backend_Ret; [ reflexivity | exact Hb ]. }
  unfold bind at 1, emit at 1, modify at 1.
  unfold bind at 1, gets at 1.
  unfold bind at 1, emit at 1, modify at 1.
  unfold bind at 1, modify at 1.
  unfold bind at 1, modify at 1.
  unfold after_tracking, dispatch_and_reset, tracked, tracking_prior,
    window_stamps, window_accgyr.
  cbn [trace set_trace init_static_timestamp_lkf set_timestamp_lkf upd
       imu_stamps_lkf_to_curr_f imu_accgyr_lkf_to_curr_f
       stereo_vision_frontend_].
  rewrite <- app_assoc. reflexivity.
Qed.

Lemma timestamp_lkf_value_after_tracking p (s : PipelineState) :
  timestamp_lkf_value (after_tracking p s) = timestamp_lkf_value s.
Proof. reflexivity. Qed.

Lemma spinOnce_keyframe p (s : PipelineState) b :
  vio_backend_ s = Some b -> packet_nonempty p -> buffers_coherent s ->
  isKeyframe (stereoFrame_km1_ (snd (tracked p s))) = true ->
  spinOnce p s =
  bind (bind (dispatch_body (getLeftFrame (getStereoFrame p))
                (getTimestamp (getStereoFrame p)) (timestamp_lkf_value s)
                (window_stamps p s) (window_accgyr p s))
             (fun _ => reset_after_dispatch p))
       (fun _ => modify (set_ssm None))
       (append_events [dispatch_event p s] (after_tracking p s)).
Proof.
  intros Hb Hp Hc Hk. rewrite (spinOnce_shape p s b Hb Hp Hc), Hk.
  unfold dispatch_and_reset.
  unfold bind at 1. unfold bind at 1, gets at 1.
  unfold bind at 1.
  rewrite (processKeyframe_shape _ _ _ _ _ _ (after_tracking p s)
             (fst (tracked p s)) eq_refl).
  rewrite timestamp_lkf_value_after_tracking.
  unfold bind at 3. unfold bind at 3.
  unfold reset_after_dispatch, append_events, dispatch_event.
  reflexivity.
Qed.

Lemma spinOnce_no_keyframe p (s : PipelineState) b :
  vio_backend_ s = Some b -> packet_nonempty p -> buffers_coherent s ->
  isKeyframe (stereoFrame_km1_ (snd (tracked p s))) = false ->
  spinOnce p s = Ret tt (set_ssm None (after_tracking p s)).
Proof.
  intros Hb Hp Hc Hk. rewrite (spinOnce_shape p s b Hb Hp Hc), Hk.
  reflexivity.
Qed.

Lemma reset_after_dispatch_avoids c p (s : PipelineState) :
  avoids c (reset_after_dispatch p) s.
Proof. unfold reset_after_dispatch. avoid. Qed.

(** The dispatch record appears once in a keyframe step, and not at all
    otherwise. *)
Lemma spinOnce_dispatch_events p (s : PipelineState) b :
  vio_backend_ s = Some b -> packet_nonempty p -> buffers_coherent s ->
  filter is_dispatch (new_events s (spinOnce p s)) =
  if isKeyframe (stereoFrame_km1_ (snd (tracked p s)))
  then [dispatch_event p s] else [].
Proof.
  intros Hb Hp Hc.
  destruct (isKeyframe (stereoFrame_km1_ (snd (tracked p s)))) eqn:Hk.
  - rewrite (spinOnce_keyframe p s b Hb Hp Hc Hk).
    match goal with
    | |- context [new_events s (bind ?m ?k ?s1)] =>
        assert (Hav : avoids is_dispatch (bind m k) s1)
    end.
    { apply avoids_bind; [ | intros; avoid ].
      apply avoids_bind; [ apply dispatch_body_avoids_dispatch | ].
      intros. apply reset_after_dispatch_avoids. }
    destruct Hav as [_ (d & Hd & Hn)].
    erewrite new_events_app.
    2:{ rewrite Hd. unfold append_events, after_tracking. simpl.
        rewrite <- !app_assoc. reflexivity. }
    simpl. rewrite (count_zero_filter _ _ Hn). reflexivity.
  - rewrite (spinOnce_no_keyframe p s b Hb Hp Hc Hk).
    erewrite new_events_app; [ | unfold after_tracking; simpl; reflexivity ].
    reflexivity.
Qed.

(** A step that returns without a dispatch leaves the accumulated window
    in the buffers. *)
Lemma spinOnce_quiet p (s s' : PipelineState) b :
  vio_backend_ s = Some b -> packet_nonempty p -> buffers_coherent s ->
  spinOnce p s = Ret tt s' ->
  count is_dispatch (new_events s (spinOnce p s)) = 0%nat ->
  imu_stamps_lkf_to_curr_f s' = window_stamps p s /\
  imu_accgyr_lkf_to_curr_f s' = window_accgyr p s /\
  vio_backend_ s' = Some b /\ buffers_coherent s'.
Proof.
  intros Hb Hp Hc HR Hn.
  pose proof (spinOnce_dispatch_events p s b Hb Hp Hc) as Hf.
  rewrite (count_zero_filter _ _ Hn) in Hf.
  destruct (isKeyframe (stereoFrame_km1_ (snd (tracked p s)))) eqn:Hk;
    [ discriminate | ].
  rewrite (spinOnce_no_keyframe p s b Hb Hp Hc Hk) in HR.
  inversion HR; subst. simpl. repeat split; auto;
    apply (accumulated_coherent p s Hp).
Qed.

End PerFrameCounts.

Section RunCounts.
Context {T : ExternalTypes} {FE : Type} {F : StereoVisionFrontEnd FE}
        {E : Environment}.

Local Abbreviation PipelineState := (Pipeline FE).

Lemma accumulate_imu_silent p (s : PipelineState) :
  avoids (fun _ => true) (accumulate_imu p) s.
Proof. unfold accumulate_imu. avoid. Qed.

Lemma count_all_zero (d : list Event) :
  count (fun _ => true) d = 0%nat -> d = [].
Proof. destruct d; [ reflexivity | discriminate ]. Qed.

Lemma view_vio_backend_inv (s s' : PipelineState) v :
  view_vio_backend s = Ret v s' -> s' = s.
Proof.
  unfold view_vio_backend, deref_vio_backend, bind, gets, ret, halt.
  destruct (vio_backend_ s); intros H; inversion H; reflexivity.
Qed.

Lemma balanced_nil (s : PipelineState) : balanced s [].
Proof.
  unfold balanced, count. simpl.
  destruct (FLAGS_visualize (flags s)); repeat split; auto.
Qed.

Lemma visualizer_responsive_config (s s' : PipelineState) :
  same_config s s' -> visualizer_responsive s -> visualizer_responsive s'.
Proof.
  intros (_ & _ & Hq & _) [H1 H2]. split; auto. rewrite Hq. exact H1.
Qed.

Lemma balanced_app (s s1 : PipelineState) d1 d2 :
  same_config s s1 -> balanced s d1 -> balanced s1 d2 ->
  balanced s (d1 ++ d2).
Proof.
  intros C (a1 & a2 & a3 & a4 & a5) (b1 & b2 & b3 & b4 & b5).
  pose proof (visualizer_responsive_config s s1 C) as Hr.
  destruct C as (Hfl & _). rewrite Hfl in b3.
  unfold balanced. rewrite !count_app.
  destruct (FLAGS_visualize (flags s)); repeat split; try lia;
    intros R; specialize (a5 R); specialize (b5 (Hr R)); lia.
Qed.

Lemma spinOnce_Ret_balanced p (s s' : PipelineState) :
  FLAGS_use_feature_selection (flags s) = false ->
  spinOnce p s = Ret tt s' ->
  same_config s s' /\
  exists d, trace s' = trace s ++ d /\ balanced s d /\
            count is_tracking d = 1%nat /\
            (count is_dispatch d <= 1)%nat.
Proof.
  intros Hfs HR. unfold spinOnce in HR.
  apply bind_Ret in HR as (u0 & s1 & Hacc & HR).
  destruct (avoids_Ret _ _ _ _ _ (accumulate_imu_silent p s) Hacc)
    as [C1 (d0 & Hd0 & Hn0)].
  apply count_all_zero in Hn0. subst d0. rewrite app_nil_r in Hd0.
  apply bind_Ret in HR as (u1 & s2 & H2 & HR).
  unfold modify in H2. inversion H2; subst u1 s2; clear H2.
  apply bind_Ret in HR as (stamps & s3 & H3 & HR).
  unfold gets in H3. inversion H3; subst stamps s3; clear H3.
  apply bind_Ret in HR as (accgyr & s3 & H3 & HR).
  unfold gets in H3. inversion H3; subst accgyr s3; clear H3.
  apply bind_Ret in HR as (v & s3 & H3 & HR).
  apply view_vio_backend_inv in H3. subst s3.
  apply bind_Ret in HR as (u2 & s4 & H4 & HR).
  unfold emit, modify in H4. inversion H4; subst u2 s4; clear H4.
  apply bind_Ret in HR as (fe & s5 & H5 & HR).
  unfold gets in H5. inversion H5; subst fe s5; clear H5.
  apply bind_Ret in HR as (u3 & s6 & H6 & HR).
  unfold emit, modify in H6. inversion H6; subst u3 s6; clear H6.
  apply bind_Ret in HR as (u4 & s7 & H7 & HR).
  unfold modify in H7. inversion H7; subst u4 s7; clear H7.
  apply bind_Ret in HR as (u5 & s8 & H8 & HR).
  unfold modify in H8. inversion H8; subst u5 s8; clear H8.
  apply bind_Ret in HR as (u6 & s9 & H9 & HR).
  unfold modify in HR. inversion HR; subst s'; clear HR.
  match type of H9 with
  | (if ?c then _ else _) ?st = _ => set (s0 := st) in *; destruct c
  end.
  - (* the previous frame is a keyframe *)
    apply bind_Ret in H9 as (lkf & sa & Ha & H9).
    unfold gets in Ha. inversion Ha; subst lkf sa; clear Ha.
    apply bind_Ret in H9 as (u7 & sb & Hpk & H9). destruct u7.
    assert (C0 : same_config s s0).
    { destruct C1 as (c1 & c2 & c3 & c4 & c5).
      unfold s0. repeat split; simpl; assumption. }
    assert (Hfs0 : FLAGS_use_feature_selection (flags s0) = false).
    { destruct C0 as [-> _]. exact Hfs. }
    destruct (processKeyframe_Ret_counts _ _ _ _ _ _ _ _ Hfs0 Hpk)
      as [Cb (d & Hd & N1 & N2 & N3 & N4 & N5 & N6 & N7)].
    apply bind_Ret in H9 as (u8 & sc & Hc & H9).
    unfold modify in Hc. inversion Hc; subst u8 sc; clear Hc.
    apply bind_Ret in H9 as (u9 & sd & Hd' & H9).
    unfold modify in Hd'. inversion Hd'; subst u9 sd; clear Hd'.
    unfold modify in H9. inversion H9; subst s9; clear H9.
    assert (Cs : same_config s sb) by (eapply same_config_trans; eauto).
    split.
    { destruct Cs as (c1 & c2 & c3 & c4 & c5).
      repeat split; simpl; assumption. }
    eexists. split.
    { simpl. rewrite Hd. unfold s0. simpl. rewrite Hd0.
      rewrite <- !app_assoc. reflexivity. }
    assert (Hfl0 : flags s0 = flags s) by (apply C0).
    rewrite Hfl0 in N5, N6, N7.
    unfold balanced. simpl. rewrite !count_cons. simpl.
    rewrite N1, N2, N3, N4, N5.
    pose proof (visualizer_responsive_config s s0 C0) as Rs.
    repeat split; try lia; try exact N6.
    intros R. apply N7, Rs, R.
  - unfold ret in H9. inversion H9; subst s9; clear H9.
    split.
    { destruct C1 as (c1 & c2 & c3 & c4 & c5).
      unfold s0. repeat split; simpl; assumption. }
    eexists. split.
    { unfold s0. simpl. rewrite Hd0. rewrite <- !app_assoc. reflexivity. }
    unfold balanced, count. simpl.
    destruct (FLAGS_visualize (flags s)); repeat split; auto.
Qed.

End RunCounts.

Section Runs.
Context {T : ExternalTypes} {FE : Type} {F : StereoVisionFrontEnd FE}
        {E : Environment}.

Local Abbreviation PipelineState := (Pipeline FE).

(** ** A dispatch, whatever its outcome *)

Lemma after_backend_avoids_frame_traffic lf tk (s : PipelineState) :
  avoids is_frame_traffic
    (bind (gets (fun s => flags s)) (fun fl =>
     bind (mesh_block (VisualizationType_of_flag (FLAGS_viz_type fl)))
       (fun l =>
        visualize_block (VisualizationType_of_flag (FLAGS_viz_type fl))
          lf tk l))) s.
Proof. unfold mesh_block, visualize_block. avoid. Qed.

Lemma processKeyframe_events k lf tk tlkf st ag (s : PipelineState) ssm :
  FLAGS_use_feature_selection (flags s) = false ->
  statusSmartStereoMeasurements s = Some ssm ->
  exists d1 d2,
    new_events s (processKeyframe k lf tk tlkf st ag s) =
      (EvProcessKeyframe k ssm tk tlkf st ag :: d1) ++
      EvBackendPush (backend_payload tk st ag ssm s)
        :: EvPopBlocking backend_output_queue_ :: d2 /\
    only_logger d1 /\ count is_frame_traffic d2 = 0%nat.
Proof.
  intros Hfs Hc.
  rewrite (processKeyframe_shape _ _ _ _ _ _ _ _ Hc).
  set (s0 := set_trace _ s).
  unfold dispatch_body.
  rewrite (bind_step _ _ _ _ _ (feature_selector_block_off tk tlkf s0 Hfs)).
  destruct (backend_block_events tk st ag s0 ssm Hc)
    as (d1 & d2 & Ht & L1 & L2).
  exists d1.
  destruct (backend_block tk st ag s0) as [u s2 | h s2] eqn:Hb.
  - rewrite (bind_step _ _ _ _ _ Hb).
    destruct (after_backend_avoids_frame_traffic lf tk s2)
      as [_ (dk & Hdk & Nk)].
    exists (d2 ++ dk). split.
    + apply new_events_app. rewrite Hdk. simpl in Ht. rewrite Ht.
      unfold s0. simpl. rewrite <- !app_assoc. reflexivity.
    + split; [ exact L1 | ].
      rewrite count_app, Nk, (count_only_logger _ _ L2); reflexivity.
  - rewrite (bind_halt _ _ _ _ _ Hb).
    exists d2. split.
    + apply new_events_app. simpl in *. rewrite Ht.
      unfold s0. simpl. rewrite <- !app_assoc. reflexivity.
    + split; [ exact L1 | ].
      apply (count_only_logger _ _ L2). reflexivity.
Qed.

(** ** keeps: what a dispatch and a frame leave alone *)

Lemma feature_selector_block_off_keeps {X} (f : PipelineState -> X)
    tk tlkf (s : PipelineState) :
  FLAGS_use_feature_selection (flags s) = false ->
  keeps f (feature_selector_block tk tlkf) s.
Proof.
  intros H. unfold keeps. rewrite (feature_selector_block_off _ _ _ H).
  reflexivity.
Qed.

(** With feature selection off, a dispatch changes nothing but the trace. *)
Lemma processKeyframe_keeps {X} (f : PipelineState -> X)
    k lf tk tlkf st ag (s : PipelineState) :
  (forall tr s0, f (set_trace tr s0) = f s0) ->
  FLAGS_use_feature_selection (flags s) = false ->
  keeps f (processKeyframe k lf tk tlkf st ag) s.
Proof.
  intros Hf Hfs. unfold processKeyframe.
  apply keeps_bind; [ keep | intros ssm0 s1 H1 ].
  assert (s1 = s).
  { revert H1. unfold deref_statusSmartStereoMeasurements, bind, gets.
    destruct (statusSmartStereoMeasurements s); intros H; inversion H; auto. }
  subst s1.
  apply keeps_bind; [ unfold keeps; simpl; apply Hf | intros u s2 H2 ].
  unfold emit, modify in H2. inversion H2; subst u s2; clear H2.
  apply keeps_bind.
  { apply feature_selector_block_off_keeps. exact Hfs. }
  intros ? ? _.
  apply keeps_bind.
  { unfold backend_block.
    repeat first [ apply keeps_imshow_all; exact Hf
                 | (unfold keeps; simpl; apply Hf)
                 | keep_step ]. }
  intros ? ? _.
  apply keeps_bind; [ keep | intros ? ? _ ].
  apply keeps_bind.
  { unfold mesh_block.
    repeat first [ (unfold keeps; simpl; apply Hf) | keep_step ]. }
  intros ? ? _. unfold visualize_block.
  repeat first [ apply keeps_imshow_all; exact Hf
               | (unfold keeps; simpl; apply Hf)
               | keep_step ].
Qed.

End Runs.

Section Bootstrap.
Context {T : ExternalTypes} {FE : Type} {F : StereoVisionFrontEnd FE}
        {E : Environment}.

Local Abbreviation PipelineState := (Pipeline FE).

Lemma spin_first p (s : PipelineState) :
  is_initialized s = false -> spin p s = bootstrap p s.
Proof.
  intros H. unfold spin, bootstrap. unfold bind at 1, gets at 1.
  rewrite H. reflexivity.
Qed.

Lemma spin_later p (s : PipelineState) :
  is_initialized s = true ->
  spin p s = bind (spinOnce p) (fun _ => ret true) s.
Proof.
  intros H. unfold spin. unfold bind at 1, gets at 1.
  rewrite H. reflexivity.
Qed.

Lemma bootstrap_avoids p (s : PipelineState) :
  avoids is_per_frame (bootstrap p) s.
Proof. unfold bootstrap, initialize, initBackend, launchThreads. avoid. Qed.

Lemma bootstrap_keeps_buffers p (s : PipelineState) :
  keeps (fun s => (imu_stamps_lkf_to_curr_f s, imu_accgyr_lkf_to_curr_f s))
        (bootstrap p) s.
Proof. unfold bootstrap, initialize, initBackend, launchThreads. keep. Qed.

Lemma bootstrap_Ret p (s : PipelineState) variant :
  backend_variant_of s = Some variant ->
  (FLAGS_log_output (flags s) = true ->
   isGroundTruthAvailable (dataset_ s) = true) ->
  (forall w, joinable (thread s w) = false) ->
  exists s',
    bootstrap p s = Ret true s' /\
    trace s' = trace s ++ bootstrap_events p s variant /\
    is_initialized s' = true /\
    vio_backend_ s' <> None /\
    (forall w, thread s' w = Running) /\
    stereo_vision_frontend_ s' =
      processFirstStereoFrame (getStereoFrame p) (stereo_vision_frontend_ s).
Proof.
  intros Hv Hlog Hth.
  pose proof (Hth backend_thread_) as Hb.
  pose proof (Hth mesher_thread_) as Hm.
  pose proof (Hth visualizer_thread_) as Hvz.
  unfold bootstrap, initialize, initBackend, launchThreads, bootstrap_events.
  cbv beta delta [bind ret gets modify emit halt when CHECK
                  deref_vio_backend start_thread].
  unfold backend_variant_of in Hv.
  destruct (getBackendType (dataset_ s)) as [| [q | q |] | q] eqn:Hbt;
    try discriminate; inversion Hv; subst variant; clear Hv;
    simpl; rewrite ?Hbt; simpl;
    (destruct (FLAGS_log_output (flags s)) eqn:Hl;
     [ rewrite (Hlog eq_refl) | ]); simpl;
    rewrite ?Hb; simpl; rewrite ?Hm; simpl; rewrite ?Hvz; simpl;
    (eexists; split; [ reflexivity | ]); simpl;
    rewrite <- ?app_assoc; simpl;
    (repeat split; try discriminate;
     try (intros w; destruct w; reflexivity)).
Qed.

(** ** Later calls *)

Lemma spinOnce_keeps_is_initialized p (s : PipelineState) :
  keeps (fun s => is_initialized s) (spinOnce p) s.
Proof.
  unfold spinOnce, accumulate_imu, processKeyframe, feature_selector_block,
    backend_block, mesh_block, visualize_block.
  keep.
Qed.

Lemma spin_all_later packets : forall (s : PipelineState),
  is_initialized s = true ->
  spin_all packets s = spinOnce_all packets s.
Proof.
  induction packets as [| p rest IH]; intros s Hi; [ reflexivity | ].
  cbn [spin_all spinOnce_all].
  unfold bind at 1. rewrite (spin_later p s Hi).
  pose proof (spinOnce_keeps_is_initialized p s) as Hk. unfold keeps in Hk.
  unfold bind at 1 2.
  destruct (spinOnce p s) as [u s1 | h s1]; cbn [final] in Hk.
  - unfold ret. apply IH. rewrite Hk. exact Hi.
  - reflexivity.
Qed.

End Bootstrap.

Section WholeRun.
Context {T : ExternalTypes} {FE : Type} {F : StereoVisionFrontEnd FE}
        {E : Environment}.

Local Abbreviation PipelineState := (Pipeline FE).

Lemma balanced_of_quiet (s : PipelineState) d :
  count is_per_frame d = 0%nat -> balanced s d.
Proof.
  intros H.
  assert (Z : forall c, (forall e, c e = true -> is_per_frame e = true) ->
                        count c d = 0%nat).
  { intros c Hc. eapply count_le; [ exact Hc | exact H ]. }
  unfold balanced.
  rewrite (Z is_backend_push), (Z is_backend_pop), (Z is_dispatch),
    (Z is_visualizer_push), (Z is_render).
  2-6: (intros e He; unfold is_per_frame, is_frame_traffic, is_display_traffic;
        rewrite He, ?orb_true_r; reflexivity).
  destruct (FLAGS_visualize (flags s)); repeat split; auto.
Qed.

Lemma spin_Ret_balanced p (s s' : PipelineState) r :
  FLAGS_use_feature_selection (flags s) = false ->
  spin p s = Ret r s' ->
  same_config s s' /\ exists d, trace s' = trace s ++ d /\ balanced s d.
Proof.
  intros Hfs HR. destruct (is_initialized s) eqn:Hi.
  - rewrite (spin_later p s Hi) in HR.
    apply bind_Ret in HR as (u & s1 & H1 & HR). destruct u.
    unfold ret in HR. inversion HR; subst r s1; clear HR.
    destruct (spinOnce_Ret_balanced p s s' Hfs H1) as [C (d & Hd & B & _)].
    split; [ exact C | ]. exists d. auto.
  - rewrite (spin_first p s Hi) in HR.
    destruct (avoids_Ret _ _ _ _ _ (bootstrap_avoids p s) HR)
      as [C (d & Hd & N)].
    split; [ exact C | ]. exists d. split; [ exact Hd | ].
    apply balanced_of_quiet, N.
Qed.

Lemma spin_all_Ret_balanced packets : forall (s s' : PipelineState),
  FLAGS_use_feature_selection (flags s) = false ->
  spin_all packets s = Ret tt s' ->
  same_config s s' /\ exists d, trace s' = trace s ++ d /\ balanced s d.
Proof.
  induction packets as [| p rest IH]; intros s s' Hfs HR.
  - inversion HR; subst. split; [ apply same_config_refl | ].
    exists []. rewrite app_nil_r. split; [ reflexivity | apply balanced_nil ].
  - cbn [spin_all] in HR.
    apply bind_Ret in HR as (r & s1 & H1 & HR).
    destruct (spin_Ret_balanced p s s1 r Hfs H1) as [C1 (d1 & Hd1 & B1)].
    assert (Hfs1 : FLAGS_use_feature_selection (flags s1) = false).
    { destruct C1 as [-> _]. exact Hfs. }
    destruct (IH s1 s' Hfs1 HR) as [C2 (d2 & Hd2 & B2)].
    split; [ eapply same_config_trans; eauto | ].
    exists (d1 ++ d2). split.
    + rewrite Hd2, Hd1, app_assoc. reflexivity.
    + eapply balanced_app; eauto.
Qed.

(** ** The landmark-map query *)

Lemma mesh_block_avoids_query vt (s : PipelineState) :
  queries_landmark_map vt = false ->
  avoids is_landmark_map_query (mesh_block vt) s.
Proof.
  intros H. unfold mesh_block. destruct vt; try discriminate; avoid.
Qed.

Lemma configured_mode_config (s s' : PipelineState) :
  same_config s s' -> configured_mode s' = configured_mode s.
Proof. intros (Hfl & _). unfold configured_mode. rewrite Hfl. reflexivity. Qed.

Lemma avoids_gets_bind {A B} c (f : PipelineState -> A) (k : A -> M FE B) s :
  avoids c (k (f s)) s -> avoids c (bind (gets f) k) s.
Proof. intros H. exact H. Qed.

Lemma processKeyframe_avoids_query k lf tk tlkf st ag (s : PipelineState) :
  queries_landmark_map (configured_mode s) = false ->
  avoids is_landmark_map_query (processKeyframe k lf tk tlkf st ag) s.
Proof.
  intros Hm. unfold processKeyframe.
  apply avoids_bind; [ avoid | intros ssm0 s1 _ C1 ].
  apply avoids_bind; [ avoid | intros u1 s2 _ C2 ].
  apply avoids_bind; [ unfold feature_selector_block; avoid
                     | intros u2 s3 _ C3 ].
  apply avoids_bind; [ unfold backend_block; avoid | intros u3 s4 _ C4 ].
  assert (C : same_config s s4).
  { repeat (eapply same_config_trans; [ eassumption | ]).
    apply same_config_refl. }
  apply avoids_gets_bind.
  change (VisualizationType_of_flag (FLAGS_viz_type (flags s4)))
    with (configured_mode s4).
  rewrite (configured_mode_config s s4 C).
  apply avoids_bind; [ apply mesh_block_avoids_query, Hm | intros ? ? _ _ ].
  unfold visualize_block. avoid.
Qed.

Lemma spinOnce_avoids_query p (s : PipelineState) :
  queries_landmark_map (configured_mode s) = false ->
  avoids is_landmark_map_query (spinOnce p) s.
Proof.
  intros Hm. unfold spinOnce.
  apply avoids_bind; [ unfold accumulate_imu; avoid | intros u0 s1 _ C1 ].
  apply avoids_bind; [ avoid | intros u1 s2 _ C2 ].
  apply avoids_bind; [ avoid | intros stamps s3 _ C3 ].
  apply avoids_bind; [ avoid | intros accgyr s4 _ C4 ].
  apply avoids_bind; [ avoid | intros v s5 _ C5 ].
  apply avoids_bind; [ avoid | intros u2 s6 _ C6 ].
  apply avoids_bind; [ avoid | intros fe s7 _ C7 ].
  apply avoids_bind; [ avoid | intros u3 s8 _ C8 ].
  apply avoids_bind; [ avoid | intros u4 s9 _ C9 ].
  apply avoids_bind; [ avoid | intros u5 s10 _ C10 ].
  assert (C : same_config s s10).
  { repeat (eapply same_config_trans; [ eassumption | ]).
    apply same_config_refl. }
  apply avoids_bind; [ | intros; avoid ].
  match goal with |- avoids _ (if ?c then _ else _) _ => destruct c end;
    [ | avoid ].
  apply avoids_bind; [ avoid | intros lkf s11 _ C11 ].
  apply avoids_bind; [ | intros; avoid ].
  apply processKeyframe_avoids_query.
  rewrite (configured_mode_config s s11); [ exact Hm | ].
  eapply same_config_trans; eauto.
Qed.

Lemma spin_all_avoids_query packets : forall (s : PipelineState),
  queries_landmark_map (configured_mode s) = false ->
  avoids is_landmark_map_query (spin_all packets) s.
Proof.
  induction packets as [| p rest IH]; intros s Hm; cbn [spin_all].
  - apply avoids_ret.
  - apply avoids_bind.
    + unfold spin. apply avoids_bind; [ avoid | intros ini s1 H1 C1 ].
      unfold gets in H1. inversion H1; subst ini s1; clear H1.
      destruct (negb (is_initialized s)).
      * eapply (avoids_bind _ _ _ s); [ | intros; avoid ].
        unfold initialize, initBackend, launchThreads. avoid.
      * apply avoids_bind; [ apply spinOnce_avoids_query, Hm | intros; avoid ].
    + intros r s1 _ C1. apply IH.
      rewrite (configured_mode_config s s1 C1). exact Hm.
Qed.

(** ** The fatal branch of feature selection *)

Lemma processKeyframe_feature_selection_fatal k lf tk tlkf st ag
    (s : PipelineState) ssm b :
  FLAGS_use_feature_selection (flags s) = true ->
  statusSmartStereoMeasurements s = Some ssm ->
  vio_backend_ s = Some b ->
  exists s',
    processKeyframe k lf tk tlkf st ag s =
      Halt (LogFatal Do_not_use_feature_selection_in_parallel_mode) s' /\
    (exists selected,
       statusSmartStereoMeasurements s' = Some (fst ssm, selected)) /\
    count is_backend_push (new_events s (processKeyframe k lf tk tlkf st ag s))
      = 0%nat.
Proof.
  intros Hfs Hc Hb.
  rewrite (processKeyframe_shape _ _ _ _ _ _ _ _ Hc).
  unfold dispatch_body, feature_selector_block.
  cbv beta delta [bind ret gets modify emit halt view_vio_backend
                  deref_vio_backend deref_statusSmartStereoMeasurements].
  simpl. rewrite Hfs. simpl. rewrite Hb. simpl. rewrite Hc. simpl.
  eexists. split; [ reflexivity | ]. split.
  - simpl. eexists. reflexivity.
  - erewrite new_events_app; [ | simpl; rewrite <- app_assoc; reflexivity ].
    reflexivity.
Qed.

Lemma processKeyframe_always_halts_with_feature_selection
    k lf tk tlkf st ag (s : PipelineState) :
  FLAGS_use_feature_selection (flags s) = true ->
  exists h s', processKeyframe k lf tk tlkf st ag s = Halt h s'.
Proof.
  intros Hfs. unfold processKeyframe, feature_selector_block.
  cbv beta delta [bind ret gets modify emit halt view_vio_backend
                  deref_vio_backend deref_statusSmartStereoMeasurements].
  crunch_with ltac:(rewrite ?Hfs); eauto.
Qed.

Lemma processKeyframe_never_feature_selection_fatal
    k lf tk tlkf st ag (s : PipelineState) :
  FLAGS_use_feature_selection (flags s) = false ->
  halts_within (fun h => negb (is_feature_selection_fatal h))
    (processKeyframe k lf tk tlkf st ag) s /\
  avoids is_feature_select (processKeyframe k lf tk tlkf st ag) s.
Proof.
  intros Hfs. split.
  - unfold processKeyframe.
    apply halts_within_bind; [ halts | intros ssm0 s1 H1 ].
    assert (s1 = s).
    { revert H1. unfold deref_statusSmartStereoMeasurements, bind, gets.
      destruct (statusSmartStereoMeasurements s); intros H; inversion H; auto. }
    subst s1.
    apply halts_within_bind; [ halts | intros u s2 H2 ].
    unfold emit, modify in H2. inversion H2; subst u s2; clear H2.
    apply halts_within_bind.
    { unfold halts_within. rewrite feature_selector_block_off; auto. }
    intros ? ? _.
    unfold backend_block, mesh_block, visualize_block. halts.
  - unfold processKeyframe.
    apply avoids_bind; [ avoid | intros ssm0 s1 H1 _ ].
    assert (s1 = s).
    { revert H1. unfold deref_statusSmartStereoMeasurements, bind, gets.
      destruct (statusSmartStereoMeasurements s); intros H; inversion H; auto. }
    subst s1.
    apply avoids_bind; [ avoid | intros u s2 H2 _ ].
    unfold emit, modify in H2. inversion H2; subst u s2; clear H2.
    apply avoids_bind.
    { unfold avoids. rewrite feature_selector_block_off by exact Hfs.
      split; [ apply same_config_refl | ].
      exists []. simpl. rewrite app_nil_r. auto. }
    intros ? ? _ _.
    unfold backend_block, mesh_block, visualize_block. avoid.
Qed.

End WholeRun.

Section Failures.
Context {T : ExternalTypes} {FE : Type} {F : StereoVisionFrontEnd FE}
        {E : Environment}.

Local Abbreviation PipelineState := (Pipeline FE).

(** ** shutdown *)

Lemma join_running (w : Worker) (s : PipelineState) :
  thread s w = Running ->
  queue_shutdown s (worker_input_queue w) = true ->
  join w s =
  Ret tt (set_thread
            (fun w' => if Worker_eqb w w' then Joined else thread s w')
            (append_events [EvJoin w] s)).
Proof.
  intros Ht Hq. unfold join.
  cbv beta delta [bind ret gets modify emit halt].
  cbn. rewrite Ht. cbn. rewrite Hq. reflexivity.
Qed.

Lemma join_blocked (w : Worker) (s : PipelineState) :
  thread s w = Running ->
  queue_shutdown s (worker_input_queue w) = false ->
  join w s = Halt (JoinBlocked w) (append_events [EvJoin w] s).
Proof.
  intros Ht Hq. unfold join.
  cbv beta delta [bind ret gets modify emit halt].
  cbn. rewrite Ht. cbn. rewrite Hq. reflexivity.
Qed.

Lemma join_not_joinable (w : Worker) (s : PipelineState) :
  joinable (thread s w) = false ->
  join w s = Halt (StdSystemError w) (append_events [EvJoin w] s).
Proof.
  intros Ht. unfold join.
  cbv beta delta [bind ret gets modify emit halt].
  cbn. rewrite Ht. reflexivity.
Qed.

Lemma stopThreads_Ret (s : PipelineState) b :
  vio_backend_ s = Some b ->
  exists s',
    stopThreads s = Ret tt s' /\
    trace s' = trace s ++ stop_events /\
    (forall q, queue_shutdown s' q = true) /\
    thread s' = thread s /\
    vio_backend_ s' = vio_backend_ s /\
    shutdown_ s' = shutdown_ s /\
    flags s' = flags s.
Proof.
  intros Hb. unfold stopThreads, stop_events.
  cbv beta delta [bind ret gets modify emit halt
                  deref_vio_backend shutdown_queue].
  cbn. rewrite Hb. cbn.
  eexists. split; [ reflexivity | ]. cbn.
  rewrite <- ?app_assoc. cbn.
  repeat split; try reflexivity; auto;
    intros q; destruct q; reflexivity.
Qed.

Lemma joinThreads_Ret (s : PipelineState) :
  (forall w, thread s w = Running) ->
  (forall w, queue_shutdown s (worker_input_queue w) = true) ->
  exists s',
    joinThreads s = Ret tt s' /\
    trace s' = trace s ++ join_events /\
    (forall w, thread s' w = Joined) /\
    queue_shutdown s' = queue_shutdown s /\
    vio_backend_ s' = vio_backend_ s /\
    shutdown_ s' = shutdown_ s /\
    flags s' = flags s.
Proof.
  intros Hth Hq. unfold joinThreads, join_events.
  pose proof (Hq backend_thread_) as Qb.
  pose proof (Hq mesher_thread_) as Qm.
  pose proof (Hq visualizer_thread_) as Qv.
  unfold bind at 1. rewrite join_running by auto.
  unfold bind at 1. rewrite join_running by (cbn; auto).
  rewrite join_running by (cbn; auto).
  eexists. split; [ reflexivity | ]. cbn.
  rewrite <- ?app_assoc. cbn.
  repeat split; try reflexivity; auto;
    intros w; destruct w; reflexivity.
Qed.

Lemma shutdown_running (s : PipelineState) b :
  vio_backend_ s = Some b ->
  (forall w, thread s w = Running) ->
  exists s',
    shutdown s = Ret tt s' /\
    trace s' = trace s ++ stop_events ++ join_events ++
               (if FLAGS_log_output (flags s)
                then [EvLogger closeLogFiles] else []) /\
    shutdown_ s' = true /\
    (forall q, queue_shutdown s' q = true) /\
    (forall w, thread s' w = Joined) /\
    vio_backend_ s' = Some b.
Proof.
  intros Hb Hth.
  destruct (@stopThreads_Ret (set_shutdown true s) b Hb)
    as (s1 & R1 & T1 & Q1 & Th1 & B1 & S1 & F1).
  destruct (@joinThreads_Ret s1) as (s2 & R2 & T2 & Th2 & Q2 & B2 & S2 & F2).
  { intros w. rewrite Th1. apply Hth. }
  { intros w. apply Q1. }
  unfold shutdown.
  unfold bind at 1. unfold modify at 1.
  unfold bind at 1. rewrite R1.
  unfold bind at 1. rewrite R2.
  unfold bind, gets, when, emit, modify, ret.
  rewrite F2, F1. cbn.
  destruct (FLAGS_log_output (flags s)); cbn;
    (eexists; split; [ reflexivity | ]); cbn;
    rewrite ?T2, ?T1, ?Q2, ?B2, ?B1, ?S2, ?S1; cbn;
    rewrite <- ?app_assoc, ?app_nil_r;
    repeat split; auto.
Qed.

Lemma shutdown_not_joinable (s : PipelineState) b :
  vio_backend_ s = Some b ->
  joinable (thread s backend_thread_) = false ->
  exists s',
    shutdown s = Halt (StdSystemError backend_thread_) s' /\
    trace s' = trace s ++ stop_events ++ [EvJoin backend_thread_].
Proof.
  intros Hb Hj.
  destruct (@stopThreads_Ret (set_shutdown true s) b Hb)
    as (s1 & R1 & T1 & Q1 & Th1 & B1 & S1 & F1).
  unfold shutdown.
  unfold bind at 1. unfold modify at 1.
  unfold bind at 1. rewrite R1.
  unfold bind at 1. unfold joinThreads. unfold bind at 1.
  rewrite join_not_joinable by (rewrite Th1; exact Hj).
  eexists. split; [ reflexivity | ]. cbn.
  rewrite T1. cbn. rewrite <- ?app_assoc. reflexivity.
Qed.
(** ** Workers that answer, and workers that do not *)

Lemma backend_block_Ret tk st ag (s : PipelineState) ssm b :
  statusSmartStereoMeasurements s = Some ssm ->
  vio_backend_ s = Some b ->
  (forall tr, backend_output_pop tr <> PopNever) ->
  exists d,
    backend_block tk st ag s = Ret tt (append_events d s) /\
    count is_display_traffic d = 0%nat /\ count is_warning d = 0%nat.
Proof.
  intros Hc Hb Ho.
  unfold backend_block.
  cbv beta delta [bind ret gets modify emit halt when push popBlocking
                  deref_vio_backend deref_statusSmartStereoMeasurements].
  crunch_with ltac:(rewrite ?Hc; rewrite ?Hb);
    try match goal with
        | H : backend_output_pop ?tr = PopNever |- _ =>
            exfalso; exact (Ho tr H)
        end;
    try discriminate;
    (eexists; split;
     [ unfold append_events; simpl; rewrite <- ?app_assoc; simpl; reflexivity
     | split; reflexivity ]).
Qed.

Lemma processKeyframe_to_mesh k lf tk tlkf st ag (s : PipelineState) ssm b :
  FLAGS_use_feature_selection (flags s) = false ->
  statusSmartStereoMeasurements s = Some ssm ->
  vio_backend_ s = Some b ->
  (forall tr, backend_output_pop tr <> PopNever) ->
  exists d,
    processKeyframe k lf tk tlkf st ag s =
      bind (mesh_block (configured_mode s))
           (fun l => visualize_block (configured_mode s) lf tk l)
           (append_events (EvProcessKeyframe k ssm tk tlkf st ag :: d) s) /\
    count is_display_traffic d = 0%nat /\ count is_warning d = 0%nat.
Proof.
  intros Hfs Hc Hb Ho.
  rewrite (processKeyframe_shape _ _ _ _ _ _ _ _ Hc).
  set (s0 := set_trace _ s).
  unfold dispatch_body.
  rewrite (bind_step _ _ _ _ _ (feature_selector_block_off tk tlkf s0 Hfs)).
  destruct (backend_block_Ret tk st ag s0 ssm b Hc Hb Ho) as (d & Hd & N1 & N2).
  exists d. rewrite (bind_step _ _ _ _ _ Hd).
  split; [ | auto ].
  unfold bind at 1, gets at 1.
  unfold s0, append_events, configured_mode. simpl.
  rewrite <- app_assoc. reflexivity.
Qed.

Lemma mesh_block_mesher_failed (s : PipelineState) b :
  vio_backend_ s = Some b ->
  queue_shutdown s mesher_input_queue_ = false ->
  mesher_unavailable s ->
  exists l d,
    mesh_block MESH2DTo3Dsparse s =
      Ret l (append_events
               (d ++ [EvWarning Mesher_output_queue_did_not_pop_a_payload]) s) /\
    mesher_output_payload l = default_MesherOutputPayload /\
    count is_display_traffic d = 0%nat.
Proof.
  intros Hb Hq Hm. unfold mesh_block.
  cbv beta delta [bind ret gets modify emit halt when CHECK push popBlocking
                  view_vio_backend deref_vio_backend].
  crunch_with ltac:(rewrite ?Hb; rewrite ?Hq);
    try match goal with
        | H : mesher_output_pop ?tr = _ |- _ =>
            destruct Hm as [Hm | Hm];
            [ congruence | rewrite (Hm tr) in H; try discriminate ]
        end;
    try discriminate;
    try (exfalso; simpl in *;
         match goal with
         | H : negb (queue_shutdown s mesher_input_queue_) = false |- _ =>
             rewrite Hq in H; discriminate
         end);
    unfold append_events; rewrite <- ?app_assoc; simpl;
    match goal with
    | |- context [Ret _ (set_trace (_ ++ ?x :: ?y :: ?z :: _) _)] =>
        eexists; exists [x; y; z]
    end;
    (split; [ reflexivity | split; reflexivity ]).
Qed.

(** ** Workers that answer, on channels that may have been shut down *)

Lemma backend_block_returns tk st ag (s : PipelineState) ssm b :
  statusSmartStereoMeasurements s = Some ssm ->
  vio_backend_ s = Some b ->
  (queue_shutdown s backend_output_queue_ = true \/
   forall tr, backend_output_pop tr <> PopNever) ->
  exists d,
    backend_block tk st ag s = Ret tt (append_events d s) /\
    count is_display_traffic d = 0%nat.
Proof.
  intros Hc Hb Ho.
  unfold backend_block.
  cbv beta delta [bind ret gets modify emit halt when push popBlocking
                  deref_vio_backend deref_statusSmartStereoMeasurements].
  crunch_with ltac:(rewrite ?Hc; rewrite ?Hb);
    try match goal with
        | H : backend_output_pop ?tr = PopNever |- _ =>
            exfalso; destruct Ho as [Ho | Ho];
            [ simpl in *; congruence | exact (Ho tr H) ]
        end;
    try discriminate;
    (eexists; split;
     [ unfold append_events; simpl; rewrite <- ?app_assoc; simpl; reflexivity
     | reflexivity ]).
Qed.

Lemma processKeyframe_reaches_mesh
    k lf tk tlkf st ag (s : PipelineState) ssm b :
  FLAGS_use_feature_selection (flags s) = false ->
  statusSmartStereoMeasurements s = Some ssm ->
  vio_backend_ s = Some b ->
  (queue_shutdown s backend_output_queue_ = true \/
   forall tr, backend_output_pop tr <> PopNever) ->
  exists d,
    processKeyframe k lf tk tlkf st ag s =
      bind (mesh_block (configured_mode s))
           (fun l => visualize_block (configured_mode s) lf tk l)
           (append_events (EvProcessKeyframe k ssm tk tlkf st ag :: d) s) /\
    count is_display_traffic d = 0%nat.
Proof.
  intros Hfs Hc Hb Ho.
  rewrite (processKeyframe_shape _ _ _ _ _ _ _ _ Hc).
  set (s0 := set_trace _ s).
  unfold dispatch_body.
  rewrite (bind_step _ _ _ _ _ (feature_selector_block_off tk tlkf s0 Hfs)).
  destruct (backend_block_returns tk st ag s0 ssm b Hc Hb Ho) as (d & Hd & N1).
  exists d. rewrite (bind_step _ _ _ _ _ Hd).
  split; [ | auto ].
  unfold bind at 1, gets at 1.
  unfold s0, append_events, configured_mode. simpl.
  rewrite <- app_assoc. reflexivity.
Qed.

(** When the mesher does not leave its caller waiting, the switch returns
    and neither pushes to the visualizer nor renders. *)
Lemma mesh_block_returns vt (s : PipelineState) b :
  vio_backend_ s = Some b ->
  (vt = MESH2DTo3Dsparse ->
   queue_shutdown s mesher_input_queue_ = false /\
   (queue_shutdown s mesher_output_queue_ = true \/
    forall tr, mesher_output_pop tr <> PopNever)) ->
  exists l d,
    mesh_block vt s = Ret l (append_events d s) /\
    count is_display_traffic d = 0%nat.
Proof.
  intros Hb Hm.
  assert (Hq : vt = MESH2DTo3Dsparse ->
               queue_shutdown s mesher_input_queue_ = false)
    by (intros Hvt; apply (Hm Hvt)).
  unfold mesh_block.
  cbv beta delta [bind ret gets modify emit halt when CHECK push popBlocking
                  view_vio_backend deref_vio_backend].
  destruct vt;
    try specialize (Hq eq_refl); try destruct (Hm eq_refl) as [_ Hmo];
    crunch_with ltac:(rewrite ?Hb; rewrite ?Hq);
    try match goal with
        | H : mesher_output_pop ?tr = PopNever |- _ =>
            exfalso; destruct Hmo as [Hmo | Hmo];
            [ simpl in *; congruence | exact (Hmo tr H) ]
        end;
    try discriminate;
    try (exfalso; simpl in *;
         match goal with
         | H : negb (queue_shutdown s mesher_input_queue_) = false |- _ =>
             rewrite Hq in H; discriminate
         end);
    unfold append_events; rewrite <- ?app_assoc; simpl;
    first
      [ match goal with
        | |- context [Ret _ (set_trace (trace s ++ ?d0) _)] =>
            eexists; exists d0
        end;
        (split; [ reflexivity | reflexivity ])
      | eexists; exists []; rewrite app_nil_r;
        (split; [ destruct s; reflexivity | reflexivity ]) ].
Qed.
End Failures.

Section MeshModes.
Context {T : ExternalTypes} {FE : Type} {F : StereoVisionFrontEnd FE}
        {E : Environment}.

Local Abbreviation PipelineState := (Pipeline FE).

Lemma mesh_computations_app d1 d2 :
  mesh_computations (d1 ++ d2) = mesh_computations d1 ++ mesh_computations d2.
Proof. unfold mesh_computations. apply flat_map_app. Qed.

Lemma mesh_computations_quiet d :
  count is_mesh_computation d = 0%nat -> mesh_computations d = [].
Proof.
  induction d as [| e d IH]; [ reflexivity | ].
  rewrite count_cons. unfold is_mesh_computation at 1. simpl.
  destruct (mesh_computation e); [ discriminate | ].
  intros H. simpl. apply IH, H.
Qed.

Lemma mesh_block_computations vt (s s' : PipelineState) l :
  mesh_block vt s = Ret l s' ->
  exists d, trace s' = trace s ++ d /\
    mesh_computations d =
      computations_of_mode vt (flags s)
        (stereoFrame_lkf_ (stereo_vision_frontend_ s)).
Proof.
  unfold mesh_block.
  cbv beta delta [bind ret gets modify emit halt when CHECK push popBlocking
                  view_vio_backend deref_vio_backend].
  destruct vt; crunch; intros H; try discriminate;
    inversion H; subst; clear H;
    first
      [ exists []; split; [ rewrite app_nil_r; reflexivity | reflexivity ]
      | eexists; split;
        [ simpl; rewrite <- ?app_assoc; reflexivity | reflexivity ] ].
Qed.

Lemma backend_block_keeps_frontend tk st ag (s : PipelineState) :
  keeps (fun s => stereo_vision_frontend_ s) (backend_block tk st ag) s.
Proof. unfold backend_block. keep. Qed.

Lemma visualize_block_avoids_mesh vt lf tk l (s : PipelineState) :
  avoids is_mesh_computation (visualize_block vt lf tk l) s.
Proof. unfold visualize_block. avoid. Qed.

Lemma processKeyframe_computations k lf tk tlkf st ag (s s' : PipelineState) :
  FLAGS_use_feature_selection (flags s) = false ->
  processKeyframe k lf tk tlkf st ag s = Ret tt s' ->
  mesh_computations (new_events s (processKeyframe k lf tk tlkf st ag s)) =
  computations_of_mode (configured_mode s) (flags s)
    (stereoFrame_lkf_ (stereo_vision_frontend_ s)).
Proof.
  intros Hfs HR. rewrite HR.
  destruct (statusSmartStereoMeasurements s) as [ssm |] eqn:Hc.
  2:{ rewrite (processKeyframe_null _ _ _ _ _ _ _ Hc) in HR. discriminate. }
  rewrite (processKeyframe_shape _ _ _ _ _ _ _ _ Hc) in HR.
  set (s0 := set_trace _ s) in *.
  unfold dispatch_body in HR.
  rewrite (bind_step _ _ _ _ _ (feature_selector_block_off tk tlkf s0 Hfs)) in HR.
  apply bind_Ret in HR as (u & s2 & Hb & HR).
  apply bind_Ret in HR as (fl & s2' & Hg & HR).
  unfold gets in Hg. inversion Hg; subst fl s2'. clear Hg.
  apply bind_Ret in HR as (l & s3 & Hm & HR).
  destruct (avoids_Ret is_mesh_computation _ _ _ _
              (backend_block_avoids is_mesh_computation tk st ag s0
                 (fun _ => eq_refl) eq_refl (fun _ => eq_refl)) Hb)
    as [C02 (db & Hdb & Ndb)].
  pose proof (backend_block_keeps_frontend tk st ag s0) as Kf.
  unfold keeps in Kf. rewrite Hb in Kf. simpl in Kf.
  destruct (mesh_block_computations _ _ _ _ Hm) as (dm & Hdm & Cm).
  destruct (avoids_Ret _ _ _ _ _
              (visualize_block_avoids_mesh _ lf tk l s3) HR)
    as [_ (dv & Hdv & Ndv)].
  assert (Hfl : flags s2 = flags s) by (destruct C02 as [-> _]; reflexivity).
  rewrite Hfl, Kf in Cm.
  erewrite new_events_app.
  2:{ simpl. rewrite Hdv, Hdm, Hdb. unfold s0. simpl.
      rewrite <- !app_assoc. reflexivity. }
  simpl. rewrite !mesh_computations_app, Cm.
  rewrite (mesh_computations_quiet _ Ndb), (mesh_computations_quiet _ Ndv).
  rewrite app_nil_r. reflexivity.
Qed.

End MeshModes.

Section Windows.
Context {T : ExternalTypes} {FE : Type} {F : StereoVisionFrontEnd FE}
        {E : Environment}.

Local Abbreviation PipelineState := (Pipeline FE).

Lemma packet_wellformed_nonempty p :
  packet_wellformed p -> packet_nonempty p.
Proof.
  intros (H1 & H2 & _). split; [ exact H1 | ].
  destruct (getImuAccGyr p); [ | discriminate ].
  destruct (getImuStamps p); [ contradiction | discriminate ].
Qed.

Lemma window_accgyr_rule p (s : PipelineState) :
  buffers_coherent s ->
  window_accgyr p s = imu_append (imu_accgyr_lkf_to_curr_f s) (getImuAccGyr p).
Proof.
  intros Hc. unfold window_accgyr, accumulated. simpl.
  destruct (imu_stamps_lkf_to_curr_f s) eqn:Es.
  - destruct Hc as [Hc _]. rewrite (Hc Es). reflexivity.
  - destruct (imu_accgyr_lkf_to_curr_f s) eqn:Ea; [ | reflexivity ].
    destruct Hc as [_ Hc]. specialize (Hc Ea). congruence.
Qed.

Lemma window_stamps_rule p (s : PipelineState) :
  window_stamps p s = imu_append (imu_stamps_lkf_to_curr_f s) (getImuStamps p).
Proof. reflexivity. Qed.

Lemma spinOnce_extends p (s : PipelineState) :
  avoids (fun _ => false) (spinOnce p) s.
Proof.
  unfold spinOnce, accumulate_imu, processKeyframe, feature_selector_block,
    backend_block, mesh_block, visualize_block.
  avoid.
Qed.

Lemma spinOnce_all_extends packets : forall (s : PipelineState),
  avoids (fun _ => false) (spinOnce_all packets) s.
Proof.
  induction packets as [| p rest IH]; intros s; cbn [spinOnce_all].
  - apply avoids_ret.
  - apply avoids_bind; [ apply spinOnce_extends | intros; apply IH ].
Qed.

(** Frames that return without a dispatch fold the accumulation rule over
    their windows. *)
Lemma spinOnce_all_quiet packets : forall (s s1 : PipelineState) b,
  vio_backend_ s = Some b -> buffers_coherent s ->
  Forall packet_nonempty packets ->
  spinOnce_all packets s = Ret tt s1 ->
  count is_dispatch (new_events s (spinOnce_all packets s)) = 0%nat ->
  imu_stamps_lkf_to_curr_f s1 =
    fold_left imu_append (map getImuStamps packets)
      (imu_stamps_lkf_to_curr_f s) /\
  imu_accgyr_lkf_to_curr_f s1 =
    fold_left imu_append (map getImuAccGyr packets)
      (imu_accgyr_lkf_to_curr_f s) /\
  vio_backend_ s1 = Some b /\ buffers_coherent s1.
Proof.
  induction packets as [| p rest IH]; intros s s1 b Hb Hc Hp HR Hn.
  - inversion HR; subst. simpl. auto.
  - inversion Hp as [| ? ? Hp1 Hp2]; subst.
    cbn [spinOnce_all] in HR, Hn.
    destruct (bind_Ret _ _ _ _ _ HR) as (u & s' & H1 & H2). destruct u.
    destruct (avoids_events _ _ _ (spinOnce_extends p s)) as [E1 _].
    destruct (avoids_events _ _ _ (spinOnce_all_extends rest s')) as [E2 _].
    rewrite H1 in E1. simpl in E1.
    assert (Hsplit : new_events s (bind (spinOnce p)
                                     (fun _ => spinOnce_all rest) s)
                     = new_events s (spinOnce p s)
                       ++ new_events s' (spinOnce_all rest s')).
    { apply new_events_app. rewrite (bind_step _ _ _ _ _ H1).
      rewrite E2, E1, H1, app_assoc. reflexivity. }
    rewrite Hsplit, count_app in Hn.
    assert (N1 : count is_dispatch (new_events s (spinOnce p s)) = 0%nat)
      by lia.
    assert (N2 : count is_dispatch (new_events s' (spinOnce_all rest s'))
                 = 0%nat) by lia.
    destruct (spinOnce_quiet p s s' b Hb Hp1 Hc H1 N1)
      as (S1 & S2 & S3 & S4).
    destruct (IH s' s1 b S3 S4 Hp2 H2 N2) as (I1 & I2 & I3 & I4).
    simpl. rewrite I1, I2, S1, S2, window_stamps_rule,
      (window_accgyr_rule p s Hc).
    auto.
Qed.

Lemma concat_lengths_agree packets :
  Forall packet_wellformed packets ->
  length (concat (map getImuAccGyr packets)) =
  length (concat (map getImuStamps packets)).
Proof.
  induction 1 as [| p rest (_ & Hl & _) _ IH]; [ reflexivity | ].
  simpl. rewrite !length_app, Hl, IH. reflexivity.
Qed.

(** The accumulation rule folded over [N >= 1] windows, from an empty
    buffer. *)
Lemma fold_from_empty_length {A} (ws : list (list A)) :
  ws <> [] -> Forall (fun w => w <> []) ws ->
  (length (fold_left imu_append ws []) + (length ws - 1)
   = length (concat ws))%nat.
Proof.
  intros Hne Hw. destruct ws as [| w rest]; [ contradiction | ].
  inversion Hw as [| ? ? Hw1 Hw2]; subst. simpl.
  destruct (fold_imu_append_length rest w Hw1 Hw2) as [_ Hlen].
  rewrite length_app. lia.
Qed.

Lemma fold_from_empty_sorted (ws : list (list Z)) :
  Forall (fun w => w <> [] /\ StronglySorted Z.lt w) ws ->
  windows_chained ws ->
  StronglySorted Z.lt (fold_left imu_append ws []).
Proof.
  intros Hw Hc. destruct ws as [| w rest]; [ constructor | ].
  inversion Hw as [| ? ? [Hw1 Hw1'] Hw2]; subst. simpl.
  apply fold_imu_append_sorted; auto.
Qed.

End Windows.

(** * The claims *)

Section Claims.
Context {T : ExternalTypes} {FE : Type} {F : StereoVisionFrontEnd FE}
        {E : Environment}.

Local Abbreviation PipelineState := (Pipeline FE).

Lemma dispatch_body_extends lf tk tlkf st ag (s : PipelineState) :
  avoids (fun _ => false) (dispatch_body lf tk tlkf st ag) s.
Proof.
  unfold dispatch_body, feature_selector_block, backend_block, mesh_block,
    visualize_block.
  avoid.
Qed.

(** The per-frame procedure first queries the preintegration of the
    accumulated window, then runs the tracker. *)
Lemma spinOnce_first_events p (s : PipelineState) b :
  vio_backend_ s = Some b -> packet_nonempty p -> buffers_coherent s ->
  exists d,
    new_events s (spinOnce p s)
    = EvPreintegrateGyro (window_stamps p s) (window_accgyr p s)
      :: EvProcessStereoFrame (getStereoFrame p) (tracking_prior p s) :: d.
Proof.
  intros Hb Hp Hc.
  destruct (isKeyframe (stereoFrame_km1_ (snd (tracked p s)))) eqn:Hk.
  - rewrite (spinOnce_keyframe p s b Hb Hp Hc Hk).
    match goal with
    | |- context [new_events s (bind ?m ?k ?s1)] =>
        assert (Hav : avoids (fun _ => false) (bind m k) s1)
    end.
    { apply avoids_bind; [ | intros; avoid ].
      apply avoids_bind; [ apply dispatch_body_extends | ].
      intros. apply reset_after_dispatch_avoids. }
    destruct Hav as [_ (d & Hd & _)].
    eexists. apply new_events_app. rewrite Hd.
    unfold append_events, after_tracking. simpl.
    rewrite <- !app_assoc. reflexivity.
  - rewrite (spinOnce_no_keyframe p s b Hb Hp Hc Hk).
    exists []. apply new_events_app. unfold after_tracking. simpl.
    reflexivity.
Qed.

(** C1 (amended).  For every frame handled by the per-frame procedure,
    keyframe dispatch is invoked exactly when, once the Frontend has
    processed the current frame, its [stereoFrame_km1_] is flagged a
    keyframe; it is invoked once, with the TrackingResult the Frontend
    returned for the current frame in this same call, the current frame's id
    and timestamp, the last-keyframe timestamp and the accumulated window. *)
Theorem C1_dispatch_uses_current_tracking_result
    (p : StereoImuSyncPacket) (s : PipelineState) (b : VioBackEnd) :
  vio_backend_ s = Some b -> packet_nonempty p -> buffers_coherent s ->
  filter is_dispatch (new_events s (spinOnce p s)) =
  if isKeyframe
       (stereoFrame_km1_
          (snd (processStereoFrame (getStereoFrame p) (tracking_prior p s)
                  (stereo_vision_frontend_ s))))
  then [EvProcessKeyframe
          (getFrameId (getStereoFrame p))
          (fst (processStereoFrame (getStereoFrame p) (tracking_prior p s)
                  (stereo_vision_frontend_ s)))
          (getTimestamp (getStereoFrame p))
          (timestamp_lkf_value s)
          (window_stamps p s) (window_accgyr p s)]
  else [].
Proof.
  intros Hb Hp Hc. exact (spinOnce_dispatch_events p s b Hb Hp Hc).
Qed.

(** C2 (amended).  The accumulation step stores the packet's window as it
    is when the buffer is empty, and otherwise drops the buffer's last
    sample and appends the whole window; the window so obtained is the one
    handed to the preintegration query.  Consequently, from an empty
    buffer, after [N] frames that trigger no dispatch and one more frame,
    the window (the one a dispatch on that frame receives) has as many
    samples as the [N + 1] windows together minus [N], as many samples as
    stamps, and strictly increasing stamps -- for packets whose windows are
    non-empty, pair samples with stamps, are strictly increasing and follow
    one another. *)
Theorem C2_accumulation_rule_and_window_size :
  (forall (p : StereoImuSyncPacket) (s : PipelineState) (b : VioBackEnd),
     vio_backend_ s = Some b -> packet_nonempty p -> buffers_coherent s ->
     window_stamps p s
       = imu_append (imu_stamps_lkf_to_curr_f s) (getImuStamps p) /\
     window_accgyr p s
       = imu_append (imu_accgyr_lkf_to_curr_f s) (getImuAccGyr p) /\
     exists d,
       new_events s (spinOnce p s)
       = EvPreintegrateGyro (window_stamps p s) (window_accgyr p s) :: d) /\
  (forall (front : list StereoImuSyncPacket) (p : StereoImuSyncPacket)
          (s s1 : PipelineState) (b : VioBackEnd),
     vio_backend_ s = Some b ->
     imu_stamps_lkf_to_curr_f s = [] -> imu_accgyr_lkf_to_curr_f s = [] ->
     Forall packet_wellformed (front ++ [p]) ->
     windows_chained (map getImuStamps (front ++ [p])) ->
     spinOnce_all front s = Ret tt s1 ->
     count is_dispatch (new_events s (spinOnce_all front s)) = 0%nat ->
     let N := length front in
     (length (window_accgyr p s1) + N
      = length (concat (map getImuAccGyr (front ++ [p]))))%nat /\
     length (window_stamps p s1) = length (window_accgyr p s1) /\
     StronglySorted Z.lt (window_stamps p s1) /\
     forall k ssm tk tlkf st ag,
       In (EvProcessKeyframe k ssm tk tlkf st ag)
          (new_events s1 (spinOnce p s1)) ->
       st = window_stamps p s1 /\ ag = window_accgyr p s1).
Proof.
  split.
  - intros p s b Hb Hp Hc.
    split; [ apply window_stamps_rule | ].
    split; [ apply window_accgyr_rule, Hc | ].
    destruct (spinOnce_first_events p s b Hb Hp Hc) as (d & Hd).
    rewrite Hd. eexists. reflexivity.
  - intros front p s s1 b Hb Es Ea Hwf Hch HR Hn N.
    assert (Hc : buffers_coherent s).
    { unfold buffers_coherent. rewrite Es, Ea. tauto. }
    assert (Hne : Forall packet_nonempty (front ++ [p])).
    { eapply Forall_impl; [ | exact Hwf ]. apply packet_wellformed_nonempty. }
    apply Forall_app in Hne as [Hne1 Hne2].
    inversion Hne2 as [| ? ? Hp _]; subst.
    destruct (spinOnce_all_quiet front s s1 b Hb Hc Hne1 HR Hn)
      as (I1 & I2 & I3 & I4).
    assert (Ws : window_stamps p s1 =
                 fold_left imu_append (map getImuStamps (front ++ [p])) []).
    { rewrite window_stamps_rule, I1, Es, map_app, fold_left_app.
      reflexivity. }
    assert (Wa : window_accgyr p s1 =
                 fold_left imu_append (map getImuAccGyr (front ++ [p])) []).
    { rewrite (window_accgyr_rule p s1 I4), I2, Ea, map_app, fold_left_app.
      reflexivity. }
    assert (Hs_ne : Forall (fun w : list Z => w <> [])
                      (map getImuStamps (front ++ [p]))).
    { apply Forall_map. eapply Forall_impl; [ | exact Hwf ].
      intros q (H1 & _). exact H1. }
    assert (Ha_ne : Forall (fun w : list ImuAccGyr => w <> [])
                      (map getImuAccGyr (front ++ [p]))).
    { apply Forall_map. eapply Forall_impl; [ | exact Hwf ].
      intros q Hq. apply (packet_wellformed_nonempty q Hq). }
    assert (Hnil_s : map getImuStamps (front ++ [p]) <> []).
    { destruct front; discriminate. }
    assert (Hnil_a : map getImuAccGyr (front ++ [p]) <> []).
    { destruct front; discriminate. }
    pose proof (fold_from_empty_length _ Hnil_s Hs_ne) as Ls.
    pose proof (fold_from_empty_length _ Hnil_a Ha_ne) as La.
    rewrite length_map in Ls, La.
    pose proof (concat_lengths_agree _ Hwf) as Hag.
    rewrite length_app in Ls, La. simpl in Ls, La.
    split; [ rewrite Wa; unfold N; lia | ].
    split; [ rewrite Ws, Wa; lia | ].
    split.
    { rewrite Ws. apply fold_from_empty_sorted; [ | exact Hch ].
      apply Forall_map. eapply Forall_impl; [ | exact Hwf ].
      intros q (H1 & _ & H3). auto. }
    intros k ssm tk tlkf st ag Hin.
    pose proof (spinOnce_dispatch_events p s1 b I3 Hp I4) as Hf.
    assert (Hin' : In (EvProcessKeyframe k ssm tk tlkf st ag)
                      (filter is_dispatch (new_events s1 (spinOnce p s1)))).
    { apply filter_In. split; [ exact Hin | reflexivity ]. }
    rewrite Hf in Hin'.
    destruct (isKeyframe (stereoFrame_km1_ (snd (tracked p s1))));
      [ | inversion Hin' ].
    destruct Hin' as [Heq | []]. unfold dispatch_event in Heq.
    inversion Heq; subst. auto.
Qed.

End Claims.

Section ClaimsOnDispatch.
Context {T : ExternalTypes} {FE : Type} {F : StereoVisionFrontEnd FE}
        {E : Environment}.

Local Abbreviation PipelineState := (Pipeline FE).

(** C3 (amended).  During a keyframe dispatch with visualization enabled,
    a visualizer output that the pop does not deliver -- the channel is shut
    down, or the pop comes back empty -- is logged as a warning and the
    render is skipped for that keyframe: the dispatch still pushes its
    visualizer payload, renders nothing and returns.  This holds on open
    channels and on channels that have been shut down alike, as long as the
    pop of the Backend output returns and, in the mode that uses the mesher,
    the mesher input channel takes the request and the pop of the mesher
    output returns.  (It is not the only failure a dispatch tolerates.) *)
Theorem C3_visualizer_output_missing_is_tolerated
    k lf tk tlkf st ag (s : PipelineState) ssm :
  FLAGS_use_feature_selection (flags s) = false ->
  FLAGS_visualize (flags s) = true ->
  statusSmartStereoMeasurements s = Some ssm ->
  backend_and_mesher_answer s ->
  visualizer_unavailable s ->
  exists s' d,
    processKeyframe k lf tk tlkf st ag s = Ret tt s' /\
    trace s' = trace s ++ d ++
      [EvPopBlocking visualizer_output_queue_;
       EvWarning Visualizer_is_lagging_behind_pipeline_processing] /\
    count is_visualizer_push d = 1%nat /\
    count is_render d = 0%nat.
Proof.
  intros Hfs Hv Hc (Hb & Hbo & Hm) Hvu.
  destruct (vio_backend_ s) as [b |] eqn:Eb; [ clear Hb | contradiction ].
  destruct (processKeyframe_reaches_mesh k lf tk tlkf st ag s ssm b
              Hfs Hc Eb Hbo) as (d0 & Hpk & N0).
  set (s1 := append_events (EvProcessKeyframe k ssm tk tlkf st ag :: d0) s)
    in *.
  destruct (mesh_block_returns (configured_mode s) s1 b Eb Hm)
    as (l & dm & Hmb & Nm).
  rewrite (bind_step _ _ _ _ _ Hmb) in Hpk.
  set (s2 := append_events dm s1) in *.
  rewrite (visualize_block_shape _ lf tk l s2 b Hv Eb) in Hpk.
  set (s3 := append_events _ s2) in *.
  assert (Hfail : queue_shutdown s3 visualizer_output_queue_ = true \/
                  visualizer_output_pop
                    (trace s3 ++ [EvPopBlocking visualizer_output_queue_])
                  = PopFailed).
  { destruct Hvu as [Hq | Ho]; [ left; exact Hq | right; apply Ho ]. }
  rewrite (display_failed s3 Hfail) in Hpk.
  eexists.
  exists ((EvProcessKeyframe k ssm tk tlkf st ag :: d0) ++ dm ++
          visualize_pre l s2 ++
          [EvVisualizerPush
             (visualizer_payload (configured_mode s) lf tk l s2)]).
  split; [ exact Hpk | ].
  split.
  { unfold s3, s2, s1, append_events. simpl.
    rewrite <- ?app_assoc. simpl. rewrite <- ?app_assoc. reflexivity. }
  assert (P0 : count is_visualizer_push d0 = 0%nat).
  { eapply count_le; [ | exact N0 ]. intros e He.
    unfold is_display_traffic. rewrite He. reflexivity. }
  assert (R0 : count is_render d0 = 0%nat).
  { eapply count_le; [ | exact N0 ]. intros e He.
    unfold is_display_traffic. rewrite He, orb_true_r. reflexivity. }
  assert (Pm : count is_visualizer_push dm = 0%nat).
  { eapply count_le; [ | exact Nm ]. intros e He.
    unfold is_display_traffic. rewrite He. reflexivity. }
  assert (Rm : count is_render dm = 0%nat).
  { eapply count_le; [ | exact Nm ]. intros e He.
    unfold is_display_traffic. rewrite He, orb_true_r. reflexivity. }
  repeat rewrite ?count_app, ?count_cons.
  rewrite P0, R0, Pm, Rm, !count_visualize_pre by reflexivity.
  split; reflexivity.
Qed.

(** C9.  In the mode that uses the mesher, a blocking pop of the mesher
    output channel that fails does not abort the keyframe: the warning is
    logged, the dispatch goes on to the visualizer step, and with
    visualization enabled the visualizer payload it pushes holds the
    default-constructed mesher output.  The dispatch then returns, unless
    the visualizer never answers. *)
Theorem C9_failed_mesher_pop_is_not_fatal
    k lf tk tlkf st ag (s : PipelineState) ssm b :
  FLAGS_use_feature_selection (flags s) = false ->
  configured_mode s = MESH2DTo3Dsparse ->
  statusSmartStereoMeasurements s = Some ssm ->
  vio_backend_ s = Some b ->
  (forall tr, backend_output_pop tr <> PopNever) ->
  queue_shutdown s mesher_input_queue_ = false ->
  mesher_unavailable s ->
  let o := processKeyframe k lf tk tlkf st ag s in
  In (EvWarning Mesher_output_queue_did_not_pop_a_payload) (new_events s o) /\
  halts_within (is_blocked_on visualizer_output_queue_)
    (processKeyframe k lf tk tlkf st ag) s /\
  (FLAGS_visualize (flags s) = false -> exists s', o = Ret tt s') /\
  (FLAGS_visualize (flags s) = true ->
   exists payload,
     In (EvVisualizerPush payload) (new_events s o) /\
     vi_mesher_output_payload_ payload = default_MesherOutputPayload).
Proof.
  intros Hfs Hmode Hc Hb Hbo Hmi Hmu o. subst o.
  destruct (processKeyframe_to_mesh k lf tk tlkf st ag s ssm b Hfs Hc Hb Hbo)
    as (d0 & Hpk & _ & _).
  rewrite Hmode in Hpk.
  set (s1 := append_events (EvProcessKeyframe k ssm tk tlkf st ag :: d0) s)
    in *.
  destruct (mesh_block_mesher_failed s1 b Hb Hmi Hmu) as (l & dm & Hm & Hl & _).
  rewrite (bind_step _ _ _ _ _ Hm) in Hpk.
  set (w := EvWarning Mesher_output_queue_did_not_pop_a_payload) in *.
  set (s2 := append_events (dm ++ [w]) s1) in *.
  assert (T2 : trace s2 =
               trace s ++ (EvProcessKeyframe k ssm tk tlkf st ag :: d0)
                 ++ dm ++ [w]).
  { unfold s2, s1, append_events. simpl. rewrite <- !app_assoc. reflexivity. }
  destruct (FLAGS_visualize (flags s)) eqn:Hv.
  - (* visualization enabled *)
    rewrite (visualize_block_shape _ lf tk l s2 b Hv Hb) in Hpk.
    set (payload := visualizer_payload MESH2DTo3Dsparse lf tk l s2) in *.
    set (s3 := append_events (visualize_pre l s2 ++ [EvVisualizerPush payload])
                 s2) in *.
    assert (T3 : trace s3 =
                 trace s ++ ((EvProcessKeyframe k ssm tk tlkf st ag :: d0)
                   ++ dm ++ [w]) ++ visualize_pre l s2
                   ++ [EvVisualizerPush payload]).
    { unfold s3, append_events. cbn [trace set_trace upd].
      rewrite T2, <- ?app_assoc. reflexivity. }
    assert (Hext : exists d3,
              trace (final (processKeyframe k lf tk tlkf st ag s))
              = trace s3 ++ d3).
    { rewrite Hpk.
      destruct (queue_shutdown s3 visualizer_output_queue_) eqn:Hq.
      - rewrite (display_failed s3 (or_introl Hq)). simpl. eauto.
      - destruct (visualizer_output_pop
                    (trace s3 ++ [EvPopBlocking visualizer_output_queue_]))
          as [out | |] eqn:Ho.
        + rewrite (display_popped s3 out Hq Ho). simpl. eauto.
        + rewrite (display_failed s3 (or_intror Ho)). simpl. eauto.
        + rewrite (display_never s3 Hq Ho). simpl. eauto. }
    destruct Hext as (d3 & Hd3).
    assert (Hnew : new_events s (processKeyframe k lf tk tlkf st ag s) =
                   (((EvProcessKeyframe k ssm tk tlkf st ag :: d0)
                      ++ dm ++ [w]) ++ visualize_pre l s2
                      ++ [EvVisualizerPush payload]) ++ d3).
    { apply new_events_app. rewrite Hd3, T3, <- !app_assoc. reflexivity. }
    split.
    { rewrite Hnew. apply in_or_app. left. apply in_or_app. left.
      apply in_or_app. right. apply in_or_app. right. left. reflexivity. }
    split.
    { unfold halts_within. rewrite Hpk.
      destruct (queue_shutdown s3 visualizer_output_queue_) eqn:Hq.
      - rewrite (display_failed s3 (or_introl Hq)). exact I.
      - destruct (visualizer_output_pop
                    (trace s3 ++ [EvPopBlocking visualizer_output_queue_]))
          as [out | |] eqn:Ho.
        + rewrite (display_popped s3 out Hq Ho). exact I.
        + rewrite (display_failed s3 (or_intror Ho)). exact I.
        + rewrite (display_never s3 Hq Ho). reflexivity. }
    split; [ discriminate | ].
    intros _. exists payload. split.
    { rewrite Hnew. apply in_or_app. left. apply in_or_app. right.
      apply in_or_app. right. left. reflexivity. }
    exact Hl.
  - (* visualization disabled *)
    rewrite (visualize_block_off _ lf tk l s2 Hv) in Hpk.
    split.
    { erewrite new_events_app; [ | rewrite Hpk; simpl; exact T2 ].
      apply in_or_app. right. apply in_or_app. right. left. reflexivity. }
    split; [ unfold halts_within; rewrite Hpk; exact I | ].
    split; [ intros _; eauto | discriminate ].
Qed.

(** C5.  With feature selection enabled, a keyframe dispatch never returns:
    whatever the state of the worker threads, it selects features and then
    dies on the fatal log line (it dies earlier only if its pointer
    argument or the back-end is null).  With feature selection disabled, a
    dispatch never calls the selector and never halts on that line. *)
Theorem C5_feature_selection_is_fatal
    k lf tk tlkf st ag (s : PipelineState) :
  (FLAGS_use_feature_selection (flags s) = true ->
   (exists h s', processKeyframe k lf tk tlkf st ag s = Halt h s') /\
   (forall ssm b,
      statusSmartStereoMeasurements s = Some ssm ->
      vio_backend_ s = Some b ->
      exists s',
        processKeyframe k lf tk tlkf st ag s =
        Halt (LogFatal Do_not_use_feature_selection_in_parallel_mode) s')) /\
  (FLAGS_use_feature_selection (flags s) = false ->
   halts_within (fun h => negb (is_feature_selection_fatal h))
     (processKeyframe k lf tk tlkf st ag) s /\
   count is_feature_select
     (new_events s (processKeyframe k lf tk tlkf st ag s)) = 0%nat).
Proof.
  split.
  - intros Hfs. split.
    + apply processKeyframe_always_halts_with_feature_selection, Hfs.
    + intros ssm b Hc Hb.
      destruct (processKeyframe_feature_selection_fatal
                  k lf tk tlkf st ag s ssm b Hfs Hc Hb) as (s' & H & _).
      eauto.
  - intros Hfs.
    destruct (processKeyframe_never_feature_selection_fatal
                k lf tk tlkf st ag s Hfs) as [H1 H2].
    split; [ exact H1 | ].
    apply (avoids_events _ _ _ H2).
Qed.

(** C10.  With feature selection disabled, a keyframe dispatch never writes
    through its [statusSmartStereoMeasurements] pointer, and the
    TrackingResult it points to is the one placed in the back-end payload,
    the only one pushed.  With feature selection enabled the pointee is
    overwritten by the selector's result (same status, selected
    measurements), nothing is pushed, and the dispatch dies. *)
Theorem C10_tracking_result_forwarded_unmodified
    k lf tk tlkf st ag (s : PipelineState) ssm :
  statusSmartStereoMeasurements s = Some ssm ->
  let o := processKeyframe k lf tk tlkf st ag s in
  (FLAGS_use_feature_selection (flags s) = false ->
   statusSmartStereoMeasurements (final o) = Some ssm /\
   exists d1 payload d2,
     new_events s o = d1 ++ EvBackendPush payload :: d2 /\
     bi_status_smart_stereo_measurements_kf_ payload = ssm /\
     count is_backend_push d1 = 0%nat /\
     count is_backend_push d2 = 0%nat) /\
  (FLAGS_use_feature_selection (flags s) = true ->
   forall b, vio_backend_ s = Some b ->
   exists s' selected,
     o = Halt (LogFatal Do_not_use_feature_selection_in_parallel_mode) s' /\
     statusSmartStereoMeasurements s' = Some (fst ssm, selected) /\
     count is_backend_push (new_events s o) = 0%nat).
Proof.
  intros Hc o. subst o. split.
  - intros Hfs. split.
    + pose proof (processKeyframe_keeps
                    (fun s => statusSmartStereoMeasurements s)
                    k lf tk tlkf st ag s (fun _ _ => eq_refl) Hfs) as Hk.
      unfold keeps in Hk. rewrite Hk. exact Hc.
    + destruct (processKeyframe_events k lf tk tlkf st ag s ssm Hfs Hc)
        as (d1 & d2 & Hd & L1 & N2).
      exists (EvProcessKeyframe k ssm tk tlkf st ag :: d1).
      exists (backend_payload tk st ag ssm s).
      exists (EvPopBlocking backend_output_queue_ :: d2).
      split; [ exact Hd | ].
      split; [ reflexivity | ].
      split.
      * rewrite count_cons. simpl.
        apply (count_only_logger _ _ L1). reflexivity.
      * rewrite count_cons. simpl.
        eapply count_le; [ | exact N2 ]. intros e He.
        unfold is_frame_traffic. rewrite He, ?orb_true_r. reflexivity.
  - intros Hfs b Hb.
    destruct (processKeyframe_feature_selection_fatal
                k lf tk tlkf st ag s ssm b Hfs Hc Hb)
      as (s' & H & (sel & Hs) & N).
    exists s', sel. auto.
Qed.

End ClaimsOnDispatch.

Section ClaimsOnRuns.
Context {T : ExternalTypes} {FE : Type} {F : StereoVisionFrontEnd FE}
        {E : Environment}.

Local Abbreviation PipelineState := (Pipeline FE).

(** C4.  The first call of [spin] runs neither the accumulation nor the
    tracker: it leaves the accumulation buffers as they were and makes no
    preintegration or tracking call, whatever its outcome.  With a supported
    back-end type (and ground truth at hand when logging), it initializes
    the Frontend, constructs the Backend, launches the three worker threads
    and returns true.  Every later call is one call of the per-frame
    procedure. *)
Theorem C4_first_spin_only_bootstraps :
  (forall (p : StereoImuSyncPacket) (s : PipelineState),
     is_initialized s = false ->
     let o := spin p s in
     imu_stamps_lkf_to_curr_f (final o) = imu_stamps_lkf_to_curr_f s /\
     imu_accgyr_lkf_to_curr_f (final o) = imu_accgyr_lkf_to_curr_f s /\
     count is_preintegration (new_events s o) = 0%nat /\
     count is_tracking (new_events s o) = 0%nat) /\
  (forall (p : StereoImuSyncPacket) (s : PipelineState) variant,
     is_initialized s = false ->
     backend_variant_of s = Some variant ->
     (FLAGS_log_output (flags s) = true ->
      isGroundTruthAvailable (dataset_ s) = true) ->
     (forall w, joinable (thread s w) = false) ->
     exists s',
       spin p s = Ret true s' /\
       new_events s (spin p s) = bootstrap_events p s variant /\
       is_initialized s' = true /\
       vio_backend_ s' <> None /\
       (forall w, thread s' w = Running) /\
       stereo_vision_frontend_ s' =
         processFirstStereoFrame (getStereoFrame p)
           (stereo_vision_frontend_ s)) /\
  (forall (packets : list StereoImuSyncPacket) (s : PipelineState),
     is_initialized s = true ->
     spin_all packets s = spinOnce_all packets s).
Proof.
  split; [ | split ].
  - intros p s Hi o. subst o. rewrite (spin_first p s Hi).
    pose proof (bootstrap_keeps_buffers p s) as Hk. unfold keeps in Hk.
    inversion Hk as [[H1 H2]].
    destruct (avoids_events _ _ _ (bootstrap_avoids p s)) as [_ Hn].
    repeat split; auto.
    + eapply count_le; [ | exact Hn ]. intros e He.
      unfold is_per_frame. rewrite He. reflexivity.
    + eapply count_le; [ | exact Hn ]. intros e He.
      unfold is_per_frame, is_frame_traffic. rewrite He, ?orb_true_r.
      reflexivity.
  - intros p s variant Hi Hv Hlog Hth. rewrite (spin_first p s Hi).
    destruct (bootstrap_Ret p s variant Hv Hlog Hth)
      as (s' & H1 & H2 & H3 & H4 & H5 & H6).
    exists s'. rewrite H1. repeat split; auto.
    apply new_events_app. exact H2.
  - apply spin_all_later.
Qed.

(** C6 (amended).  For every keyframe dispatch that returns, the mode fixed
    at configuration determines which computation precedes the visualizer
    payload: none in mode NONE (nor in MESH2DTo3D, MESH3D or an unlisted
    value); the Backend's landmark map with default arguments in POINTCLOUD;
    the Backend's 3D points, and no landmark-map query, in
    POINTCLOUD_REPEATEDPOINTS; the landmark map filtered by the minimum
    observation count, annotated with landmark types when that flag is set,
    followed by a request to the mesher, in MESH2DTo3Dsparse; the 2D mesh of
    the Frontend's last keyframe, with no Backend query, in MESH2D and
    MESH2Dsparse.  In every mode other than POINTCLOUD and MESH2DTo3Dsparse
    the landmark-map query is never made, for the whole run. *)
Theorem C6_mode_selects_mesh_computation :
  (forall k lf tk tlkf st ag (s s' : PipelineState),
     FLAGS_use_feature_selection (flags s) = false ->
     processKeyframe k lf tk tlkf st ag s = Ret tt s' ->
     mesh_computations (new_events s (processKeyframe k lf tk tlkf st ag s)) =
     computations_of_mode (configured_mode s) (flags s)
       (stereoFrame_lkf_ (stereo_vision_frontend_ s))) /\
  (forall (packets : list StereoImuSyncPacket) (s : PipelineState),
     queries_landmark_map (configured_mode s) = false ->
     count is_landmark_map_query (new_events s (spin_all packets s)) = 0%nat).
Proof.
  split.
  - intros k lf tk tlkf st ag s s' Hfs HR.
    exact (processKeyframe_computations k lf tk tlkf st ag s s' Hfs HR).
  - intros packets s Hm.
    apply (avoids_events _ _ _ (spin_all_avoids_query packets s Hm)).
Qed.

(** C7 (amended).  Called once the pipeline is initialized and its three
    worker threads run, [shutdown] sets the shutdown flag and shuts down all
    six channels (and the three workers) before it joins the three threads,
    each once.  It joins without testing whether a thread is joinable: a
    second call shuts the channels down again and then joins the back-end
    thread, already joined, which raises [std::system_error]. *)
Theorem C7_shutdown_once (s : PipelineState) (b : VioBackEnd) :
  vio_backend_ s = Some b ->
  (forall w, thread s w = Running) ->
  exists s',
    shutdown s = Ret tt s' /\
    new_events s (shutdown s) =
      stop_events ++ join_events ++
      (if FLAGS_log_output (flags s) then [EvLogger closeLogFiles] else []) /\
    shutdown_ s' = true /\
    (forall q, queue_shutdown s' q = true) /\
    (forall w, thread s' w = Joined) /\
    exists s'',
      shutdown s' = Halt (StdSystemError backend_thread_) s'' /\
      new_events s' (shutdown s') = stop_events ++ [EvJoin backend_thread_].
Proof.
  intros Hb Hth.
  destruct (shutdown_running s b Hb Hth)
    as (s' & H1 & H2 & H3 & H4 & H5 & H6).
  exists s'. rewrite H1. repeat split; auto.
  - apply new_events_app. exact H2.
  - assert (Hj : joinable (thread s' backend_thread_) = false)
      by (rewrite H5; reflexivity).
    destruct (shutdown_not_joinable s' b H6 Hj) as (s'' & G1 & G2).
    exists s''. rewrite G1. split; [ reflexivity | ].
    apply new_events_app. exact G2.
Qed.

(** C8.  With feature selection disabled: each keyframe dispatch makes one
    push of a BackendInputPayload, immediately followed by one blocking pop
    of the Backend output channel, and no other of either; a frame that
    returns has made one push and one pop if it dispatched and none
    otherwise; so over any run of [spin] calls that returns, the pushes and
    the pops of the Backend edge are as many as the dispatches, the
    visualizer pushes as many as the dispatches when visualization is
    enabled and none otherwise, and the renders as many as the visualizer
    pushes when the visualizer delivers. *)
Theorem C8_one_backend_round_trip_per_dispatch :
  (forall k lf tk tlkf st ag (s : PipelineState) ssm,
     FLAGS_use_feature_selection (flags s) = false ->
     statusSmartStereoMeasurements s = Some ssm ->
     exists d1 payload d2,
       new_events s (processKeyframe k lf tk tlkf st ag s) =
         d1 ++ EvBackendPush payload
            :: EvPopBlocking backend_output_queue_ :: d2 /\
       count is_backend_push d1 = 0%nat /\ count is_backend_pop d1 = 0%nat /\
       count is_backend_push d2 = 0%nat /\ count is_backend_pop d2 = 0%nat) /\
  (forall (p : StereoImuSyncPacket) (s s' : PipelineState),
     FLAGS_use_feature_selection (flags s) = false ->
     spinOnce p s = Ret tt s' ->
     let d := new_events s (spinOnce p s) in
     (count is_dispatch d <= 1)%nat /\
     count is_backend_push d = count is_dispatch d /\
     count is_backend_pop d = count is_dispatch d) /\
  (forall (packets : list StereoImuSyncPacket) (s s' : PipelineState),
     FLAGS_use_feature_selection (flags s) = false ->
     spin_all packets s = Ret tt s' ->
     let d := new_events s (spin_all packets s) in
     count is_backend_push d = count is_dispatch d /\
     count is_backend_pop d = count is_dispatch d /\
     count is_visualizer_push d
       = (if FLAGS_visualize (flags s) then count is_dispatch d else 0)%nat /\
     (visualizer_responsive s ->
      count is_render d = count is_visualizer_push d)).
Proof.
  split; [ | split ].
  - intros k lf tk tlkf st ag s ssm Hfs Hc.
    destruct (processKeyframe_events k lf tk tlkf st ag s ssm Hfs Hc)
      as (d1 & d2 & Hd & L1 & N2).
    exists (EvProcessKeyframe k ssm tk tlkf st ag :: d1).
    exists (backend_payload tk st ag ssm s). exists d2.
    split; [ exact Hd | ].
    rewrite !count_cons. simpl.
    rewrite !(count_only_logger _ _ L1) by reflexivity.
    repeat split; auto;
      (eapply count_le; [ | exact N2 ]; intros e He;
       unfold is_frame_traffic; rewrite He, ?orb_true_r; reflexivity).
  - intros p s s' Hfs HR d. subst d.
    destruct (spinOnce_Ret_balanced p s s' Hfs HR)
      as [_ (d & Hd & (B1 & B2 & _) & _ & Hle)].
    rewrite HR. rewrite (new_events_app s (Ret tt s') d Hd). auto.
  - intros packets s s' Hfs HR d. subst d.
    destruct (spin_all_Ret_balanced packets s s' Hfs HR)
      as [_ (d & Hd & (B1 & B2 & B3 & _ & B5))].
    rewrite HR. rewrite (new_events_app s (Ret tt s') d Hd). auto.
Qed.

End ClaimsOnRuns.

(** * Further properties of the orchestrator *)

Section Initialisation.
Context {T : ExternalTypes} {FE : Type} {F : StereoVisionFrontEnd FE}
        {E : Environment}.

Local Abbreviation PipelineState := (Pipeline FE).

Lemma bootstrap_unsupported p (s : PipelineState) :
  backend_variant_of s = None ->
  bootstrap p s =
  Halt (LogFatal (Requested_backend_type_is_not_supported
                    (getBackendType (dataset_ s))))
       (set_frontend
          (processFirstStereoFrame (getStereoFrame p)
             (stereo_vision_frontend_ s))
          (append_events [EvProcessFirstStereoFrame (getStereoFrame p)] s)).
Proof.
  unfold backend_variant_of. intros Hv.
  unfold bootstrap, initialize, initBackend.
  cbv beta delta [bind ret gets modify emit halt]. simpl.
  destruct (getBackendType (dataset_ s)) as [| [q | q |] | q];
    try discriminate; reflexivity.
Qed.

(** An unsupported back-end type is fatal at the first [spin]: the front-end
    has processed the first frame, but no back-end is constructed, no thread
    is launched, and the pipeline is not marked initialized. *)
Theorem first_spin_unsupported_backend_type p (s : PipelineState) :
  is_initialized s = false ->
  backend_variant_of s = None ->
  exists s',
    spin p s =
      Halt (LogFatal (Requested_backend_type_is_not_supported
                        (getBackendType (dataset_ s)))) s' /\
    new_events s (spin p s) = [EvProcessFirstStereoFrame (getStereoFrame p)] /\
    vio_backend_ s' = vio_backend_ s /\
    (forall w, thread s' w = thread s w) /\
    is_initialized s' = false.
Proof.
  intros Hi Hv. rewrite (spin_first p s Hi), (bootstrap_unsupported p s Hv).
  eexists. split; [ reflexivity | ].
  split; [ apply new_events_app; reflexivity | ].
  repeat split; auto.
Qed.

End Initialisation.

Section Threads.
Context {T : ExternalTypes} {FE : Type} {F : StereoVisionFrontEnd FE}
        {E : Environment}.

Local Abbreviation PipelineState := (Pipeline FE).

Ltac run_threads Hb Eb Em Ev :=
  cbv beta delta [bind ret gets modify emit halt];
  repeat (simpl; rewrite ?Hb, ?Eb, ?Em, ?Ev).

Lemma start_thread_fresh (w : Worker) (s : PipelineState) :
  joinable (thread s w) = false ->
  start_thread w s =
  Ret tt (set_thread
            (fun w' => if Worker_eqb w w' then Running else thread s w')
            (append_events [EvLaunchThread w] s)).
Proof.
  intros Ht. unfold start_thread.
  cbv beta delta [bind ret gets modify emit halt].
  cbn. rewrite Ht. reflexivity.
Qed.

Lemma start_thread_joinable (w : Worker) (s : PipelineState) :
  joinable (thread s w) = true ->
  start_thread w s = Halt (StdTerminate w) (append_events [EvLaunchThread w] s).
Proof.
  intros Ht. unfold start_thread.
  cbv beta delta [bind ret gets modify emit halt].
  cbn. rewrite Ht. reflexivity.
Qed.

Lemma deref_vio_backend_Some (s : PipelineState) b :
  vio_backend_ s = Some b -> deref_vio_backend s = Ret b s.
Proof.
  intros Hb. unfold deref_vio_backend, bind, gets, ret. rewrite Hb.
  reflexivity.
Qed.

(** [launchThreads] is to be called once.  On a pipeline with a back-end and
    no running worker it starts the three workers, back-end first.  Called
    again, it starts one more back-end worker -- the temporary [std::thread]
    is constructed first -- and then dies in [std::terminate] at the move
    assignment onto the back-end thread, which is still joinable.  Whenever
    some worker is already joinable, it terminates at the first such worker,
    having started the ones before it and a duplicate of that one. *)
Theorem launchThreads_once (s : PipelineState) (b : VioBackEnd) :
  vio_backend_ s = Some b ->
  ((forall w, joinable (thread s w) = false) ->
   exists s',
     launchThreads s = Ret tt s' /\
     new_events s (launchThreads s) = map EvLaunchThread workers_in_order /\
     (forall w, thread s' w = Running) /\
     exists s'',
       launchThreads s' = Halt (StdTerminate backend_thread_) s'' /\
       new_events s' (launchThreads s') = [EvLaunchThread backend_thread_] /\
       (forall w, thread s'' w = Running)) /\
  (forall w, joinable (thread s w) = true ->
   exists pre w' s',
     launchThreads s = Halt (StdTerminate w') s' /\
     joinable (thread s w') = true /\
     new_events s (launchThreads s) = map EvLaunchThread (pre ++ [w']) /\
     Forall (fun v => joinable (thread s v) = false /\ thread s' v = Running)
            pre /\
     thread s' w' = thread s w').
Proof.
  intros Hb. split.
  - intros Hj.
    pose proof (Hj backend_thread_) as Eb.
    pose proof (Hj mesher_thread_) as Em.
    pose proof (Hj visualizer_thread_) as Ev.
    assert (Hrun : launchThreads s =
      Ret tt
        (set_thread
           (fun w' => if Worker_eqb visualizer_thread_ w' then Running
                      else if Worker_eqb mesher_thread_ w' then Running
                      else if Worker_eqb backend_thread_ w' then Running
                      else thread s w')
           (append_events (map EvLaunchThread workers_in_order) s))).
    { unfold launchThreads, start_thread, deref_vio_backend.
      run_threads Hb Eb Em Ev. unfold append_events. simpl.
      rewrite <- !app_assoc. reflexivity. }
    eexists. split; [ exact Hrun | ].
    split; [ rewrite Hrun; apply new_events_app; reflexivity | ].
    split; [ intros w; destruct w; reflexivity | ].
    match goal with |- exists s'', launchThreads ?s1 = _ /\ _ =>
      assert (Hagain : launchThreads s1 =
                Halt (StdTerminate backend_thread_)
                     (append_events [EvLaunchThread backend_thread_] s1))
    end.
    { unfold launchThreads. unfold bind at 1.
      rewrite (deref_vio_backend_Some _ b) by exact Hb.
      unfold bind at 1. rewrite start_thread_joinable by reflexivity.
      reflexivity. }
    eexists. split; [ exact Hagain | ].
    split; [ rewrite Hagain; apply new_events_app; reflexivity | ].
    intros w; destruct w; reflexivity.
  - intros w Hw.
    destruct (joinable (thread s backend_thread_)) eqn:Eb.
    { exists [], backend_thread_.
      assert (Hrun : launchThreads s =
                Halt (StdTerminate backend_thread_)
                     (append_events [EvLaunchThread backend_thread_] s)).
      { unfold launchThreads.
        unfold bind at 1. rewrite (deref_vio_backend_Some s b Hb).
        unfold bind at 1. rewrite start_thread_joinable by exact Eb.
        reflexivity. }
      eexists. split; [ exact Hrun | ].
      split; [ exact Eb | ].
      split; [ rewrite Hrun; apply new_events_app; reflexivity | ].
      split; [ constructor | reflexivity ]. }
    destruct (joinable (thread s mesher_thread_)) eqn:Em.
    { exists [backend_thread_], mesher_thread_.
      assert (Hrun : launchThreads s =
        Halt (StdTerminate mesher_thread_)
          (append_events [EvLaunchThread mesher_thread_]
             (set_thread
                (fun w' => if Worker_eqb backend_thread_ w' then Running
                           else thread s w')
                (append_events [EvLaunchThread backend_thread_] s)))).
      { unfold launchThreads.
        unfold bind at 1. rewrite (deref_vio_backend_Some s b Hb).
        unfold bind at 1. rewrite start_thread_fresh by exact Eb.
        unfold bind at 1. rewrite start_thread_joinable by exact Em.
        reflexivity. }
      eexists. split; [ exact Hrun | ].
      split; [ exact Em | ].
      split; [ rewrite Hrun; apply new_events_app; simpl;
               rewrite <- ?app_assoc; reflexivity | ].
      split; [ | reflexivity ].
      repeat constructor; auto. }
    destruct (joinable (thread s visualizer_thread_)) eqn:Ev.
    { exists [backend_thread_; mesher_thread_], visualizer_thread_.
      assert (Hrun : launchThreads s =
        Halt (StdTerminate visualizer_thread_)
          (append_events [EvLaunchThread visualizer_thread_]
             (set_thread
                (fun w' => if Worker_eqb mesher_thread_ w' then Running
                           else if Worker_eqb backend_thread_ w' then Running
                           else thread s w')
                (append_events [EvLaunchThread backend_thread_;
                                EvLaunchThread mesher_thread_] s)))).
      { unfold launchThreads, start_thread, deref_vio_backend.
        run_threads Hb Eb Em Ev. unfold append_events. simpl.
        rewrite <- ?app_assoc. reflexivity. }
      eexists. split; [ exact Hrun | ].
      split; [ exact Ev | ].
      split; [ rewrite Hrun; apply new_events_app; simpl;
               rewrite <- ?app_assoc; reflexivity | ].
      split; [ | reflexivity ].
      repeat constructor; auto. }
    destruct w; congruence.
Qed.

(** [joinThreads] returns exactly when the three workers are running and
    their input queues have been shut down.  It joins the workers in order
    and stops at the first one it cannot join, having joined the ones before
    it: a thread that is not joinable -- never started, or already joined --
    throws [std::system_error]; a running worker whose input queue is still
    open is waited for without end. *)
Theorem joinThreads_needs_running_threads (s : PipelineState) :
  ((forall w, thread s w = Running) ->
   (forall w, queue_shutdown s (worker_input_queue w) = true) ->
   exists s',
     joinThreads s = Ret tt s' /\
     new_events s (joinThreads s) = map EvJoin workers_in_order /\
     (forall w, thread s' w = Joined)) /\
  (forall w,
     joinable (thread s w) = false \/
     queue_shutdown s (worker_input_queue w) = false ->
   exists pre w' s',
     (joinable (thread s w') = false /\
      joinThreads s = Halt (StdSystemError w') s' \/
      thread s w' = Running /\
      queue_shutdown s (worker_input_queue w') = false /\
      joinThreads s = Halt (JoinBlocked w') s') /\
     new_events s (joinThreads s) = map EvJoin (pre ++ [w']) /\
     Forall (fun v => thread s v = Running /\
                      queue_shutdown s (worker_input_queue v) = true /\
                      thread s' v = Joined) pre /\
     thread s' w' = thread s w').
Proof.
  split.
  - intros Hr Hq.
    destruct (joinThreads_Ret s Hr Hq) as (s' & R & Tr & Th & _).
    exists s'. split; [ exact R | ].
    split; [ rewrite R; apply new_events_app; exact Tr | exact Th ].
  - intros w Hw.
    assert (Hb : joinable (thread s backend_thread_) = false \/
                 thread s backend_thread_ = Running)
      by (destruct (thread s backend_thread_); auto).
    destruct Hb as [Eb | Eb].
    { exists [], backend_thread_.
      assert (Hrun : joinThreads s =
                Halt (StdSystemError backend_thread_)
                     (append_events [EvJoin backend_thread_] s)).
      { unfold joinThreads. unfold bind at 1.
        rewrite join_not_joinable by exact Eb. reflexivity. }
      eexists. split; [ left; split; [ exact Eb | exact Hrun ] | ].
      split; [ rewrite Hrun; apply new_events_app; reflexivity | ].
      split; [ constructor | reflexivity ]. }
    destruct (queue_shutdown s (worker_input_queue backend_thread_)) eqn:Qb.
    2:{ exists [], backend_thread_.
      assert (Hrun : joinThreads s =
                Halt (JoinBlocked backend_thread_)
                     (append_events [EvJoin backend_thread_] s)).
      { unfold joinThreads. unfold bind at 1.
        rewrite join_blocked by assumption. reflexivity. }
      eexists. split; [ right; repeat split; [ exact Eb | exact Qb | exact Hrun ] | ].
      split; [ rewrite Hrun; apply new_events_app; reflexivity | ].
      split; [ constructor | reflexivity ]. }
    set (s1 := set_thread
                 (fun w' => if Worker_eqb backend_thread_ w' then Joined
                            else thread s w')
                 (append_events [EvJoin backend_thread_] s)).
    assert (Hm : joinable (thread s mesher_thread_) = false \/
                 thread s mesher_thread_ = Running)
      by (destruct (thread s mesher_thread_); auto).
    destruct Hm as [Em | Em].
    { exists [backend_thread_], mesher_thread_.
      assert (Hrun : joinThreads s =
                Halt (StdSystemError mesher_thread_)
                     (append_events [EvJoin mesher_thread_] s1)).
      { unfold joinThreads. unfold bind at 1.
        rewrite join_running by assumption.
        unfold bind at 1.
        rewrite join_not_joinable by exact Em. reflexivity. }
      eexists. split; [ left; split; [ exact Em | exact Hrun ] | ].
      split; [ rewrite Hrun; apply new_events_app; simpl;
               rewrite <- ?app_assoc; reflexivity | ].
      split; [ repeat constructor; auto | reflexivity ]. }
    destruct (queue_shutdown s (worker_input_queue mesher_thread_)) eqn:Qm.
    2:{ exists [backend_thread_], mesher_thread_.
      assert (Hrun : joinThreads s =
                Halt (JoinBlocked mesher_thread_)
                     (append_events [EvJoin mesher_thread_] s1)).
      { unfold joinThreads. unfold bind at 1.
        rewrite join_running by assumption.
        unfold bind at 1.
        rewrite join_blocked by assumption. reflexivity. }
      eexists. split; [ right; repeat split; [ exact Em | exact Qm | exact Hrun ] | ].
      split; [ rewrite Hrun; apply new_events_app; simpl;
               rewrite <- ?app_assoc; reflexivity | ].
      split; [ repeat constructor; auto | reflexivity ]. }
    set (s2 := set_thread
                 (fun w' => if Worker_eqb mesher_thread_ w' then Joined
                            else thread s1 w')
                 (append_events [EvJoin mesher_thread_] s1)).
    assert (Hv : joinable (thread s visualizer_thread_) = false \/
                 thread s visualizer_thread_ = Running)
      by (destruct (thread s visualizer_thread_); auto).
    destruct Hv as [Ev | Ev].
    { exists [backend_thread_; mesher_thread_], visualizer_thread_.
      assert (Hrun : joinThreads s =
                Halt (StdSystemError visualizer_thread_)
                     (append_events [EvJoin visualizer_thread_] s2)).
      { unfold joinThreads. unfold bind at 1.
        rewrite join_running by assumption.
        unfold bind at 1.
        rewrite join_running by assumption.
        rewrite join_not_joinable by exact Ev. reflexivity. }
      eexists. split; [ left; split; [ exact Ev | exact Hrun ] | ].
      split; [ rewrite Hrun; apply new_events_app; simpl;
               rewrite <- ?app_assoc; reflexivity | ].
      split; [ repeat constructor; auto | reflexivity ]. }
    destruct (queue_shutdown s (worker_input_queue visualizer_thread_)) eqn:Qv.
    2:{ exists [backend_thread_; mesher_thread_], visualizer_thread_.
      assert (Hrun : joinThreads s =
                Halt (JoinBlocked visualizer_thread_)
                     (append_events [EvJoin visualizer_thread_] s2)).
      { unfold joinThreads. unfold bind at 1.
        rewrite join_running by assumption.
        unfold bind at 1.
        rewrite join_running by assumption.
        rewrite join_blocked by assumption. reflexivity. }
      eexists. split; [ right; repeat split; [ exact Ev | exact Qv | exact Hrun ] | ].
      split; [ rewrite Hrun; apply new_events_app; simpl;
               rewrite <- ?app_assoc; reflexivity | ].
      split; [ repeat constructor; auto | reflexivity ]. }
    exfalso. destruct Hw as [Hw | Hw]; destruct w;
      rewrite ?Eb, ?Em, ?Ev, ?Qb, ?Qm, ?Qv in Hw; simpl in Hw; discriminate.
Qed.
(** [stopThreads] shuts down all six queues and the three workers, whatever
    state the queues were in, and touches neither the threads nor the
    shutdown flag: stopping is not joining. *)
Theorem stopThreads_shuts_every_queue (s : PipelineState) (b : VioBackEnd) :
  vio_backend_ s = Some b ->
  exists s',
    stopThreads s = Ret tt s' /\
    new_events s (stopThreads s) = stop_events /\
    (forall q, queue_shutdown s' q = true) /\
    (forall w, thread s' w = thread s w) /\
    shutdown_ s' = shutdown_ s /\
    count is_join (new_events s (stopThreads s)) = 0%nat.
Proof.
  intros Hb.
  assert (Hev : new_events s (stopThreads s) = stop_events).
  { apply new_events_app.
    unfold stopThreads, shutdown_queue, deref_vio_backend.
    run_threads Hb Hb Hb Hb. rewrite <- !app_assoc. reflexivity. }
  rewrite Hev.
  unfold stopThreads, shutdown_queue, deref_vio_backend.
  eexists. split.
  { run_threads Hb Hb Hb Hb. reflexivity. }
  split; [ reflexivity | ].
  split; [ intros q; destruct q; reflexivity | ].
  repeat split.
Qed.

(** [shutdown] on a pipeline whose back-end was never constructed (no [spin]
    went through yet): the flag is set and the two back-end queues are shut
    down, then [vio_backend_->shutdown()] dereferences the null pointer.  The
    mesher and visualizer queues are left as they were and no thread is
    joined. *)
Theorem shutdown_without_backend (s : PipelineState) :
  vio_backend_ s = None ->
  exists s',
    shutdown s = Halt NullBackend s' /\
    new_events s (shutdown s) =
      [EvQueueShutdown backend_input_queue_;
       EvQueueShutdown backend_output_queue_] /\
    shutdown_ s' = true /\
    (forall q, queue_shutdown s' q =
               match q with
               | backend_input_queue_ | backend_output_queue_ => true
               | _ => queue_shutdown s q
               end) /\
    (forall w, thread s' w = thread s w).
Proof.
  intros Hb.
  unfold shutdown, stopThreads, shutdown_queue, deref_vio_backend.
  eexists. split.
  { run_threads Hb Hb Hb Hb. reflexivity. }
  split.
  { apply new_events_app. run_threads Hb Hb Hb Hb.
    rewrite <- !app_assoc. reflexivity. }
  split; [ reflexivity | ].
  split; [ intros q; destruct q; reflexivity | reflexivity ].
Qed.

End Threads.

Section DisplayAndAccumulation.
Context {T : ExternalTypes} {FE : Type} {F : StereoVisionFrontEnd FE}
        {E : Environment}.

Local Abbreviation PipelineState := (Pipeline FE).

(** [spinDisplayOnce] always returns and changes nothing but what is on
    screen.  Given a payload it spins the 3D window unless the payload's
    type is NONE, shows every image once, in order, and calls [waitKey]
    once, images or not; given a null payload it only logs that the
    visualizer is lagging. *)
Theorem spinDisplayOnce_shows_every_image
    (out : option VisualizerOutputPayload) (s : PipelineState) :
  exists s',
    spinDisplayOnce out s = Ret tt s' /\
    s' = set_trace (trace s') s /\
    new_events s (spinDisplayOnce out s) =
      match out with
      | Some o =>
          (if is_NONE (visualization_type_ o) then [] else [EvWindowSpinOnce])
          ++ map (fun i => EvImshow (fst i)) (images_to_display_ o)
          ++ [EvWaitKey]
      | None => [EvWarning Visualizer_is_lagging_behind_pipeline_processing]
      end.
Proof.
  destruct out as [o |]; unfold spinDisplayOnce, when.
  - destruct (is_NONE (visualization_type_ o));
      cbv beta iota delta [bind ret emit modify negb];
      rewrite imshow_all_Ret; unfold append_events; simpl;
      (eexists; split; [ reflexivity | ]; split; [ reflexivity | ]);
      apply new_events_app; simpl; rewrite <- ?app_assoc; reflexivity.
  - eexists. split; [ reflexivity | ]. split; [ reflexivity | ].
    apply new_events_app. reflexivity.
Qed.

Lemma accumulate_imu_from_empty p (s : PipelineState) :
  imu_stamps_lkf_to_curr_f s = [] ->
  accumulate_imu p s = Ret tt (accumulated p s).
Proof.
  intros Hs.
  cbv beta zeta delta [accumulate_imu accumulated bind gets modify CHECK ret].
  rewrite Hs. reflexivity.
Qed.

(** What a returning accumulation block leaves is the accumulated state. *)
Lemma accumulate_imu_Ret_inv p (s s1 : PipelineState) :
  accumulate_imu p s = Ret tt s1 -> s1 = accumulated p s.
Proof.
  destruct (imu_stamps_lkf_to_curr_f s) as [| t0 buf] eqn:Eb.
  - rewrite (accumulate_imu_from_empty p s Eb). congruence.
  - assert (Hb : imu_stamps_lkf_to_curr_f s <> []) by congruence.
    destruct (getImuStamps p) as [| t1 w] eqn:Es.
    { cbv beta zeta delta [accumulate_imu bind gets modify CHECK ret halt].
      rewrite Eb, Es. simpl. discriminate. }
    destruct (getImuAccGyr p) as [| a1 wa] eqn:Ea.
    { cbv beta zeta delta [accumulate_imu bind gets modify CHECK ret halt].
      rewrite Eb, Es, Ea. simpl. discriminate. }
    destruct (imu_accgyr_lkf_to_curr_f s) as [| a0 bufa] eqn:Eab.
    { cbv beta zeta delta [accumulate_imu bind gets modify CHECK ret halt].
      rewrite Eb, Es, Ea. simpl. rewrite Eab. simpl. discriminate. }
    assert (Hp : packet_nonempty p).
    { split; congruence. }
    assert (Hc : buffers_coherent s).
    { unfold buffers_coherent. rewrite Eb, Eab. split; discriminate. }
    rewrite (accumulate_imu_Ret p s Hp Hc). congruence.
Qed.

(** With samples already accumulated, a packet whose window is empty kills
    the process at a [CHECK_GT], before the back-end or the front-end is
    called: at the check on the stamps, with the state untouched, if the
    stamps are missing; at the check on the measurements if only they are. *)
Theorem spinOnce_empty_window_is_fatal p (s : PipelineState) :
  imu_stamps_lkf_to_curr_f s <> [] ->
  (getImuStamps p = [] ->
   spinOnce p s = Halt (LogFatal CHECK_GT_imu_stamps_cols) s) /\
  (getImuStamps p <> [] -> getImuAccGyr p = [] ->
   exists s',
     spinOnce p s = Halt (LogFatal CHECK_GT_imu_accgyr_cols) s' /\
     new_events s (spinOnce p s) = []).
Proof.
  intros Hb. split.
  - intros Es.
    assert (H : accumulate_imu p s
                = Halt (LogFatal CHECK_GT_imu_stamps_cols) s).
    { cbv beta zeta delta [accumulate_imu bind gets modify CHECK ret halt].
      cbv beta iota.
      rewrite (length_pos_eqb _ Hb), Es. reflexivity. }
    unfold spinOnce. rewrite (bind_halt _ _ _ _ _ H). reflexivity.
  - intros Hs Ea.
    assert (H : exists s', accumulate_imu p s
                = Halt (LogFatal CHECK_GT_imu_accgyr_cols) s' /\
                trace s' = trace s).
    { cbv beta zeta delta [accumulate_imu bind gets modify CHECK ret halt].
      cbv beta iota.
      rewrite (length_pos_eqb _ Hb), (length_pos_ltb _ Hs),
        (length_pos_ltb _ Hb), Ea.
      simpl. eexists. split; reflexivity. }
    destruct H as (s' & H & Ht). exists s'.
    unfold spinOnce. rewrite (bind_halt _ _ _ _ _ H).
    split; [ reflexivity | ].
    apply new_events_app. simpl. rewrite app_nil_r. exact Ht.
Qed.

Lemma spinOnce_shape_from p (s : PipelineState) b :
  vio_backend_ s = Some b ->
  accumulate_imu p s = Ret tt (accumulated p s) ->
  spinOnce p s =
  bind (if isKeyframe (stereoFrame_km1_ (snd (tracked p s)))
        then dispatch_and_reset p s else ret tt)
       (fun _ => modify (set_ssm None))
       (after_tracking p s).
Proof.
  intros Hb Hacc. unfold spinOnce.
  rewrite (bind_step _ _ _ _ _ Hacc).
  unfold bind at 1, modify at 1.
  unfold bind at 1, gets at 1.
  unfold bind at 1, gets at 1.
  rewrite (bind_step view_vio_backend _ _ (backend_view (trace s))
             (init_static_timestamp_lkf (accumulated p s))).
  2:{ erewrite view_vio_backend_Ret; [ reflexivity | exact Hb ]. }
  unfold bind at 1, emit at 1, modify at 1.
  unfold bind at 1, gets at 1.
  unfold bind at 1, emit at 1, modify at 1.
  unfold bind at 1, modify at 1.
  unfold bind at 1, modify at 1.
  unfold after_tracking, dispatch_and_reset, tracked, tracking_prior,
    window_stamps, window_accgyr.
  cbn [trace set_trace init_static_timestamp_lkf set_timestamp_lkf upd
       imu_stamps_lkf_to_curr_f imu_accgyr_lkf_to_curr_f
       stereo_vision_frontend_].
  rewrite <- app_assoc. reflexivity.
Qed.

(** What spinOnce does once the tracker has run: a dispatch, or nothing. *)
Lemma after_tracking_avoids c p (s s0 : PipelineState) :
  c = is_tracking \/ c = is_preintegration ->
  avoids c
    (bind (if isKeyframe (stereoFrame_km1_ (snd (tracked p s)))
           then dispatch_and_reset p s else ret tt)
          (fun _ => modify (set_ssm None))) s0.
Proof.
  intros Hc.
  destruct (isKeyframe (stereoFrame_km1_ (snd (tracked p s))));
    unfold dispatch_and_reset, processKeyframe, feature_selector_block,
      backend_block, mesh_block, visualize_block;
    destruct Hc as [-> | ->]; avoid.
Qed.

Lemma spinOnce_tracking_events p (s : PipelineState) b :
  vio_backend_ s = Some b ->
  accumulate_imu p s = Ret tt (accumulated p s) ->
  exists d,
    new_events s (spinOnce p s) =
      EvPreintegrateGyro (window_stamps p s) (window_accgyr p s)
      :: EvProcessStereoFrame (getStereoFrame p) (tracking_prior p s) :: d /\
    count is_tracking d = 0%nat /\ count is_preintegration d = 0%nat.
Proof.
  intros Hb Hacc. rewrite (spinOnce_shape_from p s b Hb Hacc).
  destruct (after_tracking_avoids is_tracking p s (after_tracking p s)
              (or_introl eq_refl)) as [_ (d & Hd & Nd)].
  destruct (after_tracking_avoids is_preintegration p s (after_tracking p s)
              (or_intror eq_refl)) as [_ (d' & Hd' & Nd')].
  assert (d' = d) by (eapply delta_unique; eauto). subst d'.
  exists d. split; [ | auto ].
  apply new_events_app. rewrite Hd. unfold after_tracking. simpl.
  rewrite <- app_assoc. reflexivity.
Qed.

(** Right after a keyframe reset -- the stamps buffer is empty -- no check
    stands in the way of the packet's window: it is taken as it is, empty or
    not, and whatever the measurements buffer held; the preintegration is
    asked over exactly that window and the tracker is given its answer. *)
Theorem spinOnce_after_reset_takes_window_verbatim p (s : PipelineState) b :
  vio_backend_ s = Some b ->
  imu_stamps_lkf_to_curr_f s = [] ->
  exists d,
    new_events s (spinOnce p s) =
      EvPreintegrateGyro (getImuStamps p) (getImuAccGyr p)
      :: EvProcessStereoFrame (getStereoFrame p)
           (preintegrateGyroMeasurements (backend_view (trace s))
              (getImuStamps p) (getImuAccGyr p))
      :: d /\
    count is_tracking d = 0%nat /\ count is_preintegration d = 0%nat.
Proof.
  intros Hb Hs.
  destruct (spinOnce_tracking_events p s b Hb
              (accumulate_imu_from_empty p s Hs)) as (d & Hd & N).
  exists d. split; [ | exact N ]. rewrite Hd.
  unfold tracking_prior, window_stamps, window_accgyr, accumulated.
  simpl. rewrite Hs. reflexivity.
Qed.

End DisplayAndAccumulation.

Section FrameOrder.
Context {T : ExternalTypes} {FE : Type} {F : StereoVisionFrontEnd FE}
        {E : Environment}.

Local Abbreviation PipelineState := (Pipeline FE).

Lemma tracked_frames_app d1 d2 :
  tracked_frames (d1 ++ d2) = tracked_frames d1 ++ tracked_frames d2.
Proof. unfold tracked_frames. apply flat_map_app. Qed.

Lemma first_frames_app d1 d2 :
  first_frames (d1 ++ d2) = first_frames d1 ++ first_frames d2.
Proof. unfold first_frames. apply flat_map_app. Qed.

Lemma tracked_frames_quiet d :
  count is_tracking d = 0%nat -> tracked_frames d = [].
Proof.
  induction d as [| e d IH]; [ reflexivity | ].
  rewrite count_cons. destruct e; simpl; try discriminate; exact IH.
Qed.

Lemma first_frames_quiet d :
  count is_first_frame d = 0%nat -> first_frames d = [].
Proof.
  induction d as [| e d IH]; [ reflexivity | ].
  rewrite count_cons. destruct e; simpl; try discriminate; exact IH.
Qed.

Lemma spinOnce_null_backend p (s : PipelineState) :
  vio_backend_ s = None ->
  exists h s', spinOnce p s = Halt h s'.
Proof.
  intros Hb. unfold spinOnce.
  destruct (accumulate_imu p s) as [[] s1 | h s1] eqn:Hacc.
  - pose proof (accumulate_imu_Ret_inv p s s1 Hacc) as ->.
    rewrite (bind_step _ _ _ _ _ Hacc).
    unfold bind at 1, modify at 1.
    unfold bind at 1, gets at 1.
    unfold bind at 1, gets at 1.
    assert (Hv : view_vio_backend
                   (init_static_timestamp_lkf (accumulated p s))
                 = Halt NullBackend
                     (init_static_timestamp_lkf (accumulated p s))).
    { unfold view_vio_backend, deref_vio_backend.
      cbv beta delta [bind gets halt]. simpl. rewrite Hb. reflexivity. }
    rewrite (bind_halt _ _ _ _ _ Hv). eauto.
  - rewrite (bind_halt _ _ _ _ _ Hacc). eauto.
Qed.

Lemma spinOnce_avoids_first_frame p (s : PipelineState) :
  avoids is_first_frame (spinOnce p) s.
Proof.
  unfold spinOnce, accumulate_imu, processKeyframe, feature_selector_block,
    backend_block, mesh_block, visualize_block.
  avoid.
Qed.

Lemma spinOnce_Ret_frames p (s s' : PipelineState) :
  spinOnce p s = Ret tt s' ->
  exists d, trace s' = trace s ++ d /\
    tracked_frames d = [getStereoFrame p] /\ first_frames d = [].
Proof.
  intros HR.
  destruct (vio_backend_ s) as [b |] eqn:Hb.
  2:{ destruct (spinOnce_null_backend p s Hb) as (h & s1 & H).
      rewrite H in HR. discriminate. }
  assert (Hacc : accumulate_imu p s = Ret tt (accumulated p s)).
  { unfold spinOnce in HR. apply bind_Ret in HR as ([] & s1 & Hacc & _).
    rewrite Hacc. f_equal. apply accumulate_imu_Ret_inv, Hacc. }
  destruct (spinOnce_tracking_events p s b Hb Hacc) as (d & Hd & N & _).
  destruct (avoids_events _ _ _ (spinOnce_avoids_first_frame p s))
    as [Ht Nf].
  rewrite HR in Ht, Nf, Hd. simpl in Ht.
  eexists. split; [ exact Ht | ].
  split.
  - rewrite Hd. simpl. rewrite (tracked_frames_quiet _ N). reflexivity.
  - apply first_frames_quiet, Nf.
Qed.

Lemma spinOnce_all_Ret_frames packets : forall (s s' : PipelineState),
  spinOnce_all packets s = Ret tt s' ->
  exists d, trace s' = trace s ++ d /\
    tracked_frames d = map getStereoFrame packets /\ first_frames d = [].
Proof.
  induction packets as [| p rest IH]; intros s s' HR.
  - inversion HR; subst. exists []. rewrite app_nil_r. auto.
  - cbn [spinOnce_all] in HR.
    apply bind_Ret in HR as ([] & s1 & H1 & HR).
    destruct (spinOnce_Ret_frames p s s1 H1) as (d1 & Hd1 & T1 & F1).
    destruct (IH s1 s' HR) as (d2 & Hd2 & T2 & F2).
    exists (d1 ++ d2). split; [ rewrite Hd2, Hd1, app_assoc; reflexivity | ].
    rewrite tracked_frames_app, first_frames_app, T1, T2, F1, F2.
    split; reflexivity.
Qed.

Lemma bootstrap_Ret_frames p (s s' : PipelineState) r :
  bootstrap p s = Ret r s' ->
  is_initialized s' = true /\
  exists d, trace s' = trace s ++ d /\
    tracked_frames d = [] /\ first_frames d = [getStereoFrame p].
Proof.
  intros HR. split.
  - unfold bootstrap in HR.
    apply bind_Ret in HR as (r1 & s1 & _ & HR).
    apply bind_Ret in HR as (r2 & s2 & _ & HR).
    apply bind_Ret in HR as (r3 & s3 & H3 & HR).
    unfold modify in H3. unfold ret in HR.
    inversion H3; inversion HR; subst. reflexivity.
  - destruct (avoids_Ret _ _ _ _ _ (bootstrap_avoids p s) HR)
      as [_ (d & Hd & N)].
    exists d. split; [ exact Hd | ]. split.
    + apply tracked_frames_quiet. eapply count_le; [ | exact N ].
      intros e He. unfold is_per_frame, is_frame_traffic.
      rewrite He, ?orb_true_r. reflexivity.
    + revert HR Hd. unfold bootstrap, initialize.
      match goal with
      | |- bind (bind (emit ?e) ?k1) ?K s = _ -> _ =>
          change (bind (bind (emit e) k1) K s)
            with (bind (k1 tt) K (set_trace (trace s ++ [e]) s));
          assert (Hav : avoids is_first_frame (bind (k1 tt) K)
                          (set_trace (trace s ++ [e]) s))
      end.
      { unfold initBackend, launchThreads. avoid. }
      intros HR Hd.
      destruct (avoids_Ret _ _ _ _ _ Hav HR) as [_ (d' & Hd' & N')].
      simpl in Hd'. rewrite <- app_assoc in Hd'.
      assert (d = [EvProcessFirstStereoFrame (getStereoFrame p)] ++ d')
        by (eapply delta_unique; eauto).
      subst d. rewrite first_frames_app, (first_frames_quiet _ N').
      reflexivity.
Qed.

(** No frame is dropped, repeated or reordered: over a run of [spin] calls
    that returns, the first packet's frame goes to [processFirstStereoFrame]
    and to nothing else, and the frames of the later packets go to
    [processStereoFrame], each once, in the order delivered. *)
Theorem spin_all_tracks_frames_in_order
    (packets : list StereoImuSyncPacket) (s s' : PipelineState) :
  is_initialized s = false ->
  spin_all packets s = Ret tt s' ->
  first_frames (new_events s (spin_all packets s))
    = map getStereoFrame (firstn 1 packets) /\
  tracked_frames (new_events s (spin_all packets s))
    = map getStereoFrame (skipn 1 packets).
Proof.
  intros Hi HR. rewrite HR.
  destruct packets as [| p rest].
  - inversion HR; subst.
    rewrite (new_events_app s' (Ret tt s') [] (eq_sym (app_nil_r _))).
    split; reflexivity.
  - cbn [spin_all] in HR.
    apply bind_Ret in HR as (r & s1 & H1 & HR).
    rewrite (spin_first p s Hi) in H1.
    destruct (bootstrap_Ret_frames p s s1 r H1)
      as (Hi1 & d1 & Hd1 & T1 & F1).
    rewrite (spin_all_later rest s1 Hi1) in HR.
    destruct (spinOnce_all_Ret_frames rest s1 s' HR) as (d2 & Hd2 & T2 & F2).
    rewrite (new_events_app s (Ret tt s') (d1 ++ d2)).
    2:{ simpl. rewrite Hd2, Hd1, app_assoc. reflexivity. }
    rewrite tracked_frames_app, first_frames_app, T1, T2, F1, F2.
    split; reflexivity.
Qed.

End FrameOrder.

Section PerFrameState.
Context {T : ExternalTypes} {FE : Type} {F : StereoVisionFrontEnd FE}
        {E : Environment}.

Local Abbreviation PipelineState := (Pipeline FE).

Lemma keeps_tail {A B X} (f : PipelineState -> X) (m : M FE A)
    (k : A -> M FE B) s :
  (forall a s1, keeps f (k a) s1) ->
  f (final (bind m k s)) = f (final (m s)).
Proof.
  intros H. unfold bind. destruct (m s) as [a s1 | h s1]; [ apply H | ].
  reflexivity.
Qed.

Lemma spinOnce_keeps_lifecycle p (s : PipelineState) :
  keeps lifecycle (spinOnce p) s.
Proof.
  unfold spinOnce, accumulate_imu, processKeyframe, feature_selector_block,
    backend_block, mesh_block, visualize_block.
  keep.
Qed.

(** Once the pipeline is initialized, no [spin] call manages the life cycle:
    whatever its outcome -- return, fatal check or blocked pop -- the
    back-end object, the state of the three threads and of the six queues,
    the shutdown and initialized flags and the configuration are as they
    were. *)
Theorem spin_leaves_lifecycle_alone
    (packets : list StereoImuSyncPacket) : forall (s : PipelineState),
  is_initialized s = true ->
  lifecycle (final (spin_all packets s)) = lifecycle s.
Proof.
  intros s Hi. rewrite (spin_all_later packets s Hi). clear Hi.
  revert s. induction packets as [| p rest IH]; intros s.
  - reflexivity.
  - cbn [spinOnce_all].
    change (keeps lifecycle
              (bind (spinOnce p) (fun _ => spinOnce_all rest)) s).
    apply keeps_bind; [ apply spinOnce_keeps_lifecycle | ].
    intros a s1 _. apply IH.
Qed.

Lemma dispatch_body_keeps_frontend lf tk tlkf st ag (s : PipelineState) :
  keeps (fun s => (stereo_vision_frontend_ s, vio_backend_ s))
    (dispatch_body lf tk tlkf st ag) s.
Proof.
  unfold dispatch_body, feature_selector_block, backend_block, mesh_block,
    visualize_block.
  keep.
Qed.

Lemma spinOnce_Ret_state p (s s' : PipelineState) b :
  vio_backend_ s = Some b -> packet_nonempty p -> buffers_coherent s ->
  spinOnce p s = Ret tt s' ->
  let fe' := snd (processStereoFrame (getStereoFrame p) (tracking_prior p s)
                    (stereo_vision_frontend_ s)) in
  stereo_vision_frontend_ s' = fe' /\
  vio_backend_ s' = Some b /\
  buffers_coherent s' /\
  if isKeyframe (stereoFrame_km1_ fe')
  then imu_stamps_lkf_to_curr_f s' = [] /\
       imu_accgyr_lkf_to_curr_f s' = [] /\
       timestamp_lkf_value s' = getTimestamp (getStereoFrame p)
  else imu_stamps_lkf_to_curr_f s'
         = imu_append (imu_stamps_lkf_to_curr_f s) (getImuStamps p) /\
       imu_accgyr_lkf_to_curr_f s'
         = imu_append (imu_accgyr_lkf_to_curr_f s) (getImuAccGyr p) /\
       timestamp_lkf_value s' = timestamp_lkf_value s.
Proof.
  intros Hb Hp Hc HR fe'.
  change fe' with (snd (tracked p s)).
  destruct (isKeyframe (stereoFrame_km1_ (snd (tracked p s)))) eqn:Hk.
  - rewrite (spinOnce_keyframe p s b Hb Hp Hc Hk) in HR.
    apply bind_Ret in HR as ([] & s2 & H2 & HR).
    apply bind_Ret in H2 as ([] & s1 & H1 & H2).
    match type of H1 with
    | dispatch_body ?a1 ?a2 ?a3 ?a4 ?a5 ?st = _ =>
        pose proof (dispatch_body_keeps_frontend a1 a2 a3 a4 a5 st) as Hkeep
    end.
    unfold keeps in Hkeep. rewrite H1 in Hkeep. simpl in Hkeep.
    inversion Hkeep as [[Hfe Hbe]].
    unfold reset_after_dispatch in H2.
    cbv beta delta [bind modify] in H2. inversion H2; subst s2; clear H2.
    unfold modify in HR. inversion HR; subst s'; clear HR.
    simpl. rewrite Hfe, Hbe.
    repeat split; auto.
  - rewrite (spinOnce_no_keyframe p s b Hb Hp Hc Hk) in HR.
    inversion HR; subst s'; clear HR.
    split; [ reflexivity | ].
    split; [ exact Hb | ].
    split.
    { pose proof (accumulated_coherent p s Hp) as Ha.
      unfold buffers_coherent in *. simpl. exact Ha. }
    split; [ reflexivity | ].
    split; [ apply (window_accgyr_rule p s Hc) | reflexivity ].
Qed.

(** What a frame leaves for the next one.  The front-end is in the state the
    tracker returned.  If the frame dispatched, both accumulation buffers
    are empty and the last-keyframe timestamp is this frame's; if not, the
    buffers hold the accumulated window and the last-keyframe timestamp is
    unchanged.  Either way the two buffers are still empty together. *)
Theorem spinOnce_resets_only_on_dispatch p (s s' : PipelineState) b :
  vio_backend_ s = Some b -> packet_nonempty p -> buffers_coherent s ->
  spinOnce p s = Ret tt s' ->
  let fe' := snd (processStereoFrame (getStereoFrame p) (tracking_prior p s)
                    (stereo_vision_frontend_ s)) in
  stereo_vision_frontend_ s' = fe' /\
  vio_backend_ s' = Some b /\
  buffers_coherent s' /\
  if isKeyframe (stereoFrame_km1_ fe')
  then imu_stamps_lkf_to_curr_f s' = [] /\
       imu_accgyr_lkf_to_curr_f s' = [] /\
       timestamp_lkf_value s' = getTimestamp (getStereoFrame p)
  else imu_stamps_lkf_to_curr_f s'
         = imu_append (imu_stamps_lkf_to_curr_f s) (getImuStamps p) /\
       imu_accgyr_lkf_to_curr_f s'
         = imu_append (imu_accgyr_lkf_to_curr_f s) (getImuAccGyr p) /\
       timestamp_lkf_value s' = timestamp_lkf_value s.
Proof.
  intros Hb Hp Hc HR. exact (spinOnce_Ret_state p s s' b Hb Hp Hc HR).
Qed.

Lemma accumulate_imu_keeps_trace p (s : PipelineState) :
  keeps (fun s => trace s) (accumulate_imu p) s.
Proof. unfold accumulate_imu. keep. Qed.

Lemma spinOnce_halts_on_null_backend p (s s1 : PipelineState) :
  vio_backend_ s = None ->
  accumulate_imu p s = Ret tt s1 ->
  spinOnce p s = Halt NullBackend (init_static_timestamp_lkf s1).
Proof.
  intros Hb Hacc.
  assert (Hb1 : vio_backend_ s1 = None).
  { rewrite (accumulate_imu_Ret_inv p s s1 Hacc). exact Hb. }
  unfold spinOnce. rewrite (bind_step _ _ _ _ _ Hacc).
  unfold bind at 1, modify at 1.
  unfold bind at 1, gets at 1.
  unfold bind at 1, gets at 1.
  unfold bind at 1, view_vio_backend, deref_vio_backend.
  unfold bind, gets, halt. simpl. rewrite Hb1. reflexivity.
Qed.

(** The rotation prior of the tracker is taken over the whole accumulated
    window.  When the accumulation checks let the packet through and the
    back-end exists, then -- whatever happens afterwards in the frame -- the
    preintegration is asked once, over the two buffers as the accumulation
    left them, and the tracker runs once, on this packet's frame, with the
    rotation that query returned; the stamps buffer then holds the samples
    accumulated since the last dispatch including this packet's, and so does
    the measurements buffer when the two buffers were empty together.  A
    packet with a non-empty window on such buffers always passes the checks.
    A frame that dies in the accumulation checks, or that finds no back-end,
    makes neither call. *)
Theorem tracker_prior_spans_accumulated_window p (s : PipelineState) :
  let d := new_events s (spinOnce p s) in
  (forall b s1,
     vio_backend_ s = Some b -> accumulate_imu p s = Ret tt s1 ->
     let stamps := imu_stamps_lkf_to_curr_f s1 in
     let accgyr := imu_accgyr_lkf_to_curr_f s1 in
     filter is_preintegration d = [EvPreintegrateGyro stamps accgyr] /\
     filter is_tracking d
       = [EvProcessStereoFrame (getStereoFrame p)
            (preintegrateGyroMeasurements (backend_view (trace s))
               stamps accgyr)] /\
     stamps = imu_append (imu_stamps_lkf_to_curr_f s) (getImuStamps p) /\
     (buffers_coherent s ->
      accgyr = imu_append (imu_accgyr_lkf_to_curr_f s) (getImuAccGyr p))) /\
  (packet_nonempty p -> buffers_coherent s ->
   exists s1, accumulate_imu p s = Ret tt s1) /\
  (forall h s1,
     accumulate_imu p s = Halt h s1 ->
     spinOnce p s = Halt h s1 /\ d = []) /\
  (vio_backend_ s = None ->
   filter is_preintegration d = [] /\ filter is_tracking d = []).
Proof.
  intros d. subst d.
  split; [ | split; [ | split ] ].
  - intros b s1 Hb Hacc stamps accgyr. subst stamps accgyr.
    pose proof (accumulate_imu_Ret_inv p s s1 Hacc) as ->.
    destruct (spinOnce_tracking_events p s b Hb Hacc) as (d & Hd & N1 & N2).
    rewrite Hd. unfold tracking_prior.
    simpl. rewrite (count_zero_filter _ _ N1), (count_zero_filter _ _ N2).
    split; [ reflexivity | ].
    split; [ reflexivity | ].
    split; [ apply window_stamps_rule | ].
    intros Hc. apply (window_accgyr_rule p s Hc).
  - intros Hp Hc. eexists. apply (accumulate_imu_Ret p s Hp Hc).
  - intros h s1 Hacc.
    assert (Hrun : spinOnce p s = Halt h s1).
    { unfold spinOnce. rewrite (bind_halt _ _ _ _ _ Hacc). reflexivity. }
    split; [ exact Hrun | ].
    rewrite Hrun. apply new_events_app.
    pose proof (accumulate_imu_keeps_trace p s) as Hk.
    unfold keeps in Hk. rewrite Hacc in Hk. simpl in Hk.
    simpl. rewrite Hk, app_nil_r. reflexivity.
  - intros Hb.
    pose proof (accumulate_imu_keeps_trace p s) as Hk. unfold keeps in Hk.
    assert (Hd : new_events s (spinOnce p s) = []).
    { destruct (accumulate_imu p s) as [[] s1 | h s1] eqn:Hacc.
      - rewrite (spinOnce_halts_on_null_backend p s s1 Hb Hacc).
        apply new_events_app. simpl in *. rewrite Hk, app_nil_r.
        reflexivity.
      - unfold spinOnce. rewrite (bind_halt _ _ _ _ _ Hacc).
        apply new_events_app. simpl in *. rewrite Hk, app_nil_r.
        reflexivity. }
    rewrite Hd. split; reflexivity.
Qed.
Lemma dispatch_body_events lf tk tlkf st ag (s : PipelineState) ssm :
  FLAGS_use_feature_selection (flags s) = false ->
  statusSmartStereoMeasurements s = Some ssm ->
  exists d1 d2,
    new_events s (dispatch_body lf tk tlkf st ag s) =
      d1 ++ EvBackendPush (backend_payload tk st ag ssm s)
         :: EvPopBlocking backend_output_queue_ :: d2 /\
    only_logger d1 /\ count is_frame_traffic d2 = 0%nat.
Proof.
  intros Hfs Hc.
  unfold dispatch_body.
  rewrite (bind_step _ _ _ _ _ (feature_selector_block_off tk tlkf s Hfs)).
  destruct (backend_block_events tk st ag s ssm Hc)
    as (d1 & d2 & Ht & L1 & L2).
  exists d1.
  destruct (backend_block tk st ag s) as [u s2 | h s2] eqn:Hb.
  - rewrite (bind_step _ _ _ _ _ Hb).
    destruct (after_backend_avoids_frame_traffic lf tk s2)
      as [_ (dk & Hdk & Nk)].
    exists (d2 ++ dk). split.
    + apply new_events_app. rewrite Hdk. simpl in Ht. rewrite Ht.
      rewrite <- !app_assoc. reflexivity.
    + split; [ exact L1 | ].
      rewrite count_app, Nk, (count_only_logger _ _ L2); reflexivity.
  - rewrite (bind_halt _ _ _ _ _ Hb).
    exists d2. split.
    + apply new_events_app. simpl in *. rewrite Ht. reflexivity.
    + split; [ exact L1 | ].
      apply (count_only_logger _ _ L2). reflexivity.
Qed.

Lemma spinOnce_dispatching p (s : PipelineState) b :
  vio_backend_ s = Some b -> packet_nonempty p -> buffers_coherent s ->
  isKeyframe (stereoFrame_km1_ (snd (tracked p s))) = true ->
  new_events s (spinOnce p s) =
  [EvPreintegrateGyro (window_stamps p s) (window_accgyr p s);
   EvProcessStereoFrame (getStereoFrame p) (tracking_prior p s);
   dispatch_event p s]
  ++ new_events (append_events [dispatch_event p s] (after_tracking p s))
       (dispatch_body (getLeftFrame (getStereoFrame p))
          (getTimestamp (getStereoFrame p)) (timestamp_lkf_value s)
          (window_stamps p s) (window_accgyr p s)
          (append_events [dispatch_event p s] (after_tracking p s))).
Proof.
  intros Hb Hp Hc Hk.
  rewrite (spinOnce_keyframe p s b Hb Hp Hc Hk).
  set (S1 := append_events [dispatch_event p s] (after_tracking p s)).
  set (DB := dispatch_body _ _ _ _ _).
  assert (Hav : avoids (fun _ => false) DB S1)
    by apply dispatch_body_extends.
  destruct (avoids_events _ _ _ Hav) as [Ht _].
  apply new_events_app.
  rewrite (keeps_tail (fun s => trace s)).
  2:{ intros. reflexivity. }
  rewrite (keeps_tail (fun s => trace s)).
  2:{ intros. unfold reset_after_dispatch. keep. }
  rewrite Ht. unfold S1 at 1, append_events, after_tracking. simpl.
  rewrite <- !app_assoc. reflexivity.
Qed.

(** What the Backend receives for a dispatching frame: one input payload,
    stamped with the frame's timestamp, holding the TrackingResult of this
    frame, the window accumulated since the last dispatch, and the tracking
    status and stereo-RANSAC pose the front-end reports after it has
    processed this frame.  A frame that does not dispatch pushes nothing. *)
Theorem spinOnce_backend_payload p (s : PipelineState) b :
  vio_backend_ s = Some b -> packet_nonempty p -> buffers_coherent s ->
  FLAGS_use_feature_selection (flags s) = false ->
  let r := processStereoFrame (getStereoFrame p) (tracking_prior p s)
             (stereo_vision_frontend_ s) in
  filter is_backend_push (new_events s (spinOnce p s)) =
  if isKeyframe (stereoFrame_km1_ (snd r))
  then [EvBackendPush
          {| bi_timestamp_kf_nsec_ := getTimestamp (getStereoFrame p);
             bi_status_smart_stereo_measurements_kf_ := fst r;
             bi_stereo_tracking_status_ := kfTrackingStatus_stereo_ (snd r);
             bi_imu_stamps_ :=
               imu_append (imu_stamps_lkf_to_curr_f s) (getImuStamps p);
             bi_imu_accgyr_ :=
               imu_append (imu_accgyr_lkf_to_curr_f s) (getImuAccGyr p);
             bi_planes_ := planes_ s;
             bi_stereo_ransac_body_pose_ :=
               getRelativePoseBodyStereo (snd r) |}]
  else [].
Proof.
  intros Hb Hp Hc Hfs r. change r with (tracked p s).
  destruct (isKeyframe (stereoFrame_km1_ (snd (tracked p s)))) eqn:Hk.
  - rewrite (spinOnce_dispatching p s b Hb Hp Hc Hk).
    set (S1 := append_events [dispatch_event p s] (after_tracking p s)).
    destruct (dispatch_body_events (getLeftFrame (getStereoFrame p))
                (getTimestamp (getStereoFrame p)) (timestamp_lkf_value s)
                (window_stamps p s) (window_accgyr p s) S1
                (fst (tracked p s)) Hfs eq_refl)
      as (d1 & d2 & Hd & L1 & N2).
    rewrite Hd.
    assert (F1 : filter is_backend_push d1 = []).
    { apply count_zero_filter, (count_only_logger _ _ L1). reflexivity. }
    assert (F2 : filter is_backend_push d2 = []).
    { apply count_zero_filter. eapply count_le; [ | exact N2 ].
      intros e He. unfold is_frame_traffic. rewrite He, ?orb_true_r.
      reflexivity. }
    cbn [app filter is_backend_push is_dispatch dispatch_event].
    rewrite filter_app. simpl. rewrite F1, F2. simpl.
    unfold backend_payload.
    rewrite <- (window_accgyr_rule p s Hc), <- (window_stamps_rule p s).
    reflexivity.
  - rewrite (spinOnce_no_keyframe p s b Hb Hp Hc Hk).
    erewrite new_events_app; [ | unfold after_tracking; simpl; reflexivity ].
    reflexivity.
Qed.

End PerFrameState.

Section DispatchOrder.
Context {T : ExternalTypes} {FE : Type} {F : StereoVisionFrontEnd FE}
        {E : Environment}.

Local Abbreviation PipelineState := (Pipeline FE).

(** With feature selection on, a dispatch consists of the selection and
    nothing else: no logger call, no push.  The selector is given the
    measurements of the TrackingResult, the front-end's [stereoFrame_km1_]
    and one future pose per keyframe of the horizon, the current one
    included -- or no pose at all without ground truth.  Each future pose
    is the Backend's pose at the last keyframe composed with the ground
    truth motion since [timestamp_lkf], stamped with its time converted to
    seconds.  What the selector returns replaces the measurements, under
    the same status, and the process dies. *)
Theorem feature_selection_is_the_whole_dispatch
    k lf tk tlkf st ag (s : PipelineState) ssm b :
  FLAGS_use_feature_selection (flags s) = true ->
  statusSmartStereoMeasurements s = Some ssm ->
  vio_backend_ s = Some b ->
  let o := processKeyframe k lf tk tlkf st ag s in
  let v := backend_view (trace s ++ [EvProcessKeyframe k ssm tk tlkf st ag]) in
  let fe := stereo_vision_frontend_ s in
  exists poses,
    new_events s o =
      [EvProcessKeyframe k ssm tk tlkf st ag; EvFeatureSelect ssm poses] /\
    map snd poses = map NsecToSec (horizon_stamps (dataset_ s) tk) /\
    map fst poses =
      map (fun t => pose_compose (getWPoseBLkf v)
                     (pose_between (getGroundTruthState tlkf)
                                   (getGroundTruthState t)))
          (horizon_stamps (dataset_ s) tk) /\
    length poses
      = (if isGroundTruthAvailable (dataset_ s) then S nrKfInHorizon else 0)%nat /\
    statusSmartStereoMeasurements (final o) =
      Some (fst ssm,
            splitTrackedAndNewFeatures_Select_Display
              (stereoFrame_km1_ fe) (snd ssm) (getCurrKfId v)
              (if FLAGS_visualize (flags s) then 1 else 0) poses
              (getCurrentStateCovariance v)
              (getLeftFrame (stereoFrame_lkf_ fe))).
Proof.
  intros Hfs Hc Hb o v fe. subst o.
  rewrite (processKeyframe_shape _ _ _ _ _ _ _ _ Hc).
  unfold dispatch_body, feature_selector_block.
  cbv beta delta [bind ret gets modify emit halt view_vio_backend
                  deref_vio_backend deref_statusSmartStereoMeasurements].
  simpl. rewrite Hfs. simpl. rewrite Hb. simpl. rewrite Hc. simpl.
  eexists. split.
  { erewrite new_events_app; [ | simpl; rewrite <- app_assoc; reflexivity ].
    reflexivity. }
  unfold horizon_stamps, featureSelect. simpl.
  destruct (isGroundTruthAvailable (dataset_ s)); simpl.
  - split.
    { rewrite !map_map. simpl. reflexivity. }
    split.
    { rewrite !map_map. simpl. reflexivity. }
    split; [ | reflexivity ].
    rewrite length_map, length_seq. rewrite Nat.add_1_r. reflexivity.
  - repeat split.
Qed.

(** Nothing is asked of the landmark map, of the mesher or of the visualizer
    before the Backend has answered for this keyframe: whatever the outcome
    of the dispatch, every mesh computation and every visualizer call comes
    after the pop of the Backend output channel. *)
Theorem backend_answers_before_mesh_and_display
    k lf tk tlkf st ag (s : PipelineState) ssm :
  FLAGS_use_feature_selection (flags s) = false ->
  statusSmartStereoMeasurements s = Some ssm ->
  exists pre post,
    new_events s (processKeyframe k lf tk tlkf st ag s) =
      pre ++ EvPopBlocking backend_output_queue_ :: post /\
    mesh_computations pre = [] /\
    count is_visualizer_side pre = 0%nat /\
    count is_backend_pop post = 0%nat.
Proof.
  intros Hfs Hc.
  destruct (processKeyframe_events k lf tk tlkf st ag s ssm Hfs Hc)
    as (d1 & d2 & Hd & L1 & N2).
  exists ((EvProcessKeyframe k ssm tk tlkf st ag :: d1)
          ++ [EvBackendPush (backend_payload tk st ag ssm s)]), d2.
  split; [ rewrite Hd, <- app_assoc; reflexivity | ].
  split.
  { rewrite mesh_computations_app. simpl. rewrite app_nil_r.
    apply mesh_computations_quiet, (count_only_logger _ _ L1). reflexivity. }
  split.
  { rewrite count_app, count_cons. simpl.
    rewrite (count_only_logger _ _ L1) by reflexivity. reflexivity. }
  eapply count_le; [ | exact N2 ]. intros e He.
  unfold is_frame_traffic. rewrite He, ?orb_true_r. reflexivity.
Qed.

Lemma mesh_block_default_output vt (s s' : PipelineState) l :
  mesh_block vt s = Ret l s' ->
  vt <> MESH2DTo3Dsparse ->
  mesher_output_payload l = default_MesherOutputPayload.
Proof.
  intros HR Hvt. unfold mesh_block in HR.
  destruct vt; try congruence;
    cbv beta delta [bind ret gets modify emit halt view_vio_backend
                    deref_vio_backend] in HR; simpl in HR;
    try (destruct (vio_backend_ s); simpl in HR);
    inversion HR; reflexivity.
Qed.

Lemma mesh_block_avoids_visualizer vt (s : PipelineState) :
  avoids is_visualizer_side (mesh_block vt) s.
Proof. unfold mesh_block. avoid. Qed.

Lemma before_mesh_avoids_visualizer k tk tlkf st ag (s : PipelineState) :
  avoids is_visualizer_side
    (bind deref_statusSmartStereoMeasurements (fun ssm0 =>
     bind (emit (EvProcessKeyframe k ssm0 tk tlkf st ag)) (fun _ =>
     bind (feature_selector_block tk tlkf) (fun _ =>
     backend_block tk st ag)))) s.
Proof. unfold feature_selector_block, backend_block. avoid. Qed.

Lemma processKeyframe_avoids_visualizer k lf tk tlkf st ag (s : PipelineState) :
  FLAGS_visualize (flags s) = false ->
  avoids is_visualizer_side (processKeyframe k lf tk tlkf st ag) s.
Proof.
  intros Hv. unfold processKeyframe.
  apply avoids_bind; [ avoid | intros ssm0 s1 _ C1 ].
  apply avoids_bind; [ avoid | intros u1 s2 _ C2 ].
  apply avoids_bind; [ unfold feature_selector_block; avoid
                     | intros u2 s3 _ C3 ].
  apply avoids_bind; [ unfold backend_block; avoid | intros u3 s4 _ C4 ].
  apply avoids_gets_bind.
  apply avoids_bind; [ apply mesh_block_avoids_visualizer
                     | intros l s5 _ C5 ].
  assert (C : same_config s s5).
  { repeat (eapply same_config_trans; [ eassumption | ]).
    apply same_config_refl. }
  assert (Hv5 : FLAGS_visualize (flags s5) = false).
  { destruct C as [-> _]. exact Hv. }
  unfold avoids. rewrite (visualize_block_off _ _ _ _ _ Hv5).
  split; [ apply same_config_refl | ].
  exists []. simpl. rewrite app_nil_r. auto.
Qed.

Lemma spinOnce_avoids_visualizer p (s : PipelineState) :
  FLAGS_visualize (flags s) = false ->
  avoids is_visualizer_side (spinOnce p) s.
Proof.
  intros Hv. unfold spinOnce.
  apply avoids_bind; [ unfold accumulate_imu; avoid | intros u0 s1 _ C1 ].
  apply avoids_bind; [ avoid | intros u1 s2 _ C2 ].
  apply avoids_bind; [ avoid | intros stamps s3 _ C3 ].
  apply avoids_bind; [ avoid | intros accgyr s4 _ C4 ].
  apply avoids_bind; [ avoid | intros v s5 _ C5 ].
  apply avoids_bind; [ avoid | intros u2 s6 _ C6 ].
  apply avoids_bind; [ avoid | intros fe s7 _ C7 ].
  apply avoids_bind; [ avoid | intros u3 s8 _ C8 ].
  apply avoids_bind; [ avoid | intros u4 s9 _ C9 ].
  apply avoids_bind; [ avoid | intros u5 s10 _ C10 ].
  assert (C : same_config s s10).
  { repeat (eapply same_config_trans; [ eassumption | ]).
    apply same_config_refl. }
  apply avoids_bind; [ | intros; avoid ].
  match goal with |- avoids _ (if ?c then _ else _) _ => destruct c end;
    [ | avoid ].
  apply avoids_bind; [ avoid | intros lkf s11 _ C11 ].
  apply avoids_bind; [ | intros; avoid ].
  apply processKeyframe_avoids_visualizer.
  assert (C' : same_config s s11) by (eapply same_config_trans; eauto).
  destruct C' as [-> _]. exact Hv.
Qed.

(** With [FLAGS_visualize] off the visualizer is left alone for the whole
    run, whatever its outcome: no segmentation callback, no push to the
    visualizer, no pop of its output channel, no display call, no
    visualizer warning. *)
Theorem no_visualization_no_visualizer_traffic
    (packets : list StereoImuSyncPacket) : forall (s : PipelineState),
  FLAGS_visualize (flags s) = false ->
  count is_visualizer_side (new_events s (spin_all packets s)) = 0%nat.
Proof.
  intros s Hv.
  refine (proj2 (avoids_events _ _ _ _)).
  revert s Hv.
  induction packets as [| p rest IH]; intros s Hv; cbn [spin_all].
  - apply avoids_ret.
  - apply avoids_bind.
    + unfold spin. apply avoids_bind; [ avoid | intros ini s1 H1 C1 ].
      unfold gets in H1. inversion H1; subst ini s1; clear H1.
      destruct (negb (is_initialized s)).
      * eapply (avoids_bind _ _ _ s); [ | intros; avoid ].
        unfold initialize, initBackend, launchThreads. avoid.
      * apply avoids_bind; [ apply spinOnce_avoids_visualizer, Hv
                           | intros; avoid ].
    + intros r s1 _ C1. apply IH.
      destruct C1 as [-> _]. exact Hv.
Qed.

Lemma processKeyframe_Ret_to_visualize
    k lf tk tlkf st ag (s s' : PipelineState) :
  processKeyframe k lf tk tlkf st ag s = Ret tt s' ->
  exists l s5 d,
    same_config s s5 /\
    trace s5 = trace s ++ d /\
    count is_visualizer_side d = 0%nat /\
    (configured_mode s <> MESH2DTo3Dsparse ->
     mesher_output_payload l = default_MesherOutputPayload) /\
    visualize_block (configured_mode s) lf tk l s5 = Ret tt s'.
Proof.
  intros HR. unfold processKeyframe in HR.
  apply bind_Ret in HR as (ssm0 & s1 & H1 & HR).
  assert (A1 : avoids is_visualizer_side
                 deref_statusSmartStereoMeasurements s) by avoid.
  destruct (avoids_Ret _ _ _ _ _ A1 H1) as [C1 (d1 & T1 & N1)].
  apply bind_Ret in HR as (u2 & s2 & H2 & HR).
  assert (A2 : avoids is_visualizer_side
                 (emit (EvProcessKeyframe k ssm0 tk tlkf st ag)) s1) by avoid.
  destruct (avoids_Ret _ _ _ _ _ A2 H2) as [C2 (d2 & T2 & N2)].
  apply bind_Ret in HR as (u3 & s3 & H3 & HR).
  assert (A3 : avoids is_visualizer_side (feature_selector_block tk tlkf) s2)
    by (unfold feature_selector_block; avoid).
  destruct (avoids_Ret _ _ _ _ _ A3 H3) as [C3 (d3 & T3 & N3)].
  apply bind_Ret in HR as (u4 & s4 & H4 & HR).
  assert (A4 : avoids is_visualizer_side (backend_block tk st ag) s3)
    by (unfold backend_block; avoid).
  destruct (avoids_Ret _ _ _ _ _ A4 H4) as [C4 (d4 & T4 & N4)].
  apply bind_Ret in HR as (fl & s4' & Hg & HR).
  unfold gets in Hg. inversion Hg; subst fl s4'; clear Hg.
  apply bind_Ret in HR as (l & s5 & H5 & HR).
  destruct (avoids_Ret _ _ _ _ _ (mesh_block_avoids_visualizer _ s4) H5)
    as [C5 (d5 & T5 & N5)].
  assert (C04 : same_config s s4).
  { apply (same_config_trans _ _ _ C1).
    apply (same_config_trans _ _ _ C2).
    apply (same_config_trans _ _ _ C3). exact C4. }
  assert (Hm : VisualizationType_of_flag (FLAGS_viz_type (flags s4))
               = configured_mode s).
  { unfold configured_mode. destruct C04 as [-> _]. reflexivity. }
  rewrite Hm in H5, HR.
  exists l, s5, (d1 ++ d2 ++ d3 ++ d4 ++ d5).
  split; [ eapply same_config_trans; eauto | ].
  split; [ rewrite T5, T4, T3, T2, T1, <- !app_assoc; reflexivity | ].
  split; [ rewrite !count_app, N1, N2, N3, N4, N5; reflexivity | ].
  split; [ intros Hvt; apply (mesh_block_default_output _ _ _ _ H5 Hvt) | ].
  exact HR.
Qed.

Lemma display_avoids_push (s : PipelineState) :
  avoids (fun e => is_segmentation e || is_visualizer_push e)
    (bind (popBlocking visualizer_output_queue_ visualizer_output_pop)
          spinDisplayOnce) s.
Proof. avoid. Qed.

(** The semantic segmentation callback, when one is registered and
    visualization is on, is called once per dispatch that returns: on the
    image of the frame the dispatch was given for segmentation (spinOnce
    gives the current frame's left frame) and on the meshes of the mesher
    output that goes into the visualizer payload; its result is the
    payload's colors.  In every mode but MESH2DTo3Dsparse that mesher output
    is the default-constructed one: the callback still runs, on empty
    meshes. *)
Theorem semantic_callback_runs_once_per_dispatch
    k lf tk tlkf st ag (s s' : PipelineState) callback :
  FLAGS_visualize (flags s) = true ->
  semantic_mesh_segmentation_callback_ s = Some callback ->
  processKeyframe k lf tk tlkf st ag s = Ret tt s' ->
  exists m payload,
    filter is_segmentation
      (new_events s (processKeyframe k lf tk tlkf st ag s))
      = [EvSemanticMeshSegmentation m] /\
    filter is_visualizer_push
      (new_events s (processKeyframe k lf tk tlkf st ag s))
      = [EvVisualizerPush payload] /\
    vi_mesher_output_payload_ payload = m /\
    vi_colors_ payload = callback (img_ lf) (mesh_2d_ m) (mesh_3d_ m) /\
    (configured_mode s <> MESH2DTo3Dsparse ->
     m = default_MesherOutputPayload).
Proof.
  intros Hv Hcb HR.
  destruct (processKeyframe_Ret_to_visualize _ _ _ _ _ _ _ _ HR)
    as (l & s5 & d & C & Td & Nd & Hdef & HV).
  rewrite HR.
  assert (Hv5 : FLAGS_visualize (flags s5) = true).
  { destruct C as [-> _]. exact Hv. }
  assert (Hcb5 : semantic_mesh_segmentation_callback_ s5 = Some callback).
  { destruct C as (_ & _ & _ & -> & _). exact Hcb. }
  destruct (vio_backend_ s5) as [b |] eqn:Hb.
  2:{ rewrite (visualize_block_null _ _ _ _ _ Hv5 Hb) in HV. discriminate. }
  rewrite (visualize_block_shape _ _ _ _ _ b Hv5 Hb) in HV.
  set (payload := visualizer_payload (configured_mode s) lf tk l s5) in *.
  destruct (avoids_Ret _ _ _ _ _ (display_avoids_push _) HV)
    as [_ (dt & Tt & Nt)].
  exists (mesher_output_payload l), payload.
  assert (Hnew : new_events s (Ret tt s') =
                 d ++ [EvSemanticMeshSegmentation (mesher_output_payload l);
                       EvVisualizerPush payload] ++ dt).
  { apply new_events_app. simpl. rewrite Tt. unfold append_events. simpl.
    unfold visualize_pre. rewrite Hcb5, Td, <- !app_assoc. reflexivity. }
  rewrite Hnew.
  assert (Zd : forall c, (forall e, c e = true -> is_visualizer_side e = true) ->
                         filter c d = []).
  { intros c Hc. apply count_zero_filter.
    eapply count_le; [ exact Hc | exact Nd ]. }
  assert (Zt : forall c, (forall e, c e = true ->
                            is_segmentation e || is_visualizer_push e = true) ->
                         filter c dt = []).
  { intros c Hc. apply count_zero_filter.
    eapply count_le; [ exact Hc | exact Nt ]. }
  rewrite !filter_app.
  rewrite (Zd is_segmentation), (Zd is_visualizer_push),
    (Zt is_segmentation), (Zt is_visualizer_push).
  2,3: (intros e He; rewrite He, ?orb_true_r; reflexivity).
  2,3: (intros e He; destruct e; try discriminate; reflexivity).
  split; [ reflexivity | ].
  split; [ reflexivity | ].
  split; [ reflexivity | ].
  split; [ unfold payload, visualizer_payload; simpl; rewrite Hcb5;
           reflexivity | exact Hdef ].
Qed.

Lemma mesh_block_push_refused (s : PipelineState) b :
  vio_backend_ s = Some b ->
  queue_shutdown s mesher_input_queue_ = true ->
  exists d,
    mesh_block MESH2DTo3Dsparse s =
      Halt (LogFatal CHECK_mesher_input_queue_push) (append_events d s) /\
    count is_landmark_map_query d = 1%nat /\
    count is_mesher_pop d = 0%nat /\
    count is_visualizer_side d = 0%nat.
Proof.
  intros Hb Hq. unfold mesh_block.
  cbv beta delta [bind ret gets modify emit halt when CHECK push popBlocking
                  view_vio_backend deref_vio_backend].
  simpl. rewrite Hb. simpl. rewrite Hb. simpl. rewrite Hq. simpl.
  unfold append_events. rewrite <- ?app_assoc. simpl.
  eexists. split; [ reflexivity | ].
  repeat split.
Qed.

(** The push to the mesher is the one checked push.  In MESH2DTo3Dsparse,
    when the mesher input queue refuses the payload -- it has been shut
    down -- the dispatch has queried the landmark map and then dies on
    [CHECK(mesher_input_queue_.push(..))]: the mesher output is not popped
    and nothing reaches the visualizer. *)
Theorem refused_mesher_push_is_fatal
    k lf tk tlkf st ag (s : PipelineState) ssm b :
  FLAGS_use_feature_selection (flags s) = false ->
  statusSmartStereoMeasurements s = Some ssm ->
  vio_backend_ s = Some b ->
  (forall tr, backend_output_pop tr <> PopNever) ->
  configured_mode s = MESH2DTo3Dsparse ->
  queue_shutdown s mesher_input_queue_ = true ->
  let o := processKeyframe k lf tk tlkf st ag s in
  (exists s', o = Halt (LogFatal CHECK_mesher_input_queue_push) s') /\
  count is_landmark_map_query (new_events s o) = 1%nat /\
  count is_mesher_pop (new_events s o) = 0%nat /\
  count is_visualizer_side (new_events s o) = 0%nat.
Proof.
  intros Hfs Hc Hb Ho Hmode Hq o. subst o.
  set (s0 := set_trace (trace s ++ [EvProcessKeyframe k ssm tk tlkf st ag]) s).
  destruct (backend_block_events tk st ag s0 ssm Hc)
    as (d1 & d2 & Ht & L1 & L2).
  destruct (backend_block_Ret tk st ag s0 ssm b Hc Hb Ho) as (d & Hd & _).
  rewrite Hd in Ht. simpl in Ht. apply app_inv_head in Ht.
  destruct (mesh_block_push_refused (append_events d s0) b Hb Hq)
    as (dm & Hm & N1 & N2 & N3).
  assert (Hrun : processKeyframe k lf tk tlkf st ag s =
                 Halt (LogFatal CHECK_mesher_input_queue_push)
                      (append_events dm (append_events d s0))).
  { rewrite (processKeyframe_shape _ _ _ _ _ _ _ _ Hc). fold s0.
    unfold dispatch_body.
    rewrite (bind_step _ _ _ _ _ (feature_selector_block_off tk tlkf s0 Hfs)).
    rewrite (bind_step _ _ _ _ _ Hd).
    unfold bind at 1, gets at 1.
    change (VisualizationType_of_flag
              (FLAGS_viz_type (flags (append_events d s0))))
      with (configured_mode s).
    rewrite Hmode. apply (bind_halt _ _ _ _ _ Hm). }
  rewrite Hrun. split; [ eauto | ].
  rewrite (new_events_app s _
             ((EvProcessKeyframe k ssm tk tlkf st ag :: d) ++ dm)).
  2:{ unfold s0. simpl. rewrite <- !app_assoc. reflexivity. }
  subst d.
  rewrite !count_app, !count_cons, !count_app, !count_cons, N1, N2, N3.
  rewrite !(count_only_logger _ _ L1), !(count_only_logger _ _ L2)
    by reflexivity.
  repeat split.
Qed.

End DispatchOrder.

Section FlagAndChain.
Context {T : ExternalTypes} {FE : Type} {F : StereoVisionFrontEnd FE}
        {E : Environment}.

Local Abbreviation PipelineState := (Pipeline FE).

Lemma ignores_ret {A} (a : A) : ignores_shutdown_flag (ret (FE := FE) a).
Proof. intros x s. reflexivity. Qed.

Lemma ignores_halt {A} h : ignores_shutdown_flag (halt (FE := FE) (A := A) h).
Proof. intros x s. reflexivity. Qed.

Lemma ignores_bind {A B} (m : M FE A) (k : A -> M FE B) :
  ignores_shutdown_flag m -> (forall a, ignores_shutdown_flag (k a)) ->
  ignores_shutdown_flag (bind m k).
Proof.
  intros Hm Hk x s. unfold bind. rewrite (Hm x s).
  destruct (m s) as [a s1 | h s1]; simpl; [ apply Hk | reflexivity ].
Qed.

Lemma ignores_gets {A} (f : PipelineState -> A) :
  (forall x s, f (set_shutdown x s) = f s) ->
  ignores_shutdown_flag (gets f).
Proof. intros Hf x s. unfold gets. rewrite Hf. reflexivity. Qed.

Lemma ignores_modify (g : PipelineState -> PipelineState) :
  (forall x s, g (set_shutdown x s) = set_shutdown x (g s)) ->
  ignores_shutdown_flag (modify g).
Proof. intros Hg x s. unfold modify. rewrite Hg. reflexivity. Qed.

Lemma ignores_imshow_all imgs :
  ignores_shutdown_flag (imshow_all (FE := FE) imgs).
Proof.
  induction imgs as [| i rest IH]; simpl.
  - apply ignores_ret.
  - apply ignores_bind; [ | intros; exact IH ].
    apply ignores_modify. reflexivity.
Qed.

End FlagAndChain.

(** Decomposition of a block along its binds, for [ignores_shutdown_flag]. *)
Ltac ignore_step :=
  first
    [ apply ignores_ret
    | apply ignores_halt
    | apply ignores_imshow_all
    | apply ignores_gets; reflexivity
    | apply ignores_modify; reflexivity
    | apply ignores_bind; [ | intros ? ]
    | match goal with
      | |- ignores_shutdown_flag (match ?x with _ => _ end) => destruct x
      | |- ignores_shutdown_flag (let _ := _ in _) => cbv zeta
      end
    | progress cbv beta delta
        [when CHECK push popBlocking deref_vio_backend view_vio_backend
         deref_statusSmartStereoMeasurements emit spinDisplayOnce] ].

Ltac ignore_flag := repeat ignore_step.

Section FlagAndChainOnRuns.
Context {T : ExternalTypes} {FE : Type} {F : StereoVisionFrontEnd FE}
        {E : Environment}.

Local Abbreviation PipelineState := (Pipeline FE).

Lemma spinOnce_ignores_shutdown_flag p :
  ignores_shutdown_flag (spinOnce p).
Proof.
  unfold spinOnce, accumulate_imu, processKeyframe, feature_selector_block,
    backend_block, mesh_block, visualize_block.
  ignore_flag.
Qed.

(** [spin] never consults the shutdown flag: with the flag set a pipeline
    handles its packets exactly as with the flag clear -- same calls, same
    outcome, same state but for the flag.  Setting it, as [shutdown] does,
    stops nothing by itself. *)
Theorem spin_ignores_shutdown_flag
    (packets : list StereoImuSyncPacket) (x : bool) (s : PipelineState) :
  spin_all packets (set_shutdown x s)
  = with_shutdown_flag x (spin_all packets s).
Proof.
  revert x s.
  change (ignores_shutdown_flag (spin_all (FE := FE) packets)).
  induction packets as [| p rest IH]; cbn [spin_all].
  - apply ignores_ret.
  - apply ignores_bind; [ | intros; exact IH ].
    unfold spin.
    apply ignores_bind; [ apply ignores_gets; reflexivity | intros ini ].
    destruct (negb ini).
    + unfold initialize, initBackend, launchThreads, start_thread.
      ignore_flag.
    + apply ignores_bind; [ apply spinOnce_ignores_shutdown_flag | intros ].
      apply ignores_ret.
Qed.

Lemma dispatch_stamps_app d1 d2 :
  dispatch_stamps (d1 ++ d2) = dispatch_stamps d1 ++ dispatch_stamps d2.
Proof. unfold dispatch_stamps. apply flat_map_app. Qed.

Lemma dispatch_stamps_filter d :
  dispatch_stamps (filter is_dispatch d) = dispatch_stamps d.
Proof.
  induction d as [| e d IH]; [ reflexivity | ].
  destruct e; simpl; rewrite ?IH; reflexivity.
Qed.

Lemma last_cons_default {A} (a : A) l d d' :
  last (a :: l) d = last (a :: l) d'.
Proof.
  revert a. induction l as [| b l IH]; intros a; [ reflexivity | ].
  change (last (a :: b :: l) d) with (last (b :: l) d).
  change (last (a :: b :: l) d') with (last (b :: l) d').
  apply IH.
Qed.

Lemma last_app_default {A} (a b : list A) d :
  last (a ++ b) d = last b (last a d).
Proof.
  revert d. induction a as [| x a IH]; intros d; [ reflexivity | ].
  destruct a as [| y a'].
  - destruct b as [| z b']; [ reflexivity | ].
    change (last ([x] ++ z :: b') d) with (last (z :: b') d).
    apply last_cons_default.
  - change (last ((x :: y :: a') ++ b) d) with (last ((y :: a') ++ b) d).
    rewrite IH. reflexivity.
Qed.

Lemma lkf_chained_app t0 d1 d2 :
  lkf_chained t0 d1 ->
  lkf_chained (last (map fst d1) t0) d2 ->
  lkf_chained t0 (d1 ++ d2).
Proof.
  revert t0. induction d1 as [| [tk tlkf] rest IH]; intros t0 H1 H2.
  - exact H2.
  - destruct H1 as [-> H1]. split; [ reflexivity | ].
    apply IH; [ exact H1 | ].
    destruct rest as [| [tk' tlkf'] rest']; [ exact H2 | ].
    cbn [map fst] in H2 |- *.
    change (last (tk :: tk' :: map fst rest') t0)
      with (last (tk' :: map fst rest') t0) in H2.
    rewrite (last_cons_default tk' (map fst rest') tk t0). exact H2.
Qed.

Lemma spinOnce_Ret_stamps p (s s' : PipelineState) b :
  vio_backend_ s = Some b -> packet_nonempty p -> buffers_coherent s ->
  spinOnce p s = Ret tt s' ->
  exists d, trace s' = trace s ++ d /\
    lkf_chained (timestamp_lkf_value s) (dispatch_stamps d) /\
    timestamp_lkf_value s'
      = last (map fst (dispatch_stamps d)) (timestamp_lkf_value s) /\
    (forall tk tlkf, In (tk, tlkf) (dispatch_stamps d) ->
       tk = getTimestamp (getStereoFrame p)) /\
    vio_backend_ s' = Some b /\ buffers_coherent s'.
Proof.
  intros Hb Hp Hc HR.
  destruct (spinOnce_Ret_state p s s' b Hb Hp Hc HR) as (_ & Hb' & Hc' & H).
  pose proof (spinOnce_dispatch_events p s b Hb Hp Hc) as Hf.
  destruct (avoids_events _ _ _ (spinOnce_extends p s)) as [Ht _].
  exists (new_events s (spinOnce p s)).
  split; [ rewrite HR in Ht at 1; exact Ht | ].
  rewrite <- dispatch_stamps_filter, Hf.
  change (snd (processStereoFrame (getStereoFrame p) (tracking_prior p s)
                 (stereo_vision_frontend_ s)))
    with (snd (tracked p s)) in H.
  destruct (isKeyframe (stereoFrame_km1_ (snd (tracked p s)))).
  - destruct H as (_ & _ & Hl). unfold dispatch_event. simpl.
    split; [ auto | ]. split; [ exact Hl | ].
    split; [ | split; assumption ].
    intros tk tlkf [Heq | []]. inversion Heq. reflexivity.
  - destruct H as (_ & _ & Hl). simpl.
    split; [ exact I | ]. split; [ exact Hl | ].
    split; [ | split; assumption ].
    intros tk tlkf [].
Qed.

(** The last-keyframe timestamps chain: over a run that returns, every
    dispatch is given as [timestamp_lkf] the timestamp of the frame of the
    dispatch before it, and the first one the value the pipeline held at
    the start (the dataset's [timestamp_first_lkf_] on a fresh pipeline). *)
Theorem dispatches_chain_last_keyframe_timestamps
    (packets : list StereoImuSyncPacket) :
  forall (s s' : PipelineState) (b : VioBackEnd),
  is_initialized s = true ->
  vio_backend_ s = Some b -> buffers_coherent s ->
  Forall packet_nonempty packets ->
  spin_all packets s = Ret tt s' ->
  lkf_chained (timestamp_lkf_value s)
    (dispatch_stamps (new_events s (spin_all packets s))) /\
  Forall (fun d => exists p, In p packets /\
                   fst d = getTimestamp (getStereoFrame p))
    (dispatch_stamps (new_events s (spin_all packets s))).
Proof.
  intros s s' b Hi. rewrite (spin_all_later packets s Hi). clear Hi.
  revert s s' b.
  assert (G : forall (s s' : PipelineState) b,
    vio_backend_ s = Some b -> buffers_coherent s ->
    Forall packet_nonempty packets ->
    spinOnce_all packets s = Ret tt s' ->
    exists d, trace s' = trace s ++ d /\
      lkf_chained (timestamp_lkf_value s) (dispatch_stamps d) /\
      timestamp_lkf_value s'
        = last (map fst (dispatch_stamps d)) (timestamp_lkf_value s) /\
      Forall (fun d => exists p, In p packets /\
                       fst d = getTimestamp (getStereoFrame p))
        (dispatch_stamps d)).
  { induction packets as [| p rest IH]; intros s s' b Hb Hc Hp HR.
    - inversion HR; subst. exists []. rewrite app_nil_r.
      repeat split; auto.
    - inversion Hp as [| ? ? Hp1 Hp2]; subst.
      cbn [spinOnce_all] in HR.
      apply bind_Ret in HR as ([] & s1 & H1 & HR).
      destruct (spinOnce_Ret_stamps p s s1 b Hb Hp1 Hc H1)
        as (d1 & T1 & K1 & L1 & F1 & Hb1 & Hc1).
      destruct (IH s1 s' b Hb1 Hc1 Hp2 HR) as (d2 & T2 & K2 & L2 & F2).
      exists (d1 ++ d2).
      split; [ rewrite T2, T1, app_assoc; reflexivity | ].
      rewrite dispatch_stamps_app.
      split.
      { apply lkf_chained_app; [ exact K1 | ]. rewrite <- L1. exact K2. }
      split.
      { rewrite L2, L1, map_app, last_app_default. reflexivity. }
      apply Forall_app. split.
      + apply Forall_forall. intros [tk tlkf] Hin.
        exists p. split; [ left; reflexivity | ].
        exact (F1 tk tlkf Hin).
      + eapply Forall_impl; [ | exact F2 ].
        intros d (q & Hq & Hd). exists q. split; [ right; exact Hq | exact Hd ]. }
  intros s s' b Hb Hc Hp HR.
  destruct (G s s' b Hb Hc Hp HR) as (d & Td & K & _ & Fd).
  rewrite HR, (new_events_app s (Ret tt s') d Td). auto.
Qed.

End FlagAndChainOnRuns.

(** * The claims on concrete runs *)

Import Stub Scenario.
#[local] Existing Instance lagging.

Lemma C1_witness :
  (vio_backend_ (booted responsive (with_viz_type 7 false) [1]) = Some backend
   /\ packet_nonempty (packet 2)
   /\ buffers_coherent (booted responsive (with_viz_type 7 false) [1])) /\
  filter is_dispatch
    (new_events (booted responsive (with_viz_type 7 false) [1])
       (spinOnce (E := responsive) (packet 2)
          (booted responsive (with_viz_type 7 false) [1])))
  = [EvProcessKeyframe 2 (result_for 2) 20 10 [13; 16; 20] [tt; tt; tt]].
Proof.
  assert (H1 : vio_backend_ (booted responsive (with_viz_type 7 false) [1])
               = Some backend) by reflexivity.
  assert (H2 : packet_nonempty (packet 2)) by (split; discriminate).
  assert (H3 : buffers_coherent
                 (booted responsive (with_viz_type 7 false) [1]))
    by (split; reflexivity).
  split; [ auto | ].
  rewrite (C1_dispatch_uses_current_tracking_result (E := responsive)
             (packet 2) (booted responsive (with_viz_type 7 false) [1])
             backend H1 H2 H3).
  reflexivity.
Defined.

(** C1, as stated, fails: with a Frontend that declares frame 3 a keyframe
    and reports it one frame late, the dispatch fires while frame 4 is
    processed, and the TrackingResult it is given is the one computed for
    frame 4 in that call, not the one computed when frame 3 was processed. *)
Lemma C1_counterexample :
  filter is_dispatch
    (trace (final (spin_all (E := responsive) (map packet [1; 2; 3; 4])
                     (pipeline (with_viz_type 7 false) [3]))))
  = [EvProcessKeyframe 4 (result_for 4) 40 10
       [13; 16; 23; 26; 33; 36; 40] [tt; tt; tt; tt; tt; tt; tt]] /\
  fst (processStereoFrame (frame 3 false) tt
         (stereo_vision_frontend_
            (final (spin_all (E := responsive) (map packet [1; 2])
                      (pipeline (with_viz_type 7 false) [3])))))
  = result_for 3 /\
  result_for 4 <> result_for 3.
Proof.
  split; [ vm_compute; reflexivity | ].
  split; [ vm_compute; reflexivity | discriminate ].
Qed.

Lemma sorted3 (a b c : Z) : a < b -> b < c -> StronglySorted Z.lt [a; b; c].
Proof.
  intros H1 H2. repeat constructor; lia.
Qed.

Lemma packet_wellformed_stub k : packet_wellformed (packet k).
Proof.
  split; [ discriminate | ]. split; [ reflexivity | ].
  apply sorted3; lia.
Qed.

Lemma C2_witness :
  let s := booted responsive (with_viz_type 7 false) [3] in
  let front := [packet 2; packet 3] in
  let s1 := final (spinOnce_all (E := responsive) front s) in
  (length (window_accgyr (packet 4) s1) + 2 = 9)%nat /\
  length (window_stamps (packet 4) s1) = length (window_accgyr (packet 4) s1) /\
  StronglySorted Z.lt (window_stamps (packet 4) s1) /\
  filter is_dispatch
    (new_events s1 (spinOnce (E := responsive) (packet 4) s1))
  = [EvProcessKeyframe 4 (result_for 4) 40 10
       (window_stamps (packet 4) s1) (window_accgyr (packet 4) s1)].
Proof.
  intros s front s1.
  assert (Hb : vio_backend_ s = Some backend) by reflexivity.
  assert (Hwf : Forall packet_wellformed (front ++ [packet 4])).
  { repeat constructor; apply packet_wellformed_stub. }
  assert (Hch : windows_chained (map getImuStamps (front ++ [packet 4]))).
  { simpl. lia. }
  assert (HR : spinOnce_all (E := responsive) front s = Ret tt s1)
    by (vm_compute; reflexivity).
  assert (Hn : count is_dispatch
                 (new_events s (spinOnce_all (E := responsive) front s))
               = 0%nat) by (vm_compute; reflexivity).
  destruct (proj2 (C2_accumulation_rule_and_window_size (E := responsive))
              front (packet 4) s s1 backend Hb eq_refl eq_refl
              Hwf Hch HR Hn) as (L1 & L2 & L3 & _).
  split; [ exact L1 | ].
  split; [ exact L2 | ].
  split; [ exact L3 | ].
  vm_compute. reflexivity.
Defined.

(** C2, as stated, fails on the count.  Frames 2 and 3 trigger no
    dispatch and frame 4 does: two such frames ([N = 2]) followed by a
    dispatching one.  The three windows hold nine samples together and the
    window the dispatch receives holds seven, not the eight the claim's
    [N - 1] gives: every frame after the first one drops a boundary
    sample, the dispatching frame included. *)
Lemma C2_counterexample :
  let s := booted responsive (with_viz_type 7 false) [3] in
  let front := [packet 2; packet 3] in
  let s1 := final (spinOnce_all (E := responsive) front s) in
  let N := length front in
  imu_accgyr_lkf_to_curr_f s = [] /\
  count is_dispatch (new_events s (spinOnce_all (E := responsive) front s))
    = 0%nat /\
  filter is_dispatch
    (new_events s1 (spinOnce (E := responsive) (packet 4) s1))
  = [EvProcessKeyframe 4 (result_for 4) 40 10
       [13; 16; 23; 26; 33; 36; 40] [tt; tt; tt; tt; tt; tt; tt]] /\
  length (concat (map getImuAccGyr (front ++ [packet 4]))) = 9%nat /\
  (length (window_accgyr (packet 4) s1)
   <> length (concat (map getImuAccGyr (front ++ [packet 4]))) - (N - 1))%nat.
Proof.
  intros s front s1 N.
  split; [ reflexivity | ].
  split; [ vm_compute; reflexivity | ].
  split; [ vm_compute; reflexivity | ].
  split; [ reflexivity | ].
  vm_compute. discriminate.
Qed.

Lemma C3_witness :
  let s := at_dispatch_after_shutdown responsive (with_viz_type 0 true) in
  let s0 := at_dispatch visualizer_down (with_viz_type 5 true) in
  ((forall q, queue_shutdown s q = true) /\
   exists s' d,
     dispatch4 responsive s = Ret tt s' /\
     trace s' = trace s ++ d ++
       [EvPopBlocking visualizer_output_queue_;
        EvWarning Visualizer_is_lagging_behind_pipeline_processing] /\
     count is_visualizer_push d = 1%nat /\
     count is_render d = 0%nat) /\
  ((forall q, queue_shutdown s0 q = false) /\
   exists s' d,
     dispatch4 visualizer_down s0 = Ret tt s' /\
     trace s' = trace s0 ++ d ++
       [EvPopBlocking visualizer_output_queue_;
        EvWarning Visualizer_is_lagging_behind_pipeline_processing] /\
     count is_visualizer_push d = 1%nat /\
     count is_render d = 0%nat).
Proof.
  intros s s0. split.
  - split; [ intros q; destruct q; reflexivity | ].
    apply (C3_visualizer_output_missing_is_tolerated (E := responsive)
             4 (getLeftFrame (frame 4 false)) 40 10 [13; 16; 20] [tt; tt; tt]
             s (result_for 4)).
    + reflexivity.
    + reflexivity.
    + reflexivity.
    + split; [ discriminate | ].
      split; [ left; reflexivity | ].
      intros Hm. vm_compute in Hm. discriminate.
    + left. reflexivity.
  - split; [ intros q; destruct q; reflexivity | ].
    apply (C3_visualizer_output_missing_is_tolerated (E := visualizer_down)
             4 (getLeftFrame (frame 4 false)) 40 10 [13; 16; 20] [tt; tt; tt]
             s0 (result_for 4)).
    + reflexivity.
    + reflexivity.
    + reflexivity.
    + split; [ discriminate | ].
      split; [ right; intros tr; discriminate | ].
      intros _. split; [ reflexivity | right; intros tr; discriminate ].
    + right. intros tr. reflexivity.
Defined.

(** C3, as stated, fails: a visualizer that lags is not the only failure a
    dispatch tolerates.  In the mode that uses the mesher, with a mesher
    whose output pop fails and a visualizer that delivers, the dispatch for
    keyframe 3 logs the mesher warning, still renders, and the run
    returns. *)
Lemma C3_counterexample :
  let o := spin_all (E := mesher_down) (map packet [1; 2; 3; 4])
             (pipeline (with_viz_type 5 true) [3]) in
  (exists s', o = Ret tt s') /\
  In (EvWarning Mesher_output_queue_did_not_pop_a_payload) (trace (final o)) /\
  ~ In (EvWarning Visualizer_is_lagging_behind_pipeline_processing)
       (trace (final o)) /\
  count is_dispatch (trace (final o)) = 1%nat /\
  count is_render (trace (final o)) = 1%nat.
Proof.
  intros o. split; [ eexists; vm_compute; reflexivity | ].
  split; [ vm_compute; tauto | ].
  split.
  - assert (H : count (fun e => match e with
                        | EvWarning Visualizer_is_lagging_behind_pipeline_processing => true
                        | _ => false end) (trace (final o)) = 0%nat)
      by (vm_compute; reflexivity).
    apply (count_zero_not_In _ _ _ H). reflexivity.
  - split; vm_compute; reflexivity.
Qed.

Lemma C4_witness :
  exists s',
    spin (E := responsive) (packet 1) (pipeline (with_viz_type 0 true) []) =
      Ret true s' /\
    new_events (pipeline (with_viz_type 0 true) [])
      (spin (E := responsive) (packet 1) (pipeline (with_viz_type 0 true) []))
    = [EvProcessFirstStereoFrame (frame 1 false);
       EvConstructBackend backend;
       EvLaunchThread backend_thread_; EvLaunchThread mesher_thread_;
       EvLaunchThread visualizer_thread_] /\
    is_initialized s' = true /\
    imu_stamps_lkf_to_curr_f s' = [].
Proof.
  destruct (proj1 (proj2 (C4_first_spin_only_bootstraps (E := responsive)))
              (packet 1) (pipeline (with_viz_type 0 true) []) NormalVio
              eq_refl eq_refl
              (fun H : false = true =>
                 False_ind _ (Bool.diff_false_true H))
              (fun w => eq_refl))
    as (s' & H1 & H2 & H3 & _).
  exists s'. split; [ exact H1 | ]. split; [ exact H2 | ].
  split; [ exact H3 | ].
  destruct (proj1 (C4_first_spin_only_bootstraps (E := responsive))
              (packet 1) (pipeline (with_viz_type 0 true) []) eq_refl)
    as (B1 & _).
  rewrite H1 in B1. exact B1.
Defined.

Lemma C5_witness :
  let s := at_dispatch responsive with_feature_selection in
  (exists s',
     dispatch4 responsive s =
     Halt (LogFatal Do_not_use_feature_selection_in_parallel_mode) s') /\
  (forall w, thread s w = Running) /\
  count is_feature_select
    (new_events (at_dispatch responsive (with_viz_type 0 true))
       (dispatch4 responsive (at_dispatch responsive (with_viz_type 0 true))))
  = 0%nat.
Proof.
  intros s.
  assert (Hfs : FLAGS_use_feature_selection (flags s) = true)
    by (vm_compute; reflexivity).
  assert (Hc : statusSmartStereoMeasurements s = Some (result_for 4))
    by (vm_compute; reflexivity).
  assert (Hb : vio_backend_ s = Some backend) by (vm_compute; reflexivity).
  assert (Hoff : FLAGS_use_feature_selection
                   (flags (at_dispatch responsive (with_viz_type 0 true)))
                 = false) by (vm_compute; reflexivity).
  pose proof (C5_feature_selection_is_fatal (E := responsive)
                4 (getLeftFrame (frame 4 false)) 40 10
                [13; 16; 20] [tt; tt; tt] s) as [Hon _].
  pose proof (C5_feature_selection_is_fatal (E := responsive)
                4 (getLeftFrame (frame 4 false)) 40 10
                [13; 16; 20] [tt; tt; tt]
                (at_dispatch responsive (with_viz_type 0 true))) as [_ Hno].
  split; [ | split ].
  - exact (proj2 (Hon Hfs) (result_for 4) backend Hc Hb).
  - intros w. destruct w; vm_compute; reflexivity.
  - exact (proj2 (Hno Hoff)).
Defined.

Lemma C6_witness :
  let s := at_dispatch responsive (with_viz_type 5 true) in
  mesh_computations (new_events s (dispatch4 responsive s))
  = computations_of_mode (configured_mode s) (flags s)
      (stereoFrame_lkf_ (stereo_vision_frontend_ s)) /\
  computations_of_mode (configured_mode s) (flags s)
      (stereoFrame_lkf_ (stereo_vision_frontend_ s))
  = [LandmarkMapQuery false (Some 4); MesherRequest] /\
  count is_landmark_map_query
    (new_events (pipeline (with_viz_type 7 true) [2; 4])
       (spin_all (E := responsive) (map packet [1; 2; 3; 4; 5])
          (pipeline (with_viz_type 7 true) [2; 4])))
  = 0%nat.
Proof.
  intros s.
  assert (Hfs : FLAGS_use_feature_selection (flags s) = false)
    by (vm_compute; reflexivity).
  assert (HR : dispatch4 responsive s
               = Ret tt (final (dispatch4 responsive s)))
    by (vm_compute; reflexivity).
  pose proof (C6_mode_selects_mesh_computation (E := responsive))
    as [Hmode Hrun].
  split; [ | split ].
  - exact (Hmode 4 (getLeftFrame (frame 4 false)) 40 10
             [13; 16; 20] [tt; tt; tt] s _ Hfs HR).
  - vm_compute. reflexivity.
  - apply Hrun. vm_compute. reflexivity.
Defined.

(** C6, as stated, fails: in the point-cloud mode that re-plots its points
    (POINTCLOUD_REPEATEDPOINTS) a keyframe dispatch asks the Backend for its
    3D points and never queries the landmark map. *)
Lemma C6_counterexample :
  let tr := trace (final (spin_all (E := responsive)
                            (map packet [1; 2; 3; 4])
                            (pipeline (with_viz_type 1 true) [3]))) in
  configured_mode (pipeline (with_viz_type 1 true) [3])
    = POINTCLOUD_REPEATEDPOINTS /\
  count is_dispatch tr = 1%nat /\
  count is_landmark_map_query tr = 0%nat /\
  In EvGet3DPoints tr.
Proof.
  intros tr. split; [ reflexivity | ].
  split; [ vm_compute; reflexivity | ].
  split; [ vm_compute; reflexivity | ].
  vm_compute. tauto.
Qed.

Lemma C7_witness :
  let s := booted responsive (with_viz_type 0 true) [] in
  exists s',
    shutdown s = Ret tt s' /\
    new_events s (shutdown s) = stop_events ++ join_events /\
    shutdown_ s' = true /\
    exists s'',
      shutdown s' = Halt (StdSystemError backend_thread_) s''.
Proof.
  intros s.
  assert (Hb : vio_backend_ s = Some backend) by (vm_compute; reflexivity).
  assert (Hth : forall w, thread s w = Running)
    by (intros w; destruct w; vm_compute; reflexivity).
  destruct (C7_shutdown_once s backend Hb Hth)
    as (s' & H1 & H2 & H3 & _ & _ & (s'' & G1 & _)).
  exists s'. split; [ exact H1 | ].
  split; [ rewrite H2; vm_compute; reflexivity | ].
  split; [ exact H3 | ].
  exists s''. exact G1.
Defined.

(** C7, as stated, fails: after a first [shutdown], a second one joins the
    back-end thread again although it is already joined, and does not
    return. *)
Lemma C7_counterexample :
  let s1 := final (shutdown (booted responsive (with_viz_type 0 true) [])) in
  thread s1 backend_thread_ = Joined /\
  (exists s2, shutdown s1 = Halt (StdSystemError backend_thread_) s2) /\
  count (fun e => match e with EvJoin backend_thread_ => true | _ => false end)
        (trace (final (shutdown s1))) = 2%nat.
Proof.
  intros s1. split; [ vm_compute; reflexivity | ].
  split; [ eexists; vm_compute; reflexivity | vm_compute; reflexivity ].
Qed.

Lemma C8_witness :
  let s := pipeline (with_viz_type 0 true) [2; 4] in
  let o := spin_all (E := responsive) (map packet [1; 2; 3; 4; 5]) s in
  count is_dispatch (new_events s o) = 2%nat /\
  count is_backend_push (new_events s o) = 2%nat /\
  count is_backend_pop (new_events s o) = 2%nat /\
  count is_visualizer_push (new_events s o) = 2%nat /\
  count is_render (new_events s o) = 2%nat.
Proof.
  intros s o.
  assert (Hfs : FLAGS_use_feature_selection (flags s) = false)
    by reflexivity.
  assert (HR : o = Ret tt (final o)) by (vm_compute; reflexivity).
  assert (Hresp : visualizer_responsive (E := responsive) s).
  { split; [ reflexivity | intros tr; eexists; reflexivity ]. }
  assert (Hd : count is_dispatch (new_events s o) = 2%nat)
    by (vm_compute; reflexivity).
  destruct (proj2 (proj2 (C8_one_backend_round_trip_per_dispatch
                            (E := responsive)))
              (map packet [1; 2; 3; 4; 5]) s (final o) Hfs HR)
    as (B1 & B2 & B3 & B4).
  fold o in B1, B2, B3, B4.
  split; [ exact Hd | ].
  split; [ rewrite B1; exact Hd | ].
  split; [ rewrite B2; exact Hd | ].
  assert (B3' : count is_visualizer_push (new_events s o) = 2%nat).
  { rewrite B3. change (FLAGS_visualize (flags s)) with true. exact Hd. }
  split; [ exact B3' | ].
  rewrite (B4 Hresp). exact B3'.
Defined.

Lemma C9_witness :
  let s := at_dispatch mesher_down (with_viz_type 5 true) in
  let o := dispatch4 mesher_down s in
  In (EvWarning Mesher_output_queue_did_not_pop_a_payload) (new_events s o) /\
  (exists s', o = Ret tt s') /\
  exists payload,
    In (EvVisualizerPush payload) (new_events s o) /\
    vi_mesher_output_payload_ payload = default_MesherOutputPayload.
Proof.
  intros s o.
  assert (Hfs : FLAGS_use_feature_selection (flags s) = false)
    by (vm_compute; reflexivity).
  assert (Hmode : configured_mode s = MESH2DTo3Dsparse)
    by (vm_compute; reflexivity).
  assert (Hc : statusSmartStereoMeasurements s = Some (result_for 4))
    by (vm_compute; reflexivity).
  assert (Hb : vio_backend_ s = Some backend) by (vm_compute; reflexivity).
  assert (Hbo : forall tr, backend_output_pop (Environment := mesher_down) tr
                           <> PopNever) by (intros tr; discriminate).
  assert (Hmi : queue_shutdown s mesher_input_queue_ = false)
    by (vm_compute; reflexivity).
  assert (Hmu : mesher_unavailable (E := mesher_down) s)
    by (right; intros tr; reflexivity).
  assert (Hv : FLAGS_visualize (flags s) = true) by (vm_compute; reflexivity).
  destruct (C9_failed_mesher_pop_is_not_fatal (E := mesher_down)
              4 (getLeftFrame (frame 4 false)) 40 10 [13; 16; 20] [tt; tt; tt]
              s (result_for 4) backend Hfs Hmode Hc Hb Hbo Hmi Hmu)
    as (W & _ & _ & P).
  split; [ exact W | ].
  split; [ eexists; vm_compute; reflexivity | ].
  exact (P Hv).
Defined.

Lemma C10_witness :
  let s := at_dispatch responsive (with_viz_type 0 true) in
  let o := dispatch4 responsive s in
  statusSmartStereoMeasurements (final o) = Some (result_for 4) /\
  exists d1 payload d2,
    new_events s o = d1 ++ EvBackendPush payload :: d2 /\
    bi_status_smart_stereo_measurements_kf_ payload = result_for 4 /\
    count is_backend_push d1 = 0%nat /\
    count is_backend_push d2 = 0%nat.
Proof.
  intros s o.
  assert (Hfs : FLAGS_use_feature_selection (flags s) = false)
    by (vm_compute; reflexivity).
  assert (Hc : statusSmartStereoMeasurements s = Some (result_for 4))
    by (vm_compute; reflexivity).
  exact (proj1 (C10_tracking_result_forwarded_unmodified (E := responsive)
                  4 (getLeftFrame (frame 4 false)) 40 10
                  [13; 16; 20] [tt; tt; tt] s (result_for 4) Hc) Hfs).
Defined.

(** * The further properties on concrete runs *)

Import Cases.

Lemma first_spin_unsupported_backend_type_witness :
  let s := Pipeline_new (with_viz_type 0 true) unsupported_dataset
             (FE_new (fun _ => false)) in
  exists s',
    spin (E := responsive) (packet 1) s =
      Halt (LogFatal (Requested_backend_type_is_not_supported
                        (getBackendType (dataset_ s)))) s' /\
    new_events s (spin (E := responsive) (packet 1) s)
      = [EvProcessFirstStereoFrame (getStereoFrame (packet 1))] /\
    vio_backend_ s' = vio_backend_ s /\
    (forall w, thread s' w = thread s w) /\
    is_initialized s' = false.
Proof.
  intros s.
  exact (first_spin_unsupported_backend_type (E := responsive)
           (packet 1) s eq_refl eq_refl).
Defined.

Lemma launchThreads_once_witness :
  let s := set_backend (Some backend) (pipeline (with_viz_type 0 true) []) in
  exists s',
    launchThreads s = Ret tt s' /\
    new_events s (launchThreads s) = map EvLaunchThread workers_in_order /\
    (forall w, thread s' w = Running) /\
    exists s'',
      launchThreads s' = Halt (StdTerminate backend_thread_) s'' /\
      new_events s' (launchThreads s') = [EvLaunchThread backend_thread_] /\
      (forall w, thread s'' w = Running).
Proof.
  intros s.
  exact (proj1 (launchThreads_once s backend eq_refl) (fun w => eq_refl)).
Defined.

Lemma joinThreads_needs_running_threads_witness :
  let s0 := booted responsive (with_viz_type 0 true) [] in
  let s := final (stopThreads s0) in
  (exists s',
     joinThreads s = Ret tt s' /\
     new_events s (joinThreads s) = map EvJoin workers_in_order /\
     (forall w, thread s' w = Joined)) /\
  (exists pre w' s',
     (joinable (thread s0 w') = false /\
      joinThreads s0 = Halt (StdSystemError w') s' \/
      thread s0 w' = Running /\
      queue_shutdown s0 (worker_input_queue w') = false /\
      joinThreads s0 = Halt (JoinBlocked w') s') /\
     new_events s0 (joinThreads s0) = map EvJoin (pre ++ [w']) /\
     Forall (fun v => thread s0 v = Running /\
                      queue_shutdown s0 (worker_input_queue v) = true /\
                      thread s' v = Joined) pre /\
     thread s' w' = thread s0 w').
Proof.
  intros s0 s.
  assert (Hr : forall w, thread s w = Running)
    by (intros w; destruct w; vm_compute; reflexivity).
  assert (Hq : forall w, queue_shutdown s (worker_input_queue w) = true)
    by (intros w; destruct w; vm_compute; reflexivity).
  assert (Ho : queue_shutdown s0 (worker_input_queue backend_thread_) = false)
    by (vm_compute; reflexivity).
  split.
  - exact (proj1 (joinThreads_needs_running_threads s) Hr Hq).
  - exact (proj2 (joinThreads_needs_running_threads s0)
             backend_thread_ (or_intror Ho)).
Defined.

Lemma stopThreads_shuts_every_queue_witness :
  let s := booted responsive (with_viz_type 0 true) [] in
  exists s',
    stopThreads s = Ret tt s' /\
    new_events s (stopThreads s) = stop_events /\
    (forall q, queue_shutdown s' q = true) /\
    (forall w, thread s' w = thread s w) /\
    shutdown_ s' = shutdown_ s /\
    count is_join (new_events s (stopThreads s)) = 0%nat.
Proof.
  intros s.
  assert (Hb : vio_backend_ s = Some backend) by (vm_compute; reflexivity).
  exact (stopThreads_shuts_every_queue s backend Hb).
Defined.

Lemma shutdown_without_backend_witness :
  let s := pipeline (with_viz_type 0 true) [] in
  exists s',
    shutdown s = Halt NullBackend s' /\
    new_events s (shutdown s) =
      [EvQueueShutdown backend_input_queue_;
       EvQueueShutdown backend_output_queue_] /\
    shutdown_ s' = true /\
    (forall q, queue_shutdown s' q =
               match q with
               | backend_input_queue_ | backend_output_queue_ => true
               | _ => queue_shutdown s q
               end) /\
    (forall w, thread s' w = thread s w).
Proof.
  intros s. exact (shutdown_without_backend s eq_refl).
Defined.

Lemma spinOnce_empty_window_is_fatal_witness :
  let s := final (spin_all (E := responsive) (map packet [1; 2])
                    (pipeline (with_viz_type 0 true) [])) in
  imu_stamps_lkf_to_curr_f s = [13; 16; 20] /\
  spinOnce (E := responsive) (empty_packet 3) s
    = Halt (LogFatal CHECK_GT_imu_stamps_cols) s.
Proof.
  intros s.
  assert (Hs : imu_stamps_lkf_to_curr_f s = [13; 16; 20])
    by (vm_compute; reflexivity).
  split; [ exact Hs | ].
  assert (Hb : imu_stamps_lkf_to_curr_f s <> [])
    by (rewrite Hs; discriminate).
  exact (proj1 (spinOnce_empty_window_is_fatal (E := responsive)
                  (empty_packet 3) s Hb) eq_refl).
Defined.

Lemma spinOnce_after_reset_takes_window_verbatim_witness :
  let s := booted responsive (with_viz_type 0 true) [] in
  exists d,
    new_events s (spinOnce (E := responsive) (empty_packet 2) s) =
      EvPreintegrateGyro [] []
      :: EvProcessStereoFrame (getStereoFrame (empty_packet 2))
           (preintegrateGyroMeasurements
              (backend_view (Environment := responsive) (trace s)) [] [])
      :: d /\
    count is_tracking d = 0%nat /\ count is_preintegration d = 0%nat.
Proof.
  intros s.
  assert (Hb : vio_backend_ s = Some backend) by (vm_compute; reflexivity).
  assert (He : imu_stamps_lkf_to_curr_f s = []) by (vm_compute; reflexivity).
  exact (spinOnce_after_reset_takes_window_verbatim (E := responsive)
           (empty_packet 2) s backend Hb He).
Defined.

Lemma spin_all_tracks_frames_in_order_witness :
  let s := pipeline (with_viz_type 0 true) [3] in
  let packets := map packet [1; 2; 3; 4] in
  first_frames (new_events s (spin_all (E := responsive) packets s))
    = map getStereoFrame (firstn 1 packets) /\
  tracked_frames (new_events s (spin_all (E := responsive) packets s))
    = map getStereoFrame (skipn 1 packets).
Proof.
  intros s packets.
  assert (HR : spin_all (E := responsive) packets s
               = Ret tt (final (spin_all (E := responsive) packets s)))
    by (vm_compute; reflexivity).
  exact (spin_all_tracks_frames_in_order (E := responsive)
           packets s _ eq_refl HR).
Defined.

Lemma spin_leaves_lifecycle_alone_witness :
  let s := booted responsive (with_viz_type 0 true) [3] in
  lifecycle (final (spin_all (E := responsive) (map packet [2; 3; 4]) s))
  = lifecycle s.
Proof.
  intros s.
  assert (Hi : is_initialized s = true) by (vm_compute; reflexivity).
  exact (spin_leaves_lifecycle_alone (E := responsive)
           (map packet [2; 3; 4]) s Hi).
Defined.

Lemma spinOnce_resets_only_on_dispatch_witness :
  let s := booted responsive (with_viz_type 0 true) [1] in
  let s' := final (spinOnce (E := responsive) (packet 2) s) in
  imu_stamps_lkf_to_curr_f s' = [] /\
  imu_accgyr_lkf_to_curr_f s' = [] /\
  timestamp_lkf_value s' = 20.
Proof.
  intros s s'.
  assert (Hb : vio_backend_ s = Some backend) by (vm_compute; reflexivity).
  assert (Hp : packet_nonempty (packet 2)) by (split; discriminate).
  assert (Hc : buffers_coherent s) by (split; reflexivity).
  assert (HR : spinOnce (E := responsive) (packet 2) s = Ret tt s')
    by (vm_compute; reflexivity).
  destruct (spinOnce_resets_only_on_dispatch (E := responsive)
              (packet 2) s s' backend Hb Hp Hc HR) as (_ & _ & _ & H).
  assert (Hk : isKeyframe
                 (stereoFrame_km1_
                    (snd (processStereoFrame (getStereoFrame (packet 2))
                            (tracking_prior (E := responsive) (packet 2) s)
                            (stereo_vision_frontend_ s)))) = true)
    by (vm_compute; reflexivity).
  rewrite Hk in H. exact H.
Defined.

Lemma tracker_prior_spans_accumulated_window_witness :
  let s := final (spin_all (E := responsive) (map packet [1; 2])
                    (pipeline (with_viz_type 0 true) [])) in
  let d := new_events s (spinOnce (E := responsive) (packet 3) s) in
  filter is_preintegration d
    = [EvPreintegrateGyro [13; 16; 23; 26; 30] [tt; tt; tt; tt; tt]] /\
  filter is_tracking d = [EvProcessStereoFrame (frame 3 false) tt].
Proof.
  intros s d.
  assert (Hb : vio_backend_ s = Some backend) by (vm_compute; reflexivity).
  assert (Hacc : accumulate_imu (packet 3) s
                 = Ret tt (accumulated (packet 3) s))
    by (vm_compute; reflexivity).
  destruct (proj1 (tracker_prior_spans_accumulated_window (E := responsive)
                     (packet 3) s) backend _ Hb Hacc) as (H1 & H2 & _).
  split.
  - unfold d. rewrite H1. vm_compute. reflexivity.
  - unfold d. rewrite H2. vm_compute. reflexivity.
Defined.

Lemma spinOnce_backend_payload_witness :
  let s := booted responsive (with_viz_type 0 true) [1] in
  exists payload,
    filter is_backend_push
      (new_events s (spinOnce (E := responsive) (packet 2) s))
      = [EvBackendPush payload] /\
    bi_timestamp_kf_nsec_ payload = 20 /\
    bi_status_smart_stereo_measurements_kf_ payload = result_for 2 /\
    bi_imu_stamps_ payload = [13; 16; 20].
Proof.
  intros s.
  assert (Hb : vio_backend_ s = Some backend) by (vm_compute; reflexivity).
  assert (Hp : packet_nonempty (packet 2)) by (split; discriminate).
  assert (Hc : buffers_coherent s) by (split; reflexivity).
  assert (Hfs : FLAGS_use_feature_selection (flags s) = false)
    by (vm_compute; reflexivity).
  pose proof (spinOnce_backend_payload (E := responsive)
                (packet 2) s backend Hb Hp Hc Hfs) as H.
  cbv zeta in H.
  assert (Hk : isKeyframe
                 (stereoFrame_km1_
                    (snd (processStereoFrame (getStereoFrame (packet 2))
                            (tracking_prior (E := responsive) (packet 2) s)
                            (stereo_vision_frontend_ s)))) = true)
    by (vm_compute; reflexivity).
  rewrite Hk in H.
  eexists. split; [ exact H | ].
  split; [ reflexivity | ].
  split; vm_compute; reflexivity.
Defined.

Lemma feature_selection_is_the_whole_dispatch_witness :
  let s := at_selection responsive in
  exists poses,
    new_events s (dispatch4 responsive s) =
      [EvProcessKeyframe 4 (result_for 4) 40 10 [13; 16; 20] [tt; tt; tt];
       EvFeatureSelect (result_for 4) poses] /\
    map snd poses = map NsecToSec [40; 240] /\
    length poses = 2%nat /\
    statusSmartStereoMeasurements (final (dispatch4 responsive s))
      = Some (tt, []).
Proof.
  intros s.
  assert (Hfs : FLAGS_use_feature_selection (flags s) = true)
    by (vm_compute; reflexivity).
  assert (Hc : statusSmartStereoMeasurements s = Some (result_for 4))
    by (vm_compute; reflexivity).
  assert (Hb : exists b, vio_backend_ s = Some b)
    by (eexists; vm_compute; reflexivity).
  destruct Hb as (b & Hb).
  destruct (feature_selection_is_the_whole_dispatch (E := responsive)
              4 (getLeftFrame (frame 4 false)) 40 10 [13; 16; 20]
              [tt; tt; tt] s (result_for 4) b Hfs Hc Hb)
    as (poses & H1 & H2 & _ & H3 & H4).
  exists poses. split; [ exact H1 | ].
  split; [ exact H2 | ].
  split; [ exact H3 | ].
  rewrite H4. reflexivity.
Defined.

Lemma backend_answers_before_mesh_and_display_witness :
  let s := at_dispatch responsive (with_viz_type 0 true) in
  exists pre post,
    new_events s (dispatch4 responsive s) =
      pre ++ EvPopBlocking backend_output_queue_ :: post /\
    mesh_computations pre = [] /\
    count is_visualizer_side pre = 0%nat /\
    count is_backend_pop post = 0%nat.
Proof.
  intros s.
  assert (Hfs : FLAGS_use_feature_selection (flags s) = false)
    by (vm_compute; reflexivity).
  assert (Hc : statusSmartStereoMeasurements s = Some (result_for 4))
    by (vm_compute; reflexivity).
  exact (backend_answers_before_mesh_and_display (E := responsive)
           4 (getLeftFrame (frame 4 false)) 40 10 [13; 16; 20] [tt; tt; tt]
           s (result_for 4) Hfs Hc).
Defined.

Lemma no_visualization_no_visualizer_traffic_witness :
  let s := pipeline (with_viz_type 0 false) [2; 4] in
  count is_visualizer_side
    (new_events s (spin_all (E := responsive) (map packet [1; 2; 3; 4; 5]) s))
  = 0%nat /\
  count is_dispatch
    (new_events s (spin_all (E := responsive) (map packet [1; 2; 3; 4; 5]) s))
  = 2%nat.
Proof.
  intros s. split.
  - exact (no_visualization_no_visualizer_traffic (E := responsive)
             (map packet [1; 2; 3; 4; 5]) s eq_refl).
  - vm_compute. reflexivity.
Defined.

Lemma semantic_callback_runs_once_per_dispatch_witness :
  let s := with_callback coloring
             (at_dispatch responsive (with_viz_type 0 true)) in
  exists m payload,
    filter is_segmentation (new_events s (dispatch4 responsive s))
      = [EvSemanticMeshSegmentation m] /\
    filter is_visualizer_push (new_events s (dispatch4 responsive s))
      = [EvVisualizerPush payload] /\
    vi_mesher_output_payload_ payload = m /\
    m = default_MesherOutputPayload.
Proof.
  intros s.
  assert (Hv : FLAGS_visualize (flags s) = true) by (vm_compute; reflexivity).
  assert (Hcb : semantic_mesh_segmentation_callback_ s = Some coloring)
    by reflexivity.
  assert (HR : dispatch4 responsive s
               = Ret tt (final (dispatch4 responsive s)))
    by (vm_compute; reflexivity).
  destruct (semantic_callback_runs_once_per_dispatch (E := responsive)
              4 (getLeftFrame (frame 4 false)) 40 10 [13; 16; 20] [tt; tt; tt]
              s _ coloring Hv Hcb HR)
    as (m & payload & H1 & H2 & H3 & _ & H5).
  exists m, payload. split; [ exact H1 | ]. split; [ exact H2 | ].
  split; [ exact H3 | ].
  apply H5. vm_compute. discriminate.
Defined.

Lemma refused_mesher_push_is_fatal_witness :
  let s := set_queue_shutdown (fun _ => true)
             (at_dispatch responsive (with_viz_type 5 true)) in
  (exists s',
     dispatch4 responsive s
     = Halt (LogFatal CHECK_mesher_input_queue_push) s') /\
  count is_landmark_map_query (new_events s (dispatch4 responsive s)) = 1%nat /\
  count is_mesher_pop (new_events s (dispatch4 responsive s)) = 0%nat /\
  count is_visualizer_side (new_events s (dispatch4 responsive s)) = 0%nat.
Proof.
  intros s.
  assert (Hfs : FLAGS_use_feature_selection (flags s) = false)
    by (vm_compute; reflexivity).
  assert (Hc : statusSmartStereoMeasurements s = Some (result_for 4))
    by (vm_compute; reflexivity).
  assert (Hb : vio_backend_ s = Some backend) by (vm_compute; reflexivity).
  assert (Hm : configured_mode s = MESH2DTo3Dsparse)
    by (vm_compute; reflexivity).
  exact (refused_mesher_push_is_fatal (E := responsive)
           4 (getLeftFrame (frame 4 false)) 40 10 [13; 16; 20] [tt; tt; tt]
           s (result_for 4) backend Hfs Hc Hb
           (fun tr (H : Popped tt = PopNever) =>
              False_ind False (eq_ind (Popped tt)
                (fun o => match o with Popped _ => True | _ => False end)
                I PopNever H))
           Hm eq_refl).
Defined.

Lemma dispatches_chain_last_keyframe_timestamps_witness :
  let s := booted responsive (with_viz_type 0 true) [1; 3] in
  let d := new_events s
             (spin_all (E := responsive) (map packet [2; 3; 4; 5]) s) in
  dispatch_stamps d = [(20, 10); (40, 20)] /\
  lkf_chained (timestamp_lkf_value s) (dispatch_stamps d).
Proof.
  intros s d.
  assert (Hi : is_initialized s = true) by (vm_compute; reflexivity).
  assert (Hb : vio_backend_ s = Some backend) by (vm_compute; reflexivity).
  assert (Hc : buffers_coherent s) by (split; reflexivity).
  assert (Hp : Forall packet_nonempty (map packet [2; 3; 4; 5])).
  { repeat constructor; discriminate. }
  assert (HR : spin_all (E := responsive) (map packet [2; 3; 4; 5]) s
               = Ret tt (final (spin_all (E := responsive)
                                  (map packet [2; 3; 4; 5]) s)))
    by (vm_compute; reflexivity).
  split; [ vm_compute; reflexivity | ].
  exact (proj1 (dispatches_chain_last_keyframe_timestamps (E := responsive)
                  (map packet [2; 3; 4; 5]) s _ backend Hi Hb Hc Hp HR)).
Defined.

Lemma spinDisplayOnce_shows_every_image_witness :
  let s := booted responsive (with_viz_type 0 true) [] in
  let out := {| visualization_type_ := MESH2D;
                images_to_display_ := [(1, tt); (2, tt)] |} in
  exists s',
    spinDisplayOnce (Some out) s = Ret tt s' /\
    s' = set_trace (trace s') s /\
    new_events s (spinDisplayOnce (Some out) s) =
      (if is_NONE (visualization_type_ out) then [] else [EvWindowSpinOnce])
      ++ map (fun i => EvImshow (fst i)) (images_to_display_ out)
      ++ [EvWaitKey].
Proof.
  intros s out. exact (spinDisplayOnce_shows_every_image (Some out) s).
Defined.

Lemma spin_ignores_shutdown_flag_witness :
  let s := booted responsive (with_viz_type 0 true) [1] in
  spin_all (E := responsive) (map packet [2; 3]) (set_shutdown true s)
  = with_shutdown_flag true
      (spin_all (E := responsive) (map packet [2; 3]) s).
Proof.
  intros s.
  exact (spin_ignores_shutdown_flag (E := responsive)
           (map packet [2; 3]) true s).
Defined.
